(** * Indexing and hybrid retrieval of repo-reader: a shallow embedding

    The development follows [api/tools/tidb_vector_store_fixed.py]
    (class [TiDBVectorStore]), [api/tools/code_indexer.py]
    ([CodeIndexerTool], [CodeSearchTool]), [api/tools/rag_query_tool.py]
    ([RAGQueryTool]) and, for [search_code], [api/agent.py].

    Conventions.
    - Python [str] is [string], one [ascii] per character; [len] is
      [String.length] read in [Z].
    - Python [int] is [Z]; counters and row limits, which only count
      upwards from 0, are [nat].
    - Python [float] is the carrier [F] of the class [PyFloat], with the
      operations the code uses ([1.0 - d], [r / 10.0], [(a + b) / 2],
      [<]); [Binary64] instantiates it with IEEE binary64.
    - A [dict] whose iteration order the code relies on
      ([next(iter(d))], [d.values()]) is an association list in insertion
      order ([PyDict]).
    - A dict-shaped result is a record; a key that is not always present
      is an [option] field, and reading it with [d[k]] when absent raises.
    - The table [code_embeddings] is the list of its rows in storage order.
    - Code that may raise returns a [res]; where the caller only catches
      and drops the exception, [None]. *)

From Stdlib Require Import List String Ascii ZArith Lia Bool Arith.
From Stdlib Require Import Sorting.Sorted Sorting.Permutation.
From Stdlib Require Import DecimalString DecimalNat DecimalZ.
From Stdlib Require Import Floats.
Import ListNotations.

Local Open Scope string_scope.
Local Open Scope list_scope.
Local Open Scope Z_scope.

(** String concatenation, Python's [+] on [str]; [++] is kept for lists. *)
Infix "+++" := String.append (right associativity, at level 60).

(** The exceptions the modelled code can raise by itself. *)
Inductive exn : Type :=
| KeyError (key : string)
| StopIteration.

(** [str(e)] *)
Definition str_exn (e : exn) : string :=
  match e with
  | KeyError key => "'" +++ key +++ "'"
  | StopIteration => ""
  end.

(** A computation that returns or raises. *)
Inductive res (A : Type) : Type :=
| Ok (a : A)
| Raise (e : exn).
Arguments Ok {A} a.
Arguments Raise {A} e.

(** Sequencing of computations that may raise. *)
Notation "x <- e ;; k" :=
  (match e with Ok x => k | Raise err => Raise err end)
  (at level 61, e at next level, right associativity).

(** [d[key]] on a dict-shaped record: [KeyError] when the key is absent. *)
Definition getitem {A : Type} (key : string) (field : option A) : res A :=
  match field with
  | Some v => Ok v
  | None => Raise (KeyError key)
  end.

(* ================================================================== *)
(** * Python primitives *)
(* ================================================================== *)

Module Py.

(** The line feed, ['\n']. *)
Definition LF : ascii := "010"%char.

(** The string ["\n"]. *)
Definition NL : string := String LF "".

(** The double quote. *)
Definition DQ : string := String (ascii_of_nat 34) "".

(** [len(s)] *)
Definition len (s : string) : Z := Z.of_nat (String.length s).

(** [s.split('\n')]: never empty; [''.split('\n') == ['']]. *)
Fixpoint split_lines (s : string) : list string :=
  match s with
  | EmptyString => [EmptyString]
  | String c s' =>
      if Ascii.eqb c LF then EmptyString :: split_lines s'
      else match split_lines s' with
           | l :: ls => String c l :: ls
           | [] => [String c EmptyString]
           end
  end.

(** [sep.join(l)] *)
Fixpoint join (sep : string) (l : list string) : string :=
  match l with
  | [] => EmptyString
  | [x] => x
  | x :: rest => x +++ sep +++ join sep rest
  end.

(** [''.join(l)] *)
Definition concat (l : list string) : string := join "" l.

(** [str(n)] for a non-negative counter. *)
Definition str_nat (n : nat) : string :=
  NilEmpty.string_of_uint (Nat.to_uint n).

(** [str(z)] for an [int]. *)
Definition str (z : Z) : string :=
  NilEmpty.string_of_int (Z.to_int z).

(** [s[:n]] for [n >= 0]. *)
Definition take (n : nat) (s : string) : string := substring 0 n s.

(** [enumerate(l)], counting from [i]. *)
Fixpoint enumerate_from {A : Type} (i : Z) (l : list A) : list (Z * A) :=
  match l with
  | [] => []
  | x :: l' => (i, x) :: enumerate_from (i + 1) l'
  end.

Definition enumerate {A : Type} (l : list A) : list (Z * A) :=
  enumerate_from 0 l.

(** [q in s] on strings: [q] occurs in [s] as a contiguous run,
    compared character by character (case-sensitive). *)
Fixpoint contains (q s : string) : bool :=
  String.prefix q s
  || match s with
     | EmptyString => false
     | String _ s' => contains q s'
     end.

(** [q] occurs in [s]: [s] is some text, then [q], then some text. *)
Definition occurs (q s : string) : Prop :=
  exists before after : string, s = before +++ q +++ after.

(** [c in s] for a character. *)
Fixpoint has_char (c : ascii) (s : string) : bool :=
  match s with
  | EmptyString => false
  | String d s' => Ascii.eqb c d || has_char c s'
  end.

(** Stable insertion into a list of decorated items. [before k1 k2] says
    that key [k1] sorts strictly before key [k2]. *)
Fixpoint insert_by {K A : Type} (before : K -> K -> bool)
         (x : K * A) (l : list (K * A)) : list (K * A) :=
  match l with
  | [] => [x]
  | y :: l' =>
      if before (fst y) (fst x) then y :: insert_by before x l'
      else x :: y :: l'
  end.

(** A stable sort of decorated items: the one arrangement of [l] that is
    ordered by [before] and keeps items with equivalent keys in their
    original order (when [before] is a strict weak order). *)
Definition sort_by {K A : Type} (before : K -> K -> bool)
           (l : list (K * A)) : list (K * A) :=
  fold_right (insert_by before) [] l.

(** No later item sorts strictly before an earlier one. *)
Definition ordered_by {K A : Type} (before : K -> K -> bool)
           (l : list (K * A)) : Prop :=
  StronglySorted (fun x y => before (fst y) (fst x) = false) l.

(** [[f(x) for x in l]] where [f] may raise. *)
Fixpoint mapM {A B : Type} (f : A -> res B) (l : list A) : res (list B) :=
  match l with
  | [] => Ok []
  | x :: l' => y <- f x ;; ys <- mapM f l' ;; Ok (y :: ys)
  end.

(** A [for] loop whose body may raise. *)
Fixpoint foldM {A S : Type} (f : S -> A -> res S) (l : list A) (s : S)
  : res S :=
  match l with
  | [] => Ok s
  | x :: l' => s' <- f s x ;; foldM f l' s'
  end.

End Py.

(** An insertion-ordered [dict] with [str] keys. *)
Module PyDict.

Definition t (V : Type) : Type := list (string * V).

(** [d.get(k)] *)
Fixpoint get {V : Type} (k : string) (d : t V) : option V :=
  match d with
  | [] => None
  | (k', v) :: d' => if String.eqb k k' then Some v else get k d'
  end.

(** [k in d] *)
Definition mem {V : Type} (k : string) (d : t V) : bool :=
  match get k d with Some _ => true | None => false end.

(** [d[k] = v]: an existing key keeps its place, a new key goes last. *)
Fixpoint set {V : Type} (k : string) (v : V) (d : t V) : t V :=
  match d with
  | [] => [(k, v)]
  | (k', v') :: d' =>
      if String.eqb k k' then (k, v) :: d' else (k', v') :: set k v d'
  end.

(** [del d[k]] for a key that is present. *)
Fixpoint del {V : Type} (k : string) (d : t V) : t V :=
  match d with
  | [] => []
  | (k', v') :: d' =>
      if String.eqb k k' then d' else (k', v') :: del k d'
  end.

(** [next(iter(d))]: the key inserted first; raises on an empty dict. *)
Definition first_key {V : Type} (d : t V) : res string :=
  match d with
  | [] => Raise StopIteration
  | (k, _) :: _ => Ok k
  end.

(** [d.values()] *)
Definition values {V : Type} (d : t V) : list V := map snd d.

(** [list(d)], the keys. *)
Definition keys {V : Type} (d : t V) : list string := map fst d.

End PyDict.

(* ================================================================== *)
(** * Floats, and the services the store depends on *)
(* ================================================================== *)

(** The float operations the retrieval code uses. *)
Class PyFloat : Type := {
  F : Type;
  (** [1.0] *)
  f_one : F;
  (** [10.0] *)
  f_ten : F;
  (** [2], converted to float by [/] *)
  f_two : F;
  (** [0], the default score of a source *)
  f_zero : F;
  fadd : F -> F -> F;
  fsub : F -> F -> F;
  fdiv : F -> F -> F;
  (** [a < b] *)
  fltb : F -> F -> bool
}.

(** [before] is a strict weak order among the keys [ks]. *)
Definition strict_weak_among {K : Type} (before : K -> K -> bool)
           (ks : list K) : Prop :=
  (forall a b, In a ks -> In b ks -> before a b = true -> before b a = false)
  /\ (forall a b c, In a ks -> In b ks -> In c ks ->
        before a b = false -> before b c = false -> before a c = false).

(** [<] orders the floats [xs]: among them it is a strict weak order.
    Floats none of which is NaN satisfy this. *)
Definition comparable {fl : PyFloat} (xs : list F) : Prop :=
  strict_weak_among fltb xs.

(** Among the distances [ds], [1.0 - d] does not invert the order: a
    strictly larger similarity comes from a strictly smaller distance.
    Rounded subtraction satisfies this away from NaN, being monotone. *)
Definition similarity_antitone {fl : PyFloat} (ds : list F) : Prop :=
  forall a b, In a ds -> In b ds ->
    fltb (fsub f_one a) (fsub f_one b) = true -> fltb b a = true.

(** The two conditions, decided. *)
Definition strict_weak_amongb {K : Type} (before : K -> K -> bool)
           (ks : list K) : bool :=
  forallb (fun a =>
    forallb (fun b =>
      implb (before a b) (negb (before b a))
      && forallb (fun c =>
           implb (negb (before a b) && negb (before b c))
                 (negb (before a c))) ks) ks) ks.

Definition similarity_antitoneb {fl : PyFloat} (ds : list F) : bool :=
  forallb (fun a =>
    forallb (fun b =>
      implb (fltb (fsub f_one a) (fsub f_one b)) (fltb b a)) ds) ds.

(** An embedding, [List[float]]. *)
Definition Vec {fl : PyFloat} : Type := list F.

(** What the store calls and does not define. *)
Class Backend {fl : PyFloat} : Type := {
  (** [hashlib.md5(text.encode()).hexdigest()] *)
  md5_hexdigest : string -> string;
  (** [self.embedding_model.encode(texts, show_progress_bar=False)], one
      vector per text; [None] when the model raises. *)
  model_encode : list string -> option (list Vec);
  (** TiDB's [VEC_COSINE_DISTANCE], behind
      [CodeEmbedding.embedding.cosine_distance(query_embedding)]. *)
  cosine_distance : Vec -> Vec -> F
}.

(* ================================================================== *)
(** * The chunker: [TiDBVectorStore.chunk_code_file] *)
(* ================================================================== *)

(** One entry of the list [chunk_code_file] returns. *)
Module Chunk.
Record t : Type := mk {
  chunk_id   : string;
  content    : string;
  start_line : Z;
  end_line   : Z;
  file_path  : string
}.
End Chunk.

(** The loop variables of [chunk_code_file]. *)
Record ChunkLoop : Type := mkChunkLoop {
  chunks        : list Chunk.t;
  current_chunk : list string;
  current_size  : Z;
  chunk_num     : nat
}.

(** One iteration of [for line_num, line in enumerate(lines)];
    [nlines] is [len(lines)]. *)
Definition chunk_step (path : string) (chunk_size nlines : Z)
           (st : ChunkLoop) (it : Z * string) : ChunkLoop :=
  let '(line_num, line) := it in
  let cur := current_chunk st ++ [line] in
  let size := current_size st + (Py.len line + 1) in
  if (chunk_size <=? size) || (line_num =? nlines - 1) then
    match cur with
    | _ :: _ =>
        let c := {| Chunk.chunk_id := "chunk_" +++ Py.str_nat (chunk_num st);
                    Chunk.content := Py.join Py.NL cur;
                    Chunk.start_line := line_num - Z.of_nat (List.length cur) + 1;
                    Chunk.end_line := line_num;
                    Chunk.file_path := path |} in
        {| chunks := chunks st ++ [c];
           current_chunk := [];
           current_size := 0;
           chunk_num := S (chunk_num st) |}
    | [] =>
        {| chunks := chunks st; current_chunk := cur;
           current_size := size; chunk_num := chunk_num st |}
    end
  else
    {| chunks := chunks st; current_chunk := cur;
       current_size := size; chunk_num := chunk_num st |}.

Definition chunk_loop (path : string) (chunk_size nlines : Z)
           (st : ChunkLoop) (its : list (Z * string)) : ChunkLoop :=
  fold_left (chunk_step path chunk_size nlines) its st.

Definition chunk_init : ChunkLoop :=
  {| chunks := []; current_chunk := []; current_size := 0; chunk_num := 0 |}.

(** [chunk_code_file(content, file_path, chunk_size)] *)
Definition chunk_code_file (text path : string) (chunk_size : Z) : list Chunk.t :=
  let lines := Py.split_lines text in
  chunks (chunk_loop path chunk_size (Z.of_nat (List.length lines))
            chunk_init (Py.enumerate lines)).

(** The default [chunk_size = 1000]. *)
Definition default_chunk_size : Z := 1000.

(** The chunks the loop still appends, as a function of the loop
    variables other than [chunks] and of the lines still to come: the
    loop of [chunk_code_file] read as a recursion. *)
Fixpoint emitted (path : string) (chunk_size nlines : Z)
         (cur : list string) (size : Z) (num : nat)
         (its : list (Z * string)) : list Chunk.t :=
  match its with
  | [] => []
  | (line_num, line) :: its' =>
      if (chunk_size <=? size + (Py.len line + 1)) || (line_num =? nlines - 1)
      then {| Chunk.chunk_id := "chunk_" +++ Py.str_nat num;
              Chunk.content := Py.join Py.NL (cur ++ [line]);
              Chunk.start_line :=
                line_num - Z.of_nat (List.length (cur ++ [line])) + 1;
              Chunk.end_line := line_num;
              Chunk.file_path := path |}
           :: emitted path chunk_size nlines [] 0 (S num) its'
      else emitted path chunk_size nlines
                   (cur ++ [line]) (size + (Py.len line + 1)) num its'
  end.

(** [tiles first cs stop]: the line ranges of [cs], in order, are
    non-empty, start at [first], follow one another without gap or
    overlap, and end just before [stop]. *)
Fixpoint tiles (first : Z) (cs : list Chunk.t) (stop : Z) : Prop :=
  match cs with
  | [] => first = stop
  | c :: cs' =>
      Chunk.start_line c = first /\ Chunk.start_line c <= Chunk.end_line c
      /\ tiles (Chunk.end_line c + 1) cs' stop
  end.

(* ================================================================== *)
(** * SQL [LIKE], as [Column.contains] uses it *)
(* ================================================================== *)

Module Sql.

(** [s LIKE p] with the default escape character: [%] matches any run of
    characters, [_] any one character, a backslash before [%], [_] or a
    backslash makes that character literal, and any other backslash is
    itself literal, as TiDB reads it. Characters compare exactly (binary
    collation, TiDB's default). *)
Fixpoint like (p s : string) {struct p} : bool :=
  match p with
  | EmptyString =>
      match s with EmptyString => true | String _ _ => false end
  | String c p' =>
      if Ascii.eqb c "%" then
        (fix any (s : string) : bool :=
           like p' s
           || match s with
              | EmptyString => false
              | String _ s' => any s'
              end) s
      else if Ascii.eqb c "_" then
        match s with
        | EmptyString => false
        | String _ s' => like p' s'
        end
      else if Ascii.eqb c "\" then
        match p' with
        | String d p'' =>
            if Ascii.eqb d "%" || Ascii.eqb d "_" || Ascii.eqb d "\" then
              match s with
              | EmptyString => false
              | String e s' => Ascii.eqb e d && like p'' s'
              end
            else
              match s with
              | EmptyString => false
              | String e s' => Ascii.eqb e "\" && like p' s'
              end
        | EmptyString =>
            match s with
            | EmptyString => false
            | String e s' => Ascii.eqb e "\" && like p' s'
            end
        end
      else
        match s with
        | EmptyString => false
        | String e s' => Ascii.eqb e c && like p' s'
        end
  end.

(** [column.contains(other)] renders [column LIKE concat('%', other, '%')]
    with [other] bound as it is: no [autoescape]. *)
Definition contains (column other : string) : bool :=
  like ("%" +++ other +++ "%") column.

(** [q] holds none of the characters [LIKE] reads specially. *)
Definition plain (q : string) : bool :=
  negb (Py.has_char "%" q || Py.has_char "_" q || Py.has_char "\" q).

End Sql.

(* ================================================================== *)
(** * The table [code_embeddings] and the store *)
(* ================================================================== *)

(** The JSON object kept in [chunk_metadata]. *)
Module Metadata.
Record t : Type := mk {
  language   : string;
  start_line : Z;
  end_line   : Z;
  chunk_size : Z;
  file_size  : Z
}.
End Metadata.

(** A row of [code_embeddings]. The primary key [id] and [created_at] are
    left out: no code reads them, and the position of a row in the table
    stands for its [id]. A [chunk_metadata] that is NULL or empty is
    [None]; the JSON text is kept as the object it encodes. *)
Module CodeEmbedding.
Record t {fl : PyFloat} : Type := mk {
  repo_name      : string;
  repo_url       : string;
  file_path      : string;
  chunk_id       : string;
  content        : string;
  embedding      : Vec;
  chunk_metadata : option Metadata.t
}.
End CodeEmbedding.

(** A search result, the dict the three searches build. [metadata] is
    [None] for the empty dict. *)
Module Result.
Record t {fl : PyFloat} : Type := mk {
  file_path        : string;
  chunk_id         : string;
  content          : string;
  full_content     : option string;
  metadata         : option Metadata.t;
  similarity_score : option F;
  relevance_score  : option F;
  search_type      : option string;
  combined_score   : option F
}.
End Result.

(** The state of a [TiDBVectorStore]: the table behind its session, its
    embedding cache, and a count of the calls made to the embedding
    model. *)
Record TiDBVectorStore {fl : PyFloat} : Type := mkStore {
  table             : list CodeEmbedding.t;
  _embedding_cache  : PyDict.t Vec;
  model_invocations : nat
}.

(** [self._cache_max_size] *)
Definition _cache_max_size : nat := 1000.

(** [__init__]: the table is dropped and created again, the cache is
    empty. *)
Definition TiDBVectorStore_init {fl : PyFloat} : TiDBVectorStore :=
  {| table := []; _embedding_cache := []; model_invocations := 0 |}.

(** The store after one more call to the embedding model. *)
Definition invoked {fl : PyFloat} (self : TiDBVectorStore) : TiDBVectorStore :=
  {| table := table self;
     _embedding_cache := _embedding_cache self;
     model_invocations := S (model_invocations self) |}.

(** The store with its cache replaced. *)
Definition with_cache {fl : PyFloat} (self : TiDBVectorStore)
           (cache : PyDict.t Vec) : TiDBVectorStore :=
  {| table := table self;
     _embedding_cache := cache;
     model_invocations := model_invocations self |}.

(** The cache with room for one more entry: at capacity, the key inserted
    first is deleted. *)
Definition make_room {V : Type} (cache : PyDict.t V) : res (PyDict.t V) :=
  if (_cache_max_size <=? List.length cache)%nat then
    oldest_key <- PyDict.first_key cache ;;
    Ok (PyDict.del oldest_key cache)
  else Ok cache.

(** [embed_text(text)]: the embedding, or [None] when the model raises. *)
Definition embed_text {fl : PyFloat} {be : Backend}
           (self : TiDBVectorStore) (text : string)
  : option Vec * TiDBVectorStore :=
  let text_hash := md5_hexdigest text in
  match PyDict.get text_hash (_embedding_cache self) with
  | Some cached => (Some cached, self)
  | None =>
      match model_encode [text] with
      | Some (embedding :: _) =>
          match make_room (_embedding_cache self) with
          | Ok cache =>
              (Some embedding,
               with_cache (invoked self) (PyDict.set text_hash embedding cache))
          | Raise _ => (None, invoked self)
          end
      | _ => (None, invoked self)
      end
  end.

(** A run of [embed_text] calls, results dropped. *)
Definition embed_texts {fl : PyFloat} {be : Backend}
           (self : TiDBVectorStore) (texts : list string) : TiDBVectorStore :=
  fold_left (fun s text => snd (embed_text s text)) texts self.

(** The cache holds each hash once and at most [_cache_max_size]
    entries. *)
Definition cache_ok {fl : PyFloat} (self : TiDBVectorStore) : Prop :=
  NoDup (PyDict.keys (_embedding_cache self))
  /\ (List.length (_embedding_cache self) <= _cache_max_size)%nat.

(** ** Indexing *)

(** An entry of [repo_data['files']]; an absent key reads as the default
    [.get] gives it. *)
Module FileInfo.
Record t : Type := mk {
  path     : string;
  content  : string;
  language : string
}.
End FileInfo.

(** [repo_data]. [repo_name] is [None] when the key is absent: the store
    and the indexing tool read it with different defaults. *)
Module RepoData.
Record t : Type := mk {
  repo_name  : option string;
  github_url : string;
  files      : list FileInfo.t
}.
End RepoData.

(** What [index_repository] returns. *)
Module IndexResult.
Record t : Type := mk {
  success       : bool;
  indexed_files : nat;
  total_chunks  : nat;
  repo_name     : string
}.
End IndexResult.

(** The variables of the loop over the files: the rows added to the
    session, the two counters, and the model calls made. *)
Record IndexLoop {fl : PyFloat} : Type := mkIndexLoop {
  added         : list CodeEmbedding.t;
  indexed_count : nat;
  total_chunks  : nat;
  encode_calls  : nat
}.

(** The row built from a chunk and its embedding. *)
Definition code_embedding {fl : PyFloat} (repo_name repo_url : string)
           (file : FileInfo.t) (ce : Chunk.t * Vec) : CodeEmbedding.t :=
  let '(chunk, embedding) := ce in
  {| CodeEmbedding.repo_name := repo_name;
     CodeEmbedding.repo_url := repo_url;
     CodeEmbedding.file_path := FileInfo.path file;
     CodeEmbedding.chunk_id := Chunk.chunk_id chunk;
     CodeEmbedding.content := Chunk.content chunk;
     CodeEmbedding.embedding := embedding;
     CodeEmbedding.chunk_metadata :=
       Some {| Metadata.language := FileInfo.language file;
               Metadata.start_line := Chunk.start_line chunk;
               Metadata.end_line := Chunk.end_line chunk;
               Metadata.chunk_size := Py.len (Chunk.content chunk);
               Metadata.file_size := Py.len (FileInfo.content file) |} |}.

(** One iteration of [for file_info in files]. *)
Definition index_file {fl : PyFloat} {be : Backend}
           (repo_name repo_url : string)
           (st : IndexLoop) (file : FileInfo.t) : IndexLoop :=
  let text := FileInfo.content file in
  if String.eqb text "" || (100000 <? Py.len text) then st
  else
    let chunks := chunk_code_file text (FileInfo.path file) default_chunk_size in
    match model_encode (map Chunk.content chunks) with
    | Some all_embeddings =>
        let rows := map (code_embedding repo_name repo_url file)
                        (combine chunks all_embeddings) in
        {| added := added st ++ rows;
           indexed_count := S (indexed_count st);
           total_chunks := (total_chunks st + List.length rows)%nat;
           encode_calls := S (encode_calls st) |}
    | None =>
        {| added := added st;
           indexed_count := indexed_count st;
           total_chunks := total_chunks st;
           encode_calls := S (encode_calls st) |}
    end.

(** [DELETE FROM code_embeddings WHERE repo_name = :repo_name] *)
Definition delete_repo {fl : PyFloat} (repo_name : string)
           (rows : list CodeEmbedding.t) : list CodeEmbedding.t :=
  filter (fun r => negb (String.eqb (CodeEmbedding.repo_name r) repo_name)) rows.

(** [SELECT ... WHERE repo_name = :repo_name] *)
Definition select_repo {fl : PyFloat} (repo_name : string)
           (rows : list CodeEmbedding.t) : list CodeEmbedding.t :=
  filter (fun r => String.eqb (CodeEmbedding.repo_name r) repo_name) rows.

(** [index_repository(repo_data)] *)
Definition index_repository {fl : PyFloat} {be : Backend}
           (self : TiDBVectorStore) (repo_data : RepoData.t)
  : IndexResult.t * TiDBVectorStore :=
  let repo_name :=
    match RepoData.repo_name repo_data with Some n => n | None => "" end in
  let repo_url := RepoData.github_url repo_data in
  let cleared := delete_repo repo_name (table self) in
  let st := fold_left (index_file repo_name repo_url)
                      (RepoData.files repo_data)
                      {| added := []; indexed_count := 0;
                         total_chunks := 0; encode_calls := 0 |} in
  ({| IndexResult.success := true;
      IndexResult.indexed_files := indexed_count st;
      IndexResult.total_chunks := total_chunks st;
      IndexResult.repo_name := repo_name |},
   {| table := cleared ++ added st;
      _embedding_cache := _embedding_cache self;
      model_invocations := (model_invocations self + encode_calls st)%nat |}).

(** What [get_repository_stats] returns. *)
Module Stats.
Record t : Type := mk {
  total_chunks   : nat;
  total_files    : nat;
  avg_chunk_size : nat
}.
End Stats.

(** [get_repository_stats(repo_name)] *)
Definition get_repository_stats {fl : PyFloat}
           (self : TiDBVectorStore) (repo_name : string) : Stats.t :=
  let rows := select_repo repo_name (table self) in
  {| Stats.total_chunks := List.length rows;
     Stats.total_files :=
       List.length (nodup string_dec (map CodeEmbedding.file_path rows));
     Stats.avg_chunk_size := 0 |}.

(** ** Searching *)

(** [ORDER BY distance]: ascending. *)
Definition order_by_distance {fl : PyFloat} {A : Type}
           (l : list (F * A)) : list (F * A) :=
  Py.sort_by fltb l.

(** The dict [vector_search] builds from a row and its distance. *)
Definition vector_result {fl : PyFloat} (row : F * CodeEmbedding.t) : Result.t :=
  let '(distance, embedding) := row in
  let text := CodeEmbedding.content embedding in
  {| Result.file_path := CodeEmbedding.file_path embedding;
     Result.chunk_id := CodeEmbedding.chunk_id embedding;
     Result.content :=
       if 1000 <? Py.len text then Py.take 1000 text +++ "..." else text;
     Result.full_content := Some text;
     Result.metadata := CodeEmbedding.chunk_metadata embedding;
     Result.similarity_score := Some (fsub f_one distance);
     Result.relevance_score := None;
     Result.search_type := None;
     Result.combined_score := None |}.

(** The rows of the query in [vector_search], with their distances. *)
Definition vector_query {fl : PyFloat} {be : Backend}
           (rows : list CodeEmbedding.t) (repo_name : string)
           (query_embedding : Vec) (limit : nat) : list (F * CodeEmbedding.t) :=
  firstn limit
    (order_by_distance
       (map (fun r => (cosine_distance (CodeEmbedding.embedding r) query_embedding, r))
            (select_repo repo_name rows))).

(** [vector_search(query, repo_name, limit)]; an exception gives [[]]. *)
Definition vector_search {fl : PyFloat} {be : Backend}
           (self : TiDBVectorStore) (query repo_name : string) (limit : nat)
  : list Result.t * TiDBVectorStore :=
  match embed_text self query with
  | (Some query_embedding, self') =>
      (map vector_result (vector_query (table self') repo_name query_embedding limit),
       self')
  | (None, self') => ([], self')
  end.

(** The dict [fulltext_search] builds from a row. *)
Definition fulltext_result {fl : PyFloat} (embedding : CodeEmbedding.t) : Result.t :=
  {| Result.file_path := CodeEmbedding.file_path embedding;
     Result.chunk_id := CodeEmbedding.chunk_id embedding;
     Result.content := CodeEmbedding.content embedding;
     Result.full_content := None;
     Result.metadata := CodeEmbedding.chunk_metadata embedding;
     Result.similarity_score := None;
     Result.relevance_score := Some f_one;
     Result.search_type := None;
     Result.combined_score := None |}.

(** The rows of the query in [fulltext_search]. *)
Definition text_query {fl : PyFloat}
           (rows : list CodeEmbedding.t) (repo_name query : string) (limit : nat)
  : list CodeEmbedding.t :=
  firstn limit
    (filter (fun r => Sql.contains (CodeEmbedding.content r) query)
            (select_repo repo_name rows)).

(** [fulltext_search(query, repo_name, limit)] *)
Definition fulltext_search {fl : PyFloat}
           (self : TiDBVectorStore) (query repo_name : string) (limit : nat)
  : list Result.t :=
  map fulltext_result (text_query (table self) repo_name query limit).

(** The identity of a chunk within its repository. *)
Definition row_ident {fl : PyFloat} (row : CodeEmbedding.t) : string * string :=
  (CodeEmbedding.file_path row, CodeEmbedding.chunk_id row).

Definition result_ident {fl : PyFloat} (result : Result.t) : string * string :=
  (Result.file_path result, Result.chunk_id result).

(** The corpus of a repository is well formed: no two of its rows share
    [(file_path, chunk_id)], and no [chunk_id] holds a colon (the
    chunker's ids are [chunk_0], [chunk_1], ...). *)
Definition corpus_ok {fl : PyFloat}
           (rows : list CodeEmbedding.t) (repo_name : string) : Prop :=
  NoDup (map row_ident (select_repo repo_name rows))
  /\ Forall (fun r => Py.has_char ":" (CodeEmbedding.chunk_id r) = false)
            (select_repo repo_name rows).

(** The key of [combined_results]. *)
Definition result_key {fl : PyFloat} (result : Result.t) : string :=
  Result.file_path result +++ ":" +++ Result.chunk_id result.

(** An entry of [combined_results] sits under its own key and has a
    [combined_score]. *)
Definition entry_ok {fl : PyFloat} (kv : string * Result.t) : Prop :=
  result_key (snd kv) = fst kv /\ Result.combined_score (snd kv) <> None.

(** [result] with [search_type] and [combined_score] set. *)
Definition scored {fl : PyFloat} (result : Result.t)
           (type : string) (score : F) : Result.t :=
  {| Result.file_path := Result.file_path result;
     Result.chunk_id := Result.chunk_id result;
     Result.content := Result.content result;
     Result.full_content := Result.full_content result;
     Result.metadata := Result.metadata result;
     Result.similarity_score := Result.similarity_score result;
     Result.relevance_score := Result.relevance_score result;
     Result.search_type := Some type;
     Result.combined_score := Some score |}.

(** One iteration of [for result in vector_results]. *)
Definition add_vector {fl : PyFloat}
           (combined_results : PyDict.t Result.t) (result : Result.t)
  : res (PyDict.t Result.t) :=
  similarity <- getitem "similarity_score" (Result.similarity_score result) ;;
  Ok (PyDict.set (result_key result) (scored result "vector" similarity)
                 combined_results).

(** One iteration of [for result in fulltext_results]. *)
Definition add_fulltext {fl : PyFloat}
           (combined_results : PyDict.t Result.t) (result : Result.t)
  : res (PyDict.t Result.t) :=
  let key := result_key result in
  match PyDict.get key combined_results with
  | Some found =>
      similarity <- getitem "similarity_score" (Result.similarity_score found) ;;
      relevance <- getitem "relevance_score" (Result.relevance_score result) ;;
      Ok (PyDict.set key
            (scored found "hybrid"
               (fdiv (fadd similarity (fdiv relevance f_ten)) f_two))
            combined_results)
  | None =>
      relevance <- getitem "relevance_score" (Result.relevance_score result) ;;
      Ok (PyDict.set key (scored result "fulltext" (fdiv relevance f_ten))
                     combined_results)
  end.

(** The two loops of [hybrid_search]. *)
Definition combine_results {fl : PyFloat}
           (vector_results fulltext_results : list Result.t)
  : res (PyDict.t Result.t) :=
  combined <- Py.foldM add_vector vector_results [] ;;
  Py.foldM add_fulltext fulltext_results combined.

(** [sorted(results, key=lambda x: x['combined_score'], reverse=True)]:
    the keys are computed first, then the decorated items are sorted,
    larger keys first, equal keys in their original order. *)
Definition sorted_by_combined_score {fl : PyFloat}
           (results : list Result.t) : res (list Result.t) :=
  decorated <- Py.mapM (fun x =>
                 k <- getitem "combined_score" (Result.combined_score x) ;;
                 Ok (k, x))
               results ;;
  Ok (map snd (Py.sort_by (fun k1 k2 => fltb k2 k1) decorated)).

(** [a] does not score strictly below [b]. *)
Definition score_ge {fl : PyFloat} (a b : Result.t) : Prop :=
  exists sa sb : F,
    Result.combined_score a = Some sa
    /\ Result.combined_score b = Some sb
    /\ fltb sa sb = false.

(** [hybrid_search(query, repo_name, limit)] *)
Definition hybrid_search {fl : PyFloat} {be : Backend}
           (self : TiDBVectorStore) (query repo_name : string) (limit : nat)
  : res (list Result.t) * TiDBVectorStore :=
  let '(vector_results, self') := vector_search self query repo_name limit in
  let fulltext_results := fulltext_search self' query repo_name limit in
  (combined_results <- combine_results vector_results fulltext_results ;;
   sorted_results <- sorted_by_combined_score (PyDict.values combined_results) ;;
   Ok (firstn limit sorted_results),
   self').

(* ================================================================== *)
(** * [CodeIndexerTool] *)
(* ================================================================== *)

(** What [CodeIndexerTool._run] returns. *)
Module IndexResponse.
Record t : Type := mk {
  success        : bool;
  message        : option string;
  error          : option string;
  existing_stats : option Stats.t;
  indexed_files  : nat;
  total_chunks   : nat;
  reindexed      : option bool
}.
End IndexResponse.

Definition index_failure (error : string) : IndexResponse.t :=
  {| IndexResponse.success := false;
     IndexResponse.message := None;
     IndexResponse.error := Some error;
     IndexResponse.existing_stats := None;
     IndexResponse.indexed_files := 0;
     IndexResponse.total_chunks := 0;
     IndexResponse.reindexed := None |}.

(** The indexing proper, after the check for an existing index. *)
Definition CodeIndexerTool_index {fl : PyFloat} {be : Backend}
           (store : TiDBVectorStore) (repo_data : RepoData.t)
           (repo_name : string) (force_reindex : bool)
  : IndexResponse.t * TiDBVectorStore :=
  let '(result, store') := index_repository store repo_data in
  if IndexResult.success result then
    ({| IndexResponse.success := true;
        IndexResponse.message :=
          Some ("Successfully indexed repository '" +++ repo_name +++ "'");
        IndexResponse.error := None;
        IndexResponse.existing_stats := None;
        IndexResponse.indexed_files := IndexResult.indexed_files result;
        IndexResponse.total_chunks := IndexResult.total_chunks result;
        IndexResponse.reindexed := Some force_reindex |},
     store')
  else (index_failure "Failed to index repository", store').

(** [CodeIndexerTool._run(repo_data, force_reindex)]; [_vector_store] is
    [None] when the store could not be set up. *)
Definition CodeIndexerTool_run {fl : PyFloat} {be : Backend}
           (_vector_store : option TiDBVectorStore)
           (repo_data : RepoData.t) (force_reindex : bool)
  : IndexResponse.t * option TiDBVectorStore :=
  match _vector_store with
  | None => (index_failure "TiDB Vector Store not available", None)
  | Some store =>
      let repo_name :=
        match RepoData.repo_name repo_data with
        | Some n => n
        | None => "unknown_repo"
        end in
      let existing_stats := get_repository_stats store repo_name in
      if negb force_reindex
         && (0 <? Stats.total_chunks existing_stats)%nat
      then
        ({| IndexResponse.success := true;
            IndexResponse.message :=
              Some ("Repository '" +++ repo_name +++ "' already indexed");
            IndexResponse.error := None;
            IndexResponse.existing_stats := Some existing_stats;
            IndexResponse.indexed_files := Stats.total_files existing_stats;
            IndexResponse.total_chunks := Stats.total_chunks existing_stats;
            IndexResponse.reindexed := Some false |},
         Some store)
      else
        let '(response, store') :=
          CodeIndexerTool_index store repo_data repo_name force_reindex in
        (response, Some store')
  end.

(* ================================================================== *)
(** * [CodeSearchTool] *)
(* ================================================================== *)

(** An entry of [processed_results]. *)
Module Processed.
Record t {fl : PyFloat} : Type := mk {
  file_path        : string;
  chunk_id         : string;
  content          : string;
  full_content     : string;
  metadata         : option Metadata.t;
  search_type      : string;
  similarity_score : option F;
  relevance_score  : option F;
  combined_score   : option F
}.
End Processed.

(** What [CodeSearchTool._run] returns. *)
Module SearchResponse.
Record t {fl : PyFloat} : Type := mk {
  success       : bool;
  error         : option string;
  query         : option string;
  repo_name     : option string;
  search_type   : option string;
  results_count : option nat;
  results       : list Processed.t
}.
End SearchResponse.

Definition search_failure {fl : PyFloat} (error : string) : SearchResponse.t :=
  {| SearchResponse.success := false;
     SearchResponse.error := Some error;
     SearchResponse.query := None;
     SearchResponse.repo_name := None;
     SearchResponse.search_type := None;
     SearchResponse.results_count := None;
     SearchResponse.results := [] |}.

(** The body of [for result in results]. *)
Definition processed_result {fl : PyFloat}
           (search_type : string) (result : Result.t) : Processed.t :=
  let text := Result.content result in
  {| Processed.file_path := Result.file_path result;
     Processed.chunk_id := Result.chunk_id result;
     Processed.content :=
       if 500 <? Py.len text then Py.take 500 text +++ "..." else text;
     Processed.full_content := Result.content result;
     Processed.metadata := Result.metadata result;
     Processed.search_type :=
       match Result.search_type result with
       | Some t => t
       | None => search_type
       end;
     Processed.similarity_score := Result.similarity_score result;
     Processed.relevance_score := Result.relevance_score result;
     Processed.combined_score := Result.combined_score result |}.

(** The search selected by [search_type]; [None] for a type that is none
    of the three. *)
Definition dispatch_search {fl : PyFloat} {be : Backend}
           (store : TiDBVectorStore)
           (query repo_name search_type : string) (limit : nat)
  : option (res (list Result.t)) * TiDBVectorStore :=
  if String.eqb search_type "vector" then
    let '(results, store') := vector_search store query repo_name limit in
    (Some (Ok results), store')
  else if String.eqb search_type "fulltext" then
    (Some (Ok (fulltext_search store query repo_name limit)), store)
  else if String.eqb search_type "hybrid" then
    let '(results, store') := hybrid_search store query repo_name limit in
    (Some results, store')
  else (None, store).

(** [CodeSearchTool._run(query, repo_name, search_type, limit)] *)
Definition CodeSearchTool_run {fl : PyFloat} {be : Backend}
           (_vector_store : option TiDBVectorStore)
           (query repo_name search_type : string) (limit : nat)
  : SearchResponse.t * option TiDBVectorStore :=
  match _vector_store with
  | None => (search_failure "TiDB Vector Store not available", None)
  | Some store =>
      match dispatch_search store query repo_name search_type limit with
      | (None, store') =>
          (search_failure ("Invalid search type: " +++ search_type), Some store')
      | (Some (Raise e), store') =>
          (search_failure ("Search failed: " +++ str_exn e), Some store')
      | (Some (Ok results), store') =>
          ({| SearchResponse.success := true;
              SearchResponse.error := None;
              SearchResponse.query := Some query;
              SearchResponse.repo_name := Some repo_name;
              SearchResponse.search_type := Some search_type;
              SearchResponse.results_count := Some (List.length results);
              SearchResponse.results :=
                map (processed_result search_type) results |},
           Some store')
      end
  end.

(* ================================================================== *)
(** * [RAGQueryTool] *)
(* ================================================================== *)

(** An entry of [sources]. *)
Module Source.
Record t {fl : PyFloat} : Type := mk {
  file_path        : string;
  lines            : string;
  language         : string;
  similarity_score : F
}.
End Source.

(** What [RAGQueryTool._run] returns; a key that is absent is [None]
    ([false] for [fallback_mode]). *)
Module RagResponse.
Record t {fl : PyFloat} : Type := mk {
  success        : bool;
  error          : option string;
  answer         : option string;
  sources        : list Source.t;
  search_results : list Processed.t;
  fallback_mode  : bool;
  context_used   : option nat;
  user_level     : option string;
  llm_error      : option string
}.
End RagResponse.

(** The answer of a language model, or the text of the exception. *)
Inductive LlmResult : Type :=
| Answer (text : string)
| LlmError (message : string).

(** The [llm] argument: an object with [invoke], called on the system and
    the human message, or a plain callable, called on the user prompt. *)
Inductive Llm : Type :=
| ChatModel (invoke : string -> string -> LlmResult)
| Callable (call : string -> LlmResult).

(** [metadata.get('start_line', '?')] and its like, formatted. *)
Definition meta_start (m : option Metadata.t) : string :=
  match m with Some m => Py.str (Metadata.start_line m) | None => "?" end.

Definition meta_end (m : option Metadata.t) : string :=
  match m with Some m => Py.str (Metadata.end_line m) | None => "?" end.

Definition meta_language (m : option Metadata.t) : string :=
  match m with Some m => Metadata.language m | None => "unknown" end.

(** The block appended to [context_parts] for one chunk, given the
    content it shows. *)
Definition context_block (file_path : string) (m : option Metadata.t)
           (text : string) : string :=
  Py.NL +++ "File: " +++ file_path +++ Py.NL
  +++ "Lines: " +++ meta_start m +++ "-" +++ meta_end m +++ Py.NL
  +++ "Language: " +++ meta_language m +++ Py.NL
  +++ "Content:" +++ Py.NL
  +++ "```" +++ Py.NL
  +++ text +++ Py.NL
  +++ "```" +++ Py.NL.

(** The entry of [context_parts] for [chunk]. *)
Definition context_part {fl : PyFloat} (chunk : Processed.t) : string :=
  context_block (Processed.file_path chunk) (Processed.metadata chunk)
                (Processed.full_content chunk).

(** The entry of [sources] for [chunk]. *)
Definition source_of {fl : PyFloat} (chunk : Processed.t) : Source.t :=
  let m := Processed.metadata chunk in
  {| Source.file_path := Processed.file_path chunk;
     Source.lines := meta_start m +++ "-" +++ meta_end m;
     Source.language := meta_language m;
     Source.similarity_score :=
       match Processed.combined_score chunk with
       | Some s => s
       | None =>
           match Processed.similarity_score chunk with
           | Some s => s
           | None => f_zero
           end
       end |}.

(** [context_parts], from [relevant_chunks[:5]]. *)
Definition context_parts {fl : PyFloat}
           (relevant_chunks : list Processed.t) : list string :=
  map context_part (firstn 5 relevant_chunks).

(** [', '.join([chunk['file_path'] for chunk in relevant_chunks[:3]])] *)
Definition top_files {fl : PyFloat}
           (relevant_chunks : list Processed.t) : string :=
  Py.join ", " (map Processed.file_path (firstn 3 relevant_chunks)).

Definition system_prompt_beginner : string :=
"You are a helpful coding tutor explaining code to beginners. 
Use simple language, explain concepts clearly, and provide step-by-step explanations.
Avoid complex jargon and include examples when helpful.".

Definition system_prompt_intermediate : string :=
"You are a knowledgeable software developer helping another developer.
Provide clear, technical explanations with good detail about how the code works.
Include relevant patterns, best practices, and potential improvements.".

Definition system_prompt_advanced : string :=
"You are a senior software architect providing detailed technical analysis.
Focus on design patterns, architecture decisions, performance considerations, 
and advanced concepts. Be concise but comprehensive.".

(** [system_prompts.get(user_level, system_prompts["intermediate"])] *)
Definition system_prompt (user_level : string) : string :=
  if String.eqb user_level "beginner" then system_prompt_beginner
  else if String.eqb user_level "advanced" then system_prompt_advanced
  else system_prompt_intermediate.

Definition user_prompt (repo_name question context : string) : string :=
  "Based on the following code from the repository " +++ Py.DQ +++ repo_name
  +++ Py.DQ +++ ", please answer this question:

QUESTION: " +++ question +++ "

RELEVANT CODE CONTEXT:
" +++ context +++ "

Please provide a clear, helpful answer based on the code above. If the code doesn't fully answer the question, acknowledge what's missing and provide your best guidance based on what is available.

Include references to specific files and line numbers when relevant.
".

Definition rag_reply {fl : PyFloat} (answer : string)
           (relevant_chunks : list Processed.t) : RagResponse.t :=
  {| RagResponse.success := true;
     RagResponse.error := None;
     RagResponse.answer := Some answer;
     RagResponse.sources := map source_of (firstn 5 relevant_chunks);
     RagResponse.search_results := relevant_chunks;
     RagResponse.fallback_mode := false;
     RagResponse.context_used := None;
     RagResponse.user_level := None;
     RagResponse.llm_error := None |}.

(** [RAGQueryTool._run(question, repo_name, user_level, llm)]; the store
    is the one of the tool's [CodeSearchTool]. *)
Definition RAGQueryTool_run {fl : PyFloat} {be : Backend}
           (_vector_store : option TiDBVectorStore)
           (question repo_name user_level : string) (llm : option Llm)
  : RagResponse.t * option TiDBVectorStore :=
  let '(search_result, store') :=
    CodeSearchTool_run _vector_store question repo_name "hybrid" 8 in
  if negb (SearchResponse.success search_result) then
    ({| RagResponse.success := false;
        RagResponse.error :=
          Some ("Failed to search code: "
                +++ match SearchResponse.error search_result with
                    | Some e => e
                    | None => ""
                    end);
        RagResponse.answer := None;
        RagResponse.sources := [];
        RagResponse.search_results := [];
        RagResponse.fallback_mode := false;
        RagResponse.context_used := None;
        RagResponse.user_level := None;
        RagResponse.llm_error := None |},
     store')
  else
    let relevant_chunks := SearchResponse.results search_result in
    match relevant_chunks with
    | [] =>
        ({| RagResponse.success := true;
            RagResponse.error := None;
            RagResponse.answer :=
              Some "I couldn't find any relevant code for your question. The repository might not be indexed yet or your question might be too specific.";
            RagResponse.sources := [];
            RagResponse.search_results := [];
            RagResponse.fallback_mode := false;
            RagResponse.context_used := None;
            RagResponse.user_level := None;
            RagResponse.llm_error := None |},
         store')
    | _ :: _ =>
        let parts := context_parts relevant_chunks in
        let context := Py.join Py.NL parts in
        match llm with
        | None =>
            let r := rag_reply
                       ("I found "
                        +++ Py.str_nat (List.length relevant_chunks)
                        +++ " relevant code sections, but I need an LLM connection to provide a detailed analysis. Here are the most relevant files: "
                        +++ top_files relevant_chunks)
                       relevant_chunks in
            ({| RagResponse.success := RagResponse.success r;
                RagResponse.error := RagResponse.error r;
                RagResponse.answer := RagResponse.answer r;
                RagResponse.sources := RagResponse.sources r;
                RagResponse.search_results := RagResponse.search_results r;
                RagResponse.fallback_mode := true;
                RagResponse.context_used := None;
                RagResponse.user_level := None;
                RagResponse.llm_error := None |},
             store')
        | Some model =>
            let prompt := user_prompt repo_name question context in
            let outcome :=
              match model with
              | ChatModel invoke => invoke (system_prompt user_level) prompt
              | Callable call => call prompt
              end in
            match outcome with
            | Answer answer =>
                let r := rag_reply answer relevant_chunks in
                ({| RagResponse.success := RagResponse.success r;
                    RagResponse.error := RagResponse.error r;
                    RagResponse.answer := RagResponse.answer r;
                    RagResponse.sources := RagResponse.sources r;
                    RagResponse.search_results := RagResponse.search_results r;
                    RagResponse.fallback_mode := false;
                    RagResponse.context_used := Some (List.length parts);
                    RagResponse.user_level := Some user_level;
                    RagResponse.llm_error := None |},
                 store')
            | LlmError message =>
                let r := rag_reply
                           ("I found relevant code sections but encountered an error with the AI model. Based on the code I found in "
                            +++ top_files relevant_chunks
                            +++ ", you can examine these files for more details about your question.")
                           relevant_chunks in
                ({| RagResponse.success := RagResponse.success r;
                    RagResponse.error := RagResponse.error r;
                    RagResponse.answer := RagResponse.answer r;
                    RagResponse.sources := RagResponse.sources r;
                    RagResponse.search_results := RagResponse.search_results r;
                    RagResponse.fallback_mode := false;
                    RagResponse.context_used := None;
                    RagResponse.user_level := None;
                    RagResponse.llm_error := Some message |},
                 store')
            end
        end
    end.

(** The chunks whose content the answerer puts in its context: the
    first five results of the hybrid search at limit 8, as
    [CodeSearchTool._run] hands them on. *)
Definition rag_context_chunks {fl : PyFloat} {be : Backend}
           (store : TiDBVectorStore) (question repo_name : string)
  : list Processed.t :=
  firstn 5 (SearchResponse.results
              (fst (CodeSearchTool_run (Some store) question repo_name "hybrid" 8))).

(* ================================================================== *)
(** * Further definitions: slices, sizes, eligible files *)
(* ================================================================== *)

(** [l[a:b]] for [0 <= a <= b]. *)
Definition lines_slice (a b : nat) (l : list string) : list string :=
  firstn (b - a) (skipn a l).

(** What [current_size] holds once the lines [ls] have been appended to
    an empty [current_chunk]. *)
Definition lines_size (ls : list string) : Z :=
  fold_right (fun l acc => Py.len l + 1 + acc) 0 ls.

(** The chunk made of the single line [l], at line [i]. *)
Definition line_chunk (path : string) (it : Z * string) : Chunk.t :=
  {| Chunk.chunk_id := "chunk_" +++ Py.str_nat (Z.to_nat (fst it));
     Chunk.content := snd it;
     Chunk.start_line := fst it;
     Chunk.end_line := fst it;
     Chunk.file_path := path |}.

(** A file that [index_repository] does not skip: its content is not
    empty and has at most 100000 characters. *)
Definition indexable (file : FileInfo.t) : bool :=
  negb (String.eqb (FileInfo.content file) ""
        || (100000 <? Py.len (FileInfo.content file))).

(** The chunks of a file, as [index_repository] cuts them. *)
Definition file_chunks (file : FileInfo.t) : list Chunk.t :=
  chunk_code_file (FileInfo.content file) (FileInfo.path file) default_chunk_size.

(** The rows one iteration of the loop over the files adds. *)
Definition file_rows {fl : PyFloat} {be : Backend}
           (repo_name repo_url : string) (file : FileInfo.t)
  : list CodeEmbedding.t :=
  if indexable file then
    match model_encode (map Chunk.content (file_chunks file)) with
    | Some all_embeddings =>
        map (code_embedding repo_name repo_url file)
            (combine (file_chunks file) all_embeddings)
    | None => []
    end
  else [].

(** The batch of a file is embedded without an exception. *)
Definition file_embeds {fl : PyFloat} {be : Backend} (file : FileInfo.t) : bool :=
  match model_encode (map Chunk.content (file_chunks file)) with
  | Some _ => true
  | None => false
  end.

(** The embedding model answers every batch, with one vector per text. *)
Definition model_answers {fl : PyFloat} {be : Backend} : Prop :=
  forall texts : list string,
    exists vs, model_encode texts = Some vs
               /\ List.length vs = List.length texts.

(** The rows of a repository that come from the file at [path], in
    storage order. *)
Definition rows_of_file {fl : PyFloat} (rows : list CodeEmbedding.t)
           (repo_name path : string) : list CodeEmbedding.t :=
  filter (fun r => String.eqb (CodeEmbedding.file_path r) path)
         (select_repo repo_name rows).

(** [clear_repository_embeddings(repo_name)] *)
Definition clear_repository_embeddings {fl : PyFloat}
           (self : TiDBVectorStore) (repo_name : string) : TiDBVectorStore :=
  {| table := delete_repo repo_name (table self);
     _embedding_cache := _embedding_cache self;
     model_invocations := model_invocations self |}.

(** The name under which [index_repository] files [repo_data]. *)
Definition stored_name (repo_data : RepoData.t) : string :=
  match RepoData.repo_name repo_data with Some n => n | None => "" end.

(** A search result shows a row: it has the row's path, chunk id and
    metadata, and as [content] the row's content or, for a content of
    more than 1000 characters, possibly its first 1000 characters
    followed by ["..."]. *)
Definition shows_row {fl : PyFloat}
           (row : CodeEmbedding.t) (result : Result.t) : Prop :=
  Result.file_path result = CodeEmbedding.file_path row
  /\ Result.chunk_id result = CodeEmbedding.chunk_id row
  /\ Result.metadata result = CodeEmbedding.chunk_metadata row
  /\ (Result.content result = CodeEmbedding.content row
      \/ (1000 < Py.len (CodeEmbedding.content row)
          /\ Result.content result
             = Py.take 1000 (CodeEmbedding.content row) +++ "...")).

(** A search result shows one of [rows]. *)
Definition from_rows {fl : PyFloat}
           (rows : list CodeEmbedding.t) (result : Result.t) : Prop :=
  exists row, In row rows /\ shows_row row result.

(** [search_type in ('vector', 'fulltext', 'hybrid')] *)
Definition known_search_type (search_type : string) : Prop :=
  search_type = "vector" \/ search_type = "fulltext" \/ search_type = "hybrid".

(** The cosine distances of the rows of a repository to the embedded
    query, in storage order: the distances [vector_search] sorts. *)
Definition distances {fl : PyFloat} {be : Backend}
           (rows : list CodeEmbedding.t) (repo_name : string)
           (query_embedding : Vec) : list F :=
  map (fun r => cosine_distance (CodeEmbedding.embedding r) query_embedding)
      (select_repo repo_name rows).

(** The [combined_score]s of [results]: the keys [hybrid_search] sorts. *)
Definition combined_scores {fl : PyFloat} (results : list Result.t) : list F :=
  flat_map (fun x => match Result.combined_score x with
                     | Some s => [s]
                     | None => []
                     end) results.

(** The chunk set of a file listing: path, chunk id and content of every
    chunk of every file that is not skipped, in the order of the
    listing. *)
Definition listed_chunks (files : list FileInfo.t)
  : list (string * string * string) :=
  flat_map (fun f =>
              if indexable f then
                map (fun c => (FileInfo.path f, Chunk.chunk_id c, Chunk.content c))
                    (file_chunks f)
              else [])
           files.





(* ================================================================== *)
(** * Binary64 floats and small backends to run the code on *)
(* ================================================================== *)

(** Python's [float]: IEEE binary64. *)
Module Binary64.

#[export] Instance float64 : PyFloat := {|
  F := PrimFloat.float;
  f_one := 1%float;
  f_ten := 10%float;
  f_two := 2%float;
  f_zero := 0%float;
  fadd := PrimFloat.add;
  fsub := PrimFloat.sub;
  fdiv := PrimFloat.div;
  fltb := PrimFloat.ltb
|}.

Definition dot (a b : list PrimFloat.float) : PrimFloat.float :=
  fold_left PrimFloat.add (map (fun p => PrimFloat.mul (fst p) (snd p)) (combine a b))
            0%float.

(** [1 - a.b / (|a| |b|)] *)
Definition cosine (a b : @Vec float64) : @F float64 :=
  PrimFloat.sub 1%float
    (PrimFloat.div (dot a b)
       (PrimFloat.mul (PrimFloat.sqrt (dot a a)) (PrimFloat.sqrt (dot b b)))).

End Binary64.

(** A stand-in for the embedding model: texts that mention ["TODO"] lie on
    one axis, the others on the other. The hash is the text itself. *)
Module Toy.

Definition axis {fl : PyFloat} (text : string) : Vec :=
  if Py.contains "TODO" text then [f_one; f_zero] else [f_zero; f_one].

#[export] Instance binary64 : @Backend Binary64.float64 := {|
  md5_hexdigest := fun text => text;
  model_encode := fun texts => Some (map (@axis Binary64.float64) texts : list (@Vec Binary64.float64));
  cosine_distance := Binary64.cosine
|}.

(** A model that is down. *)
Definition down : @Backend Binary64.float64 := {|
  md5_hexdigest := fun text => text;
  model_encode := fun _ => None;
  cosine_distance := Binary64.cosine
|}.

(** [c * n] *)
Fixpoint repeat_char (c : ascii) (n : nat) : string :=
  match n with
  | O => EmptyString
  | S n' => String c (repeat_char c n')
  end.

(** The texts ["0"], ["1"], ..., one per number below [n], last first. *)
Fixpoint numerals (n : nat) : list string :=
  match n with
  | O => []
  | S n' => Py.str_nat n' :: numerals n'
  end.

(** A store, fresh but for its table. *)
Definition store_of {fl : PyFloat} (rows : list CodeEmbedding.t) : TiDBVectorStore :=
  {| table := rows; _embedding_cache := []; model_invocations := 0 |}.

(** A fresh store whose cache has been filled to capacity with the
    embeddings of ["999"], ["998"], ..., ["0"], in this order. *)
Definition full_store : @TiDBVectorStore Binary64.float64 :=
  embed_texts TiDBVectorStore_init (numerals 1000).

(** A repository of two files, one of which mentions ["TODO"]. *)
Definition sample_repo : RepoData.t :=
  {| RepoData.repo_name := Some "demo";
     RepoData.github_url := "https://example.org/demo";
     RepoData.files :=
       [ {| FileInfo.path := "a.py";
            FileInfo.content := "x = 1  # TODO";
            FileInfo.language := "Python" |};
         {| FileInfo.path := "b.py";
            FileInfo.content := "y = 2";
            FileInfo.language := "Python" |} ] |}.

(** Another listing under the same name, of one file. *)
Definition smaller_repo : RepoData.t :=
  {| RepoData.repo_name := Some "demo";
     RepoData.github_url := "https://example.org/demo";
     RepoData.files :=
       [ {| FileInfo.path := "c.py";
            FileInfo.content := "z = 3";
            FileInfo.language := "Python" |} ] |}.

(** The store after indexing [sample_repo]. *)
Definition sample_store : @TiDBVectorStore Binary64.float64 :=
  snd (index_repository TiDBVectorStore_init sample_repo).

(** A repository whose only file is one line of 1200 characters. *)
Definition long_repo : RepoData.t :=
  {| RepoData.repo_name := Some "long";
     RepoData.github_url := "https://example.org/long";
     RepoData.files :=
       [ {| FileInfo.path := "long.py";
            FileInfo.content := repeat_char "a" 1200;
            FileInfo.language := "Python" |} ] |}.

(** The store after indexing [long_repo]. *)
Definition long_store : @TiDBVectorStore Binary64.float64 :=
  snd (index_repository TiDBVectorStore_init long_repo).



(** A vector result with [similarity_score = 0.8] and a full-text result
    for the same chunk, in binary64. *)
Definition vector_08 : @Result.t Binary64.float64 :=
  {| Result.file_path := "c.py";
     Result.chunk_id := "chunk_0";
     Result.content := "C";
     Result.full_content := Some "C";
     Result.metadata := None;
     Result.similarity_score :=
       Some (0x1.999999999999ap-1%float : @F Binary64.float64);
     Result.relevance_score := None;
     Result.search_type := None;
     Result.combined_score := None |}.

Definition fulltext_10 : @Result.t Binary64.float64 :=
  {| Result.file_path := "c.py";
     Result.chunk_id := "chunk_0";
     Result.content := "C";
     Result.full_content := None;
     Result.metadata := None;
     Result.similarity_score := None;
     Result.relevance_score := Some (1%float : @F Binary64.float64);
     Result.search_type := None;
     Result.combined_score := None |}.

End Toy.

(* ================================================================== *)
(** * Lists: prefixes *)
(* ================================================================== *)

Module ListFacts.

Lemma firstn_In {A : Type} (n : nat) (l : list A) (x : A) :
  In x (firstn n l) -> In x l.
Proof.
  revert l. induction n as [|n IH]; intros [|y l]; simpl; try tauto.
  intros [H|H]; auto.
Qed.

Lemma firstn_map {A B : Type} (f : A -> B) (n : nat) (l : list A) :
  firstn n (map f l) = map f (firstn n l).
Proof.
  revert l. induction n as [|n IH]; intros [|y l]; simpl; try reflexivity.
  now rewrite IH.
Qed.

Lemma firstn_StronglySorted {A : Type} (R : A -> A -> Prop) (n : nat) (l : list A) :
  StronglySorted R l -> StronglySorted R (firstn n l).
Proof.
  revert l. induction n as [|n IH]; intros [|y l] H; simpl; try constructor.
  - apply IH. now inversion H.
  - inversion H; subst. apply Forall_forall. intros x Hx.
    apply firstn_In in Hx. revert x Hx. now apply Forall_forall.
Qed.

Lemma firstn_NoDup {A : Type} (n : nat) (l : list A) :
  NoDup l -> NoDup (firstn n l).
Proof.
  revert l. induction n as [|n IH]; intros [|y l] H; simpl; try constructor.
  - inversion H; subst. intros Hy. apply firstn_In in Hy. contradiction.
  - apply IH. now inversion H.
Qed.

End ListFacts.

(* ================================================================== *)
(** * Facts about the Python primitives *)
(* ================================================================== *)

Module PyFacts.
Import Py.

Lemma split_lines_nonempty (s : string) : split_lines s <> [].
Proof.
  induction s as [|c s IH]; simpl; [discriminate|].
  destruct (Ascii.eqb c LF); [discriminate|].
  destruct (split_lines s); discriminate.
Qed.

Lemma join_cons (sep x : string) (l : list string) :
  l <> [] -> join sep (x :: l) = x +++ sep +++ join sep l.
Proof. destruct l; [congruence | reflexivity]. Qed.

Lemma append_assoc (a b c : string) : (a +++ b) +++ c = a +++ b +++ c.
Proof. induction a; simpl; congruence. Qed.

Lemma append_nil_r (a : string) : a +++ "" = a.
Proof. induction a; simpl; congruence. Qed.

Lemma length_append (a b : string) :
  String.length (a +++ b) = (String.length a + String.length b)%nat.
Proof. induction a; simpl; congruence. Qed.

(** [sep.join(a + b) == sep.join(a) + sep + sep.join(b)] when neither
    list is empty. *)
Lemma join_app (sep : string) (a b : list string) :
  a <> [] -> b <> [] ->
  join sep (a ++ b) = join sep a +++ sep +++ join sep b.
Proof.
  intros Ha Hb. induction a as [|x a IH]; [congruence|].
  destruct a as [|y a].
  - simpl app. now rewrite join_cons.
  - change ((x :: y :: a) ++ b) with (x :: ((y :: a) ++ b)).
    rewrite join_cons by discriminate.
    rewrite IH by discriminate.
    rewrite (join_cons sep x (y :: a)) by discriminate.
    now rewrite !append_assoc.
Qed.

(** ['\n'.join(s.split('\n')) == s] *)
Lemma join_split_lines (s : string) : join NL (split_lines s) = s.
Proof.
  induction s as [|c s IH]; [reflexivity|].
  simpl split_lines. destruct (Ascii.eqb c LF) eqn:E.
  - apply Ascii.eqb_eq in E. subst c.
    rewrite join_cons by apply split_lines_nonempty.
    simpl. now rewrite IH.
  - destruct (split_lines s) as [|l ls] eqn:Es.
    + now destruct (split_lines_nonempty s).
    + rewrite <- IH. destruct ls; reflexivity.
Qed.

Lemma foldM_app {A S : Type} (f : S -> A -> res S) (l1 l2 : list A) (s : S) :
  foldM f (l1 ++ l2) s = (s' <- foldM f l1 s ;; foldM f l2 s').
Proof.
  revert s. induction l1 as [|x l1 IH]; intros s; simpl; [reflexivity|].
  destruct (f s x); [apply IH | reflexivity].
Qed.

(** [str] of a counter determines the counter. *)
Lemma str_nat_inj (n m : nat) : str_nat n = str_nat m -> n = m.
Proof.
  unfold str_nat. intros H.
  assert (Hu : Nat.to_uint n = Nat.to_uint m).
  { apply (f_equal NilEmpty.uint_of_string) in H.
    rewrite !NilEmpty.usu in H. congruence. }
  apply (f_equal Nat.of_uint) in Hu. now rewrite !Unsigned.of_to in Hu.
Qed.

(** [str] of a counter is made of digits. *)
Lemma str_nat_no_colon (n : nat) : has_char ":" (str_nat n) = false.
Proof.
  unfold str_nat. induction (Nat.to_uint n) as [|d IH|d IH|d IH|d IH|d IH
                                                |d IH|d IH|d IH|d IH|d IH];
    simpl; [reflexivity|..]; exact IH.
Qed.

End PyFacts.

(* ================================================================== *)
(** * The chunker *)
(* ================================================================== *)

Section ChunkerFacts.

Variable path : string.
Variable chunk_size : Z.
Variable nlines : Z.

Lemma chunk_loop_emitted (its : list (Z * string)) (st : ChunkLoop) :
  chunks (chunk_loop path chunk_size nlines st its)
  = chunks st ++ emitted path chunk_size nlines
                         (current_chunk st) (current_size st) (chunk_num st) its.
Proof.
  revert st. induction its as [|[i line] its IH]; intros st.
  - simpl. now rewrite app_nil_r.
  - unfold chunk_loop in *. simpl fold_left. rewrite IH. clear IH.
    unfold chunk_step. simpl emitted.
    destruct ((chunk_size <=? current_size st + (Py.len line + 1))
              || (i =? nlines - 1)) eqn:E.
    + destruct (current_chunk st ++ [line]) as [|x xs] eqn:Ec.
      * now destruct (current_chunk st).
      * simpl. now rewrite <- app_assoc.
    + reflexivity.
Qed.

Lemma emitted_nonempty ls : forall cur size num i,
  ls <> [] -> i + Z.of_nat (List.length ls) = nlines ->
  emitted path chunk_size nlines cur size num (Py.enumerate_from i ls) <> [].
Proof.
  induction ls as [|l ls IH]; intros cur size num i Hne Hlen; [congruence|].
  simpl. destruct (_ || _) eqn:E; [discriminate|].
  apply orb_false_iff in E. destruct E as [_ E].
  apply Z.eqb_neq in E.
  destruct ls as [|l' ls]; [simpl in Hlen; lia|].
  apply IH; [discriminate|]. simpl List.length in *. lia.
Qed.

Lemma emitted_tiles ls : forall cur size num i,
  i + Z.of_nat (List.length ls) = nlines ->
  ls <> [] \/ cur = [] ->
  tiles (i - Z.of_nat (List.length cur))
        (emitted path chunk_size nlines cur size num (Py.enumerate_from i ls))
        nlines.
Proof.
  induction ls as [|l ls IH]; intros cur size num i Hlen Hc.
  - destruct Hc as [Hc|Hc]; [congruence|]. subst cur. simpl in *. lia.
  - simpl. destruct (_ || _) eqn:E.
    + simpl. rewrite length_app. simpl List.length.
      repeat split; try lia.
      specialize (IH [] 0 (S num) (i + 1)).
      simpl List.length in IH, Hlen. rewrite Z.sub_0_r in IH.
      apply IH; [lia | now right].
    + apply orb_false_iff in E. destruct E as [_ E]. apply Z.eqb_neq in E.
      specialize (IH (cur ++ [l]) (size + (Py.len l + 1)) num (i + 1)).
      rewrite length_app in IH. simpl List.length in IH, Hlen.
      replace (i + 1 - Z.of_nat (List.length cur + 1))
        with (i - Z.of_nat (List.length cur)) in IH by lia.
      apply IH; [lia|].
      left. destruct ls; [simpl in Hlen; lia | discriminate].
Qed.

Lemma emitted_ids its : forall cur size num k c,
  nth_error (emitted path chunk_size nlines cur size num its) k = Some c ->
  Chunk.chunk_id c = "chunk_" +++ Py.str_nat (num + k).
Proof.
  induction its as [|[i l] its IH]; intros cur size num k c H.
  - destruct k; discriminate.
  - simpl in H. destruct (_ || _).
    + destruct k as [|k]; simpl in H.
      * inversion H; subst; simpl. now rewrite Nat.add_0_r.
      * apply IH in H. rewrite H. now rewrite Nat.add_succ_r.
    + eauto.
Qed.

Lemma emitted_join ls : forall cur size num i,
  i + Z.of_nat (List.length ls) = nlines ->
  ls <> [] \/ cur = [] ->
  Py.join Py.NL
    (map Chunk.content
         (emitted path chunk_size nlines cur size num (Py.enumerate_from i ls)))
  = Py.join Py.NL (cur ++ ls).
Proof.
  induction ls as [|l ls IH]; intros cur size num i Hlen Hc.
  - destruct Hc as [Hc|Hc]; [congruence|]. now subst cur.
  - simpl emitted. simpl Py.enumerate_from.
    simpl List.length in Hlen.
    destruct (_ || _) eqn:E.
    + cbn [map Chunk.content].
      destruct ls as [|l' ls].
      * reflexivity.
      * rewrite PyFacts.join_cons.
        2:{ intro H. apply map_eq_nil in H. revert H.
            apply emitted_nonempty; [discriminate | lia]. }
        rewrite IH by (try lia; now right). simpl app.
        change (cur ++ l :: l' :: ls) with (cur ++ [l] ++ (l' :: ls)).
        rewrite app_assoc.
        rewrite (PyFacts.join_app _ (cur ++ [l]) (l' :: ls));
          [reflexivity | | discriminate].
        now destruct cur.
    + apply orb_false_iff in E. destruct E as [_ E]. apply Z.eqb_neq in E.
      rewrite IH; [now rewrite <- app_assoc | lia |].
      left. destruct ls; [simpl in Hlen; lia | discriminate].
Qed.

End ChunkerFacts.

Lemma chunk_code_file_emitted (text path : string) (chunk_size : Z) :
  chunk_code_file text path chunk_size
  = emitted path chunk_size (Z.of_nat (List.length (Py.split_lines text)))
            [] 0 0%nat (Py.enumerate (Py.split_lines text)).
Proof. unfold chunk_code_file. now rewrite chunk_loop_emitted. Qed.

(** The chunks of a text tile its lines [0 .. len(lines) - 1]. *)
Lemma chunk_code_file_tiles (text path : string) (chunk_size : Z) :
  tiles 0 (chunk_code_file text path chunk_size)
        (Z.of_nat (List.length (Py.split_lines text))).
Proof.
  rewrite chunk_code_file_emitted.
  apply (emitted_tiles path chunk_size _ (Py.split_lines text) [] 0 0%nat 0);
    [lia | now right].
Qed.

(** What [tiles] says of two neighbours and of the ends. *)
Lemma tiles_spec (cs : list Chunk.t) : forall first stop,
  tiles first cs stop ->
  first <= stop
  /\ (forall c, In c cs ->
        first <= Chunk.start_line c /\ Chunk.start_line c <= Chunk.end_line c
        /\ Chunk.end_line c < stop)
  /\ (forall k c d, nth_error cs k = Some c -> nth_error cs (S k) = Some d ->
        Chunk.start_line d = Chunk.end_line c + 1)
  /\ (forall c, nth_error cs 0 = Some c -> Chunk.start_line c = first)
  /\ (forall c, nth_error cs (Nat.pred (List.length cs)) = Some c ->
        Chunk.end_line c = stop - 1).
Proof.
  induction cs as [|c cs IH]; intros first stop H.
  - simpl in H. subst. repeat split; try lia; try (intros; now exfalso);
      intros; try destruct k; discriminate.
  - simpl in H. destruct H as (Hs & Hle & Ht).
    destruct (IH _ _ Ht) as (H1 & H2 & H3 & H4 & H5).
    split; [lia|]. split; [|split; [|split]].
    + intros d [->|Hd]; [lia|]. specialize (H2 d Hd). lia.
    + intros [|k] x y Hx Hy; simpl in Hx, Hy.
      * inversion Hx; subst x. now apply H4.
      * eauto.
    + intros x Hx. simpl in Hx. now inversion Hx; subst.
    + intros x Hx. destruct cs as [|c' cs'].
      * simpl in Hx. inversion Hx; subst x. simpl in Ht. lia.
      * apply H5. exact Hx.
Qed.

(** C3: for every input content and chunk size, every chunk has
    [start_line <= end_line]; the line ranges of the chunks, in the order
    produced, start at line 0, each begins on the line after the one
    before it ends (no gap, no overlap), and the last ends on the last
    line of the file; and the chunk at position [k] (counting from 0) has
    the id ["chunk_k"], so the ids number the chunks 0, 1, 2, ...; two
    chunks with the same id are the same chunk. *)
Theorem chunk_ranges_cover_and_ids_count (text path : string) (chunk_size : Z) :
  let cs := chunk_code_file text path chunk_size in
  let n := Z.of_nat (List.length (Py.split_lines text)) in
  (forall c, In c cs ->
     0 <= Chunk.start_line c /\ Chunk.start_line c <= Chunk.end_line c
     /\ Chunk.end_line c < n)
  /\ (forall c, nth_error cs 0 = Some c -> Chunk.start_line c = 0)
  /\ (forall k c d, nth_error cs k = Some c -> nth_error cs (S k) = Some d ->
        Chunk.start_line d = Chunk.end_line c + 1)
  /\ (forall c, nth_error cs (Nat.pred (List.length cs)) = Some c ->
        Chunk.end_line c = n - 1)
  /\ cs <> []
  /\ (forall k c, nth_error cs k = Some c ->
        Chunk.chunk_id c = "chunk_" +++ Py.str_nat k)
  /\ (forall j k c d, nth_error cs j = Some c -> nth_error cs k = Some d ->
        Chunk.chunk_id c = Chunk.chunk_id d -> j = k).
Proof.
  intros cs n.
  destruct (tiles_spec cs 0 n (chunk_code_file_tiles text path chunk_size))
    as (_ & H2 & H3 & H4 & H5).
  assert (Hid : forall k c, nth_error cs k = Some c ->
                  Chunk.chunk_id c = "chunk_" +++ Py.str_nat k).
  { intros k c H. unfold cs in H. rewrite chunk_code_file_emitted in H.
    now apply emitted_ids in H. }
  repeat split; auto; try (now apply H2).
  - unfold cs. rewrite chunk_code_file_emitted.
    apply emitted_nonempty; [apply PyFacts.split_lines_nonempty | lia].
  - intros j k c d Hc Hd E.
    rewrite (Hid _ _ Hc), (Hid _ _ Hd) in E. simpl in E.
    apply PyFacts.str_nat_inj. congruence.
Qed.

(** C2, as stated, fails: with [chunk_size = 1] the two lines of
    ["ab\ncd"] become two chunks, and their contents concatenate to
    ["abcd"]; the line feed between them is in neither. *)
Lemma chunk_concat_loses_newline :
  Py.concat (map Chunk.content
                 (chunk_code_file ("ab" +++ Py.NL +++ "cd") "a.py" 1))
  = "abcd"
  /\ Py.concat (map Chunk.content
                    (chunk_code_file ("ab" +++ Py.NL +++ "cd") "a.py" 1))
     <> "ab" +++ Py.NL +++ "cd".
Proof. split; [reflexivity | discriminate]. Qed.

(** C2, amended: for every input text and every chunk size, joining the
    contents of all chunks, in order, with a line feed between
    consecutive chunks gives back the original text exactly. *)
Theorem chunk_join_roundtrip (text path : string) (chunk_size : Z) :
  Py.join Py.NL (map Chunk.content (chunk_code_file text path chunk_size)) = text.
Proof.
  rewrite chunk_code_file_emitted. unfold Py.enumerate.
  rewrite (emitted_join path chunk_size _ (Py.split_lines text) [] 0 0%nat 0);
    [apply PyFacts.join_split_lines | lia | now right].
Qed.

(** C8: on the empty string the chunker returns one chunk, not none:
    [''.split('\n')] is [['']], the only line is also the last, and
    [current_chunk], holding that line, is not an empty list. The chunk
    has empty content and covers line 0. *)
Theorem chunk_empty_text_gives_one_chunk (path : string) (chunk_size : Z) :
  chunk_code_file "" path chunk_size
  = [ {| Chunk.chunk_id := "chunk_0";
         Chunk.content := "";
         Chunk.start_line := 0;
         Chunk.end_line := 0;
         Chunk.file_path := path |} ].
Proof.
  unfold chunk_code_file, chunk_loop. simpl.
  now rewrite orb_true_r.
Qed.

(* ================================================================== *)
(** * Insertion-ordered dicts *)
(* ================================================================== *)

Module PyDictFacts.
Import PyDict.

Lemma get_None {V : Type} (k : string) (d : t V) :
  get k d = None <-> ~ In k (keys d).
Proof.
  induction d as [|[k' v] d IH]; simpl; [tauto|].
  destruct (String.eqb k k') eqn:E.
  - apply String.eqb_eq in E. subst. split; [discriminate | tauto].
  - apply String.eqb_neq in E. rewrite IH. split; [intros H [H'|H']; congruence | tauto].
Qed.

Lemma get_In {V : Type} (k : string) (v : V) (d : t V) :
  get k d = Some v -> In (k, v) d.
Proof.
  induction d as [|[k' v'] d IH]; simpl; [discriminate|].
  destruct (String.eqb k k') eqn:E.
  - apply String.eqb_eq in E. intros H. inversion H; subst. now left.
  - auto.
Qed.

Lemma In_get {V : Type} (k : string) (v : V) (d : t V) :
  NoDup (keys d) -> In (k, v) d -> get k d = Some v.
Proof.
  induction d as [|[k' v'] d IH]; simpl; [tauto|].
  intros Hnd [H|H].
  - inversion H; subst. now rewrite String.eqb_refl.
  - inversion Hnd; subst. destruct (String.eqb k k') eqn:E.
    + apply String.eqb_eq in E. subst. exfalso. apply H2.
      change k' with (fst (k', v)). now apply in_map.
    + auto.
Qed.

(** A new key goes last. *)
Lemma set_new {V : Type} (k : string) (v : V) (d : t V) :
  get k d = None -> set k v d = d ++ [(k, v)].
Proof.
  induction d as [|[k' v'] d IH]; simpl; [reflexivity|].
  destruct (String.eqb k k'); [discriminate|]. intros H. now rewrite IH.
Qed.

(** An existing key keeps its place. *)
Lemma keys_set_old {V : Type} (k : string) (v : V) (d : t V) :
  get k d <> None -> keys (set k v d) = keys d.
Proof.
  induction d as [|[k' v'] d IH]; simpl; [congruence|].
  destruct (String.eqb k k') eqn:E.
  - apply String.eqb_eq in E. now subst.
  - intros H. simpl. now rewrite IH.
Qed.

Lemma get_set_same {V : Type} (k : string) (v : V) (d : t V) :
  get k (set k v d) = Some v.
Proof.
  induction d as [|[k' v'] d IH]; simpl.
  - now rewrite String.eqb_refl.
  - destruct (String.eqb k k') eqn:E; simpl.
    + now rewrite String.eqb_refl.
    + now rewrite E.
Qed.

Lemma get_set_other {V : Type} (k k0 : string) (v : V) (d : t V) :
  k0 <> k -> get k0 (set k v d) = get k0 d.
Proof.
  intros Hne. induction d as [|[k' v'] d IH]; simpl.
  - apply String.eqb_neq in Hne. now rewrite Hne.
  - destruct (String.eqb k k') eqn:E; simpl.
    + apply String.eqb_eq in E. subst k'.
      apply String.eqb_neq in Hne. now rewrite Hne.
    + now rewrite IH.
Qed.

Lemma keys_set {V : Type} (k : string) (v : V) (d : t V) :
  keys (set k v d) = if mem k d then keys d else keys d ++ [k].
Proof.
  unfold mem. destruct (get k d) eqn:E.
  - apply keys_set_old. congruence.
  - rewrite set_new by assumption. unfold keys. now rewrite map_app.
Qed.

Lemma NoDup_keys_set {V : Type} (k : string) (v : V) (d : t V) :
  NoDup (keys d) -> NoDup (keys (set k v d)).
Proof.
  intros H. rewrite keys_set. unfold mem. destruct (get k d) eqn:E; [assumption|].
  apply get_None in E.
  apply NoDup_rev in H. rewrite <- (rev_involutive (keys d ++ [k])).
  apply NoDup_rev. rewrite rev_app_distr. simpl. constructor; [|assumption].
  now rewrite <- in_rev.
Qed.

(** Deleting the first key drops the first entry. *)
Lemma del_first {V : Type} (k : string) (v : V) (d : t V) :
  del k ((k, v) :: d) = d.
Proof. simpl. now rewrite String.eqb_refl. Qed.

End PyDictFacts.

(* ================================================================== *)
(** * The embedding cache *)
(* ================================================================== *)

Section CacheFacts.

Context {fl : PyFloat} {be : Backend}.

(** [make_room] on a cache within its bound: nothing to do below
    capacity, the first entry goes at capacity. *)
Lemma make_room_spec {V : Type} (cache : PyDict.t V) :
  (List.length cache <= _cache_max_size)%nat ->
  ((List.length cache < _cache_max_size)%nat /\ make_room cache = Ok cache)
  \/ (List.length cache = _cache_max_size
      /\ exists oldest rest, cache = oldest :: rest /\ make_room cache = Ok rest).
Proof.
  intros Hle. unfold make_room.
  destruct (_cache_max_size <=? List.length cache)%nat eqn:E.
  - apply Nat.leb_le in E. right. split; [lia|].
    destruct cache as [|[k v] rest]; [simpl in E; unfold _cache_max_size in E; lia|].
    exists (k, v), rest. split; [reflexivity|].
    cbn [PyDict.first_key]. now rewrite PyDictFacts.del_first.
  - apply Nat.leb_gt in E. left. split; [lia | reflexivity].
Qed.

Lemma embed_text_cache_ok (self : TiDBVectorStore) (text : string) :
  cache_ok self -> cache_ok (snd (embed_text self text)).
Proof.
  intros [Hnd Hlen]. unfold embed_text.
  destruct (PyDict.get (md5_hexdigest text) (_embedding_cache self)) eqn:Eg;
    [now split|].
  destruct (model_encode [text]) as [[|embedding more]|]; try now split.
  destruct (make_room_spec _ Hlen) as [[Hlt ->]|(Hfull & oldest & rest & Hc & ->)];
    unfold cache_ok; simpl.
  - split; [now apply PyDictFacts.NoDup_keys_set|].
    rewrite PyDictFacts.set_new by assumption. rewrite length_app. simpl. lia.
  - rewrite Hc in *. destruct oldest as [k0 v0]. simpl in Hnd, Hlen, Eg.
    inversion Hnd; subst.
    destruct (String.eqb (md5_hexdigest text) k0); [discriminate|].
    split; [now apply PyDictFacts.NoDup_keys_set|].
    rewrite PyDictFacts.set_new by assumption. rewrite length_app. simpl. lia.
Qed.

Lemma embed_texts_cache_ok (texts : list string) : forall self,
  cache_ok self -> cache_ok (embed_texts self texts).
Proof.
  induction texts as [|text texts IH]; intros self H; [exact H|].
  unfold embed_texts in *. simpl. apply IH. now apply embed_text_cache_ok.
Qed.

Lemma empty_cache_ok (self : TiDBVectorStore) :
  _embedding_cache self = [] -> cache_ok self.
Proof.
  intros H. unfold cache_ok. rewrite H. split; [constructor | simpl; lia].
Qed.

(** C7: from a store whose cache is empty, as [__init__] leaves it, and
    after any sequence of [embed_text] calls: the cache holds at most
    1000 entries; a call whose text's hash is in the cache returns the
    cached vector and leaves the store as it is, the count of model
    invocations included; and a call that misses while the cache holds
    1000 entries, the model answering, removes the entry inserted first
    and appends the new one, so that the entries that stay keep their
    order and the count of entries is again 1000. *)
Theorem embedding_cache_bounded_fifo
        (self0 : TiDBVectorStore) (texts : list string) :
  _embedding_cache self0 = [] ->
  let self := embed_texts self0 texts in
  (List.length (_embedding_cache self) <= 1000)%nat
  /\ (forall text cached,
        PyDict.get (md5_hexdigest text) (_embedding_cache self) = Some cached ->
        embed_text self text = (Some cached, self))
  /\ (forall text embedding more,
        PyDict.get (md5_hexdigest text) (_embedding_cache self) = None ->
        List.length (_embedding_cache self) = 1000%nat ->
        model_encode [text] = Some (embedding :: more) ->
        exists oldest rest,
          _embedding_cache self = oldest :: rest
          /\ embed_text self text
             = (Some embedding,
                with_cache (invoked self)
                           (rest ++ [(md5_hexdigest text, embedding)]))).
Proof.
  intros Hempty self.
  assert (Hok : cache_ok self)
    by (apply embed_texts_cache_ok; now apply empty_cache_ok).
  destruct Hok as [Hnd Hlen]. split; [exact Hlen|]. split.
  - intros text cached Hget. unfold embed_text. now rewrite Hget.
  - intros text embedding more Hget Hfull Henc.
    destruct (make_room_spec _ Hlen)
      as [[Hlt _]|(_ & oldest & rest & Hc & Hroom)];
      [unfold _cache_max_size in Hlt; lia|].
    exists oldest, rest. split; [exact Hc|].
    unfold embed_text. rewrite Hget, Henc, Hroom.
    rewrite PyDictFacts.set_new; [reflexivity|].
    rewrite Hc in Hget. destruct oldest as [k0 v0]. simpl in Hget.
    now destruct (String.eqb (md5_hexdigest text) k0).
Qed.

End CacheFacts.

(** C7 at work: a fresh store is filled with the 1000 texts ["999"], ...,
    ["0"]. The cache then holds 1000 entries; embedding ["0"] again is
    served from the cache and changes nothing; embedding a new text
    removes the entry of ["999"], the first inserted, and appends the new
    one. *)
Lemma embedding_cache_bounded_fifo_witness :
  @_embedding_cache Binary64.float64 TiDBVectorStore_init = []
  /\ List.length (_embedding_cache Toy.full_store) = 1000%nat
  /\ embed_text (be := Toy.binary64) Toy.full_store "0"
     = (Some (Toy.axis "0"), Toy.full_store)
  /\ exists rest,
       _embedding_cache Toy.full_store = ("999", Toy.axis "999") :: rest
       /\ embed_text (be := Toy.binary64) Toy.full_store "new"
          = (Some (Toy.axis "new"),
             with_cache (invoked Toy.full_store)
                        (rest ++ [("new", Toy.axis "new")])).
Proof.
  destruct (embedding_cache_bounded_fifo (be := Toy.binary64)
              TiDBVectorStore_init (Toy.numerals 1000) eq_refl)
    as (_ & Hhit & Hmiss).
  split; [reflexivity|].
  split; [vm_compute; reflexivity|].
  split; [apply Hhit; vm_compute; reflexivity|].
  assert (Hget : PyDict.get (md5_hexdigest (Backend := Toy.binary64) "new")
                   (_embedding_cache
                      (embed_texts (be := Toy.binary64) TiDBVectorStore_init
                                   (Toy.numerals 1000))) = None)
    by (vm_compute; reflexivity).
  assert (Hfull : List.length
                    (_embedding_cache
                       (embed_texts (be := Toy.binary64) TiDBVectorStore_init
                                    (Toy.numerals 1000))) = 1000%nat)
    by (vm_compute; reflexivity).
  destruct (Hmiss "new" (Toy.axis "new") [] Hget Hfull eq_refl)
    as (oldest & rest & Hc & He).
  exists rest. split; [|exact He].
  match type of Hc with
  | ?l = _ => assert (Hh : hd_error l = Some ("999", Toy.axis "999"))
      by (vm_compute; reflexivity)
  end.
  rewrite Hc in Hh. injection Hh as ->. exact Hc.
Defined.

(* ================================================================== *)
(** * Indexing and statistics *)
(* ================================================================== *)

Section IndexFacts.

Context {fl : PyFloat} {be : Backend}.

Lemma select_repo_app (repo : string) (a b : list CodeEmbedding.t) :
  select_repo repo (a ++ b) = select_repo repo a ++ select_repo repo b.
Proof. apply filter_app. Qed.

Lemma delete_repo_app (repo : string) (a b : list CodeEmbedding.t) :
  delete_repo repo (a ++ b) = delete_repo repo a ++ delete_repo repo b.
Proof. apply filter_app. Qed.

Lemma select_delete_same (repo : string) (rows : list CodeEmbedding.t) :
  select_repo repo (delete_repo repo rows) = [].
Proof.
  unfold select_repo, delete_repo.
  induction rows as [|r rows IH]; [reflexivity|]. simpl.
  destruct (String.eqb (CodeEmbedding.repo_name r) repo) eqn:E; simpl;
    [exact IH | now rewrite E].
Qed.

Lemma select_delete_other (repo other : string) (rows : list CodeEmbedding.t) :
  other <> repo ->
  select_repo other (delete_repo repo rows) = select_repo other rows.
Proof.
  intros Hne. unfold select_repo, delete_repo.
  induction rows as [|r rows IH]; [reflexivity|]. simpl.
  destruct (String.eqb (CodeEmbedding.repo_name r) repo) eqn:E; simpl.
  - apply String.eqb_eq in E.
    destruct (String.eqb (CodeEmbedding.repo_name r) other) eqn:E';
      [apply String.eqb_eq in E'; congruence | exact IH].
  - now rewrite IH.
Qed.

Lemma select_all (repo : string) (rows : list CodeEmbedding.t) :
  Forall (fun r => CodeEmbedding.repo_name r = repo) rows ->
  select_repo repo rows = rows.
Proof.
  unfold select_repo. induction 1 as [|r rows Hr _ IH]; [reflexivity|].
  simpl. rewrite Hr, String.eqb_refl. now rewrite IH.
Qed.

Lemma select_none (repo other : string) (rows : list CodeEmbedding.t) :
  other <> repo ->
  Forall (fun r => CodeEmbedding.repo_name r = repo) rows ->
  select_repo other rows = [].
Proof.
  intros Hne. unfold select_repo. induction 1 as [|r rows Hr _ IH]; [reflexivity|].
  simpl. rewrite Hr.
  destruct (String.eqb repo other) eqn:E;
    [apply String.eqb_eq in E; congruence | exact IH].
Qed.

Lemma delete_all (repo : string) (rows : list CodeEmbedding.t) :
  Forall (fun r => CodeEmbedding.repo_name r = repo) rows ->
  delete_repo repo rows = [].
Proof.
  unfold delete_repo. induction 1 as [|r rows Hr _ IH]; [reflexivity|].
  simpl. rewrite Hr, String.eqb_refl. exact IH.
Qed.

Lemma delete_repo_idem (repo : string) (rows : list CodeEmbedding.t) :
  delete_repo repo (delete_repo repo rows) = delete_repo repo rows.
Proof.
  unfold delete_repo. induction rows as [|r rows IH]; [reflexivity|]. simpl.
  destruct (String.eqb (CodeEmbedding.repo_name r) repo) eqn:E; simpl;
    [exact IH | now rewrite E, IH].
Qed.

(** The loop over the files adds rows of the repository only, and counts
    them. *)
Lemma index_files_inv (repo url : string) (files : list FileInfo.t) :
  forall st,
    Forall (fun r => CodeEmbedding.repo_name r = repo) (added st) ->
    total_chunks st = List.length (added st) ->
    let st' := fold_left (index_file repo url) files st in
    Forall (fun r => CodeEmbedding.repo_name r = repo) (added st')
    /\ total_chunks st' = List.length (added st').
Proof.
  induction files as [|f files IH]; intros st Hall Hcount; [now split|].
  simpl. apply IH; unfold index_file;
    destruct (String.eqb (FileInfo.content f) "" || (100000 <? Py.len (FileInfo.content f)));
    try assumption;
    destruct (model_encode _) as [embs|]; simpl; try assumption.
  - apply Forall_app. split; [assumption|].
    apply Forall_forall. intros r Hr. apply in_map_iff in Hr.
    destruct Hr as ([c e] & <- & _). reflexivity.
  - rewrite length_app. lia.
Qed.

(** The table after [index_repository]: the rows of the other
    repositories, then the rows this call added. *)
Lemma index_repository_table (self : TiDBVectorStore) (repo_data : RepoData.t) :
  let repo := match RepoData.repo_name repo_data with Some n => n | None => "" end in
  exists rows,
    table (snd (index_repository self repo_data))
    = delete_repo repo (table self) ++ rows
    /\ Forall (fun r => CodeEmbedding.repo_name r = repo) rows
    /\ IndexResult.total_chunks (fst (index_repository self repo_data))
       = List.length rows
    /\ forall other : TiDBVectorStore,
         table (snd (index_repository other repo_data))
         = delete_repo repo (table other) ++ rows.
Proof.
  intros repo. unfold index_repository. fold repo. simpl.
  set (st := fold_left _ _ _).
  destruct (index_files_inv repo (RepoData.github_url repo_data)
              (RepoData.files repo_data)
              {| added := []; indexed_count := 0; total_chunks := 0; encode_calls := 0 |}
              (Forall_nil _) eq_refl) as [Hall Hcount].
  exists (added st). repeat split; auto.
Qed.

(** C10: when the stats of the repository named in [repo_data]
    ([unknown_repo] if it names none) show [total_chunks > 0], the
    indexing tool called with [force_reindex = False] returns the store as
    it was, with no row deleted or inserted for any repository, and
    reports success with the existing stats and [reindexed = False]. *)
Theorem indexed_repo_is_left_alone
        (store : TiDBVectorStore) (repo_data : RepoData.t) :
  let repo_name :=
    match RepoData.repo_name repo_data with
    | Some n => n
    | None => "unknown_repo"
    end in
  let existing_stats := get_repository_stats store repo_name in
  (0 < Stats.total_chunks existing_stats)%nat ->
  CodeIndexerTool_run (Some store) repo_data false
  = ({| IndexResponse.success := true;
        IndexResponse.message :=
          Some ("Repository '" +++ repo_name +++ "' already indexed");
        IndexResponse.error := None;
        IndexResponse.existing_stats := Some existing_stats;
        IndexResponse.indexed_files := Stats.total_files existing_stats;
        IndexResponse.total_chunks := Stats.total_chunks existing_stats;
        IndexResponse.reindexed := Some false |},
     Some store).
Proof.
  intros repo_name existing_stats Hpos.
  unfold CodeIndexerTool_run. fold repo_name. fold existing_stats.
  apply Nat.ltb_lt in Hpos. now rewrite Hpos.
Qed.

End IndexFacts.

(** C10 at work: [Toy.sample_store] holds two chunks of ["demo"]; asking
    to index ["demo"] again without [force_reindex] returns the same
    store and the stats found. *)
Lemma indexed_repo_is_left_alone_witness :
  (0 < Stats.total_chunks (get_repository_stats Toy.sample_store "demo"))%nat
  /\ snd (CodeIndexerTool_run (be := Toy.binary64) (Some Toy.sample_store)
                              Toy.sample_repo false)
     = Some Toy.sample_store
  /\ IndexResponse.reindexed
       (fst (CodeIndexerTool_run (be := Toy.binary64) (Some Toy.sample_store)
                                 Toy.sample_repo false))
     = Some false
  /\ IndexResponse.total_chunks
       (fst (CodeIndexerTool_run (be := Toy.binary64) (Some Toy.sample_store)
                                 Toy.sample_repo false))
     = 2%nat.
Proof.
  assert (Hpos : (0 < Stats.total_chunks
                        (get_repository_stats Toy.sample_store "demo"))%nat)
    by (vm_compute; lia).
  split; [exact Hpos|].
  rewrite (indexed_repo_is_left_alone (be := Toy.binary64)
             Toy.sample_store Toy.sample_repo Hpos).
  repeat split.
Defined.

(* ================================================================== *)
(** * [LIKE] and full-text search *)
(* ================================================================== *)

Module SqlFacts.
Import Sql.

Lemma prefix_occurs (q s : string) :
  String.prefix q s = true <-> exists after, s = q +++ after.
Proof.
  revert s. induction q as [|c q IH]; intros s.
  - split; [intros _; now exists s | intros _; now destruct s].
  - destruct s as [|e s]; simpl;
      [split; [discriminate | intros [a H]; discriminate]|].
    destruct (ascii_dec c e) as [->|Hne].
    + rewrite IH. split; intros [a H]; exists a; congruence.
    + split; [discriminate | intros [a H]; congruence].
Qed.

(** [Py.contains] decides [Py.occurs]. *)
Lemma contains_occurs (q s : string) :
  Py.contains q s = true <-> Py.occurs q s.
Proof.
  unfold Py.occurs. induction s as [|e s IH]; cbn [Py.contains].
  - rewrite orb_false_r, prefix_occurs. split.
    + intros [a H]. now exists "", a.
    + intros (b & a & H). destruct b; [now exists a | discriminate].
  - rewrite orb_true_iff, prefix_occurs, IH. split.
    + intros [[a H]|(b & a & H)]; [now exists "", a|].
      exists (String e b), a. simpl. now rewrite H.
    + intros (b & a & H). destruct b as [|e' b]; [left; now exists a|].
      right. exists b, a. simpl in H. congruence.
Qed.

(** A leading [%] matches a run of any length. *)
Lemma like_any (p s : string) :
  like (String "%" p) s
  = like p s
    || match s with
       | EmptyString => false
       | String _ s' => like (String "%" p) s'
       end.
Proof. destruct s; reflexivity. Qed.

Lemma like_percent (s : string) : like "%" s = true.
Proof.
  induction s as [|e s IH]; [reflexivity|].
  rewrite like_any, IH. apply orb_true_r.
Qed.

(** A character without a special reading matches itself. *)
Lemma like_literal (c : ascii) (p s : string) :
  Ascii.eqb c "%" = false -> Ascii.eqb c "_" = false ->
  Ascii.eqb c "\" = false ->
  like (String c p) s
  = match s with
    | EmptyString => false
    | String e s' => Ascii.eqb e c && like p s'
    end.
Proof. intros H1 H2 H3. simpl. now rewrite H1, H2, H3. Qed.

Lemma plain_cons (c : ascii) (q : string) :
  plain (String c q) = true ->
  (Ascii.eqb c "%" = false /\ Ascii.eqb c "_" = false /\ Ascii.eqb c "\" = false)
  /\ plain q = true.
Proof.
  unfold plain. cbn [Py.has_char]. rewrite !negb_true_iff, !orb_false_iff.
  intros (([E1 E1'] & [E2 E2']) & [E3 E3']).
  rewrite Ascii.eqb_sym in E1. rewrite Ascii.eqb_sym in E2.
  rewrite Ascii.eqb_sym in E3.
  repeat split; assumption.
Qed.

(** A plain pattern followed by [%] matches the texts it begins. *)
Lemma like_plain_prefix (q : string) : forall s,
  plain q = true -> like (q +++ "%") s = String.prefix q s.
Proof.
  induction q as [|c q IH]; intros s Hp.
  - simpl String.append. rewrite like_percent. now destruct s.
  - apply plain_cons in Hp. destruct Hp as ((H1 & H2 & H3) & Hp).
    change (String c q +++ "%") with (String c (q +++ "%")).
    rewrite like_literal by assumption.
    destruct s as [|e s]; [reflexivity|]. simpl.
    destruct (ascii_dec c e) as [->|Hne].
    + rewrite Ascii.eqb_refl. now apply IH.
    + destruct (Ascii.eqb e c) eqn:E; [|reflexivity].
      apply Ascii.eqb_eq in E. congruence.
Qed.

(** For a plain [other], [column.contains(other)] is substring
    containment. *)
Lemma contains_plain (column other : string) :
  plain other = true -> contains column other = Py.contains other column.
Proof.
  intros Hp. unfold contains.
  change ("%" +++ other +++ "%") with (String "%" (other +++ "%")).
  induction column as [|e s IH].
  - rewrite like_any. cbn [Py.contains]. now rewrite like_plain_prefix.
  - rewrite like_any, IH. cbn [Py.contains]. now rewrite like_plain_prefix.
Qed.

End SqlFacts.

Section FulltextFacts.

Context {fl : PyFloat}.

Lemma text_query_spec (rows : list CodeEmbedding.t)
      (repo_name query : string) (limit : nat) (row : CodeEmbedding.t) :
  In row (text_query rows repo_name query limit) ->
  In row rows /\ CodeEmbedding.repo_name row = repo_name
  /\ Sql.contains (CodeEmbedding.content row) query = true.
Proof.
  unfold text_query, select_repo. intros H.
  apply ListFacts.firstn_In in H. apply filter_In in H. destruct H as [H Hm].
  apply filter_In in H. destruct H as [H Hr].
  apply String.eqb_eq in Hr. auto.
Qed.

(** C6, amended: for every query string, repository and limit, full-text
    search returns at most [limit] results, each built from a row of that
    repository with [relevance_score = 1.0], whose content matches the
    pattern [%query%] of SQL [LIKE]; when the query holds none of [%],
    [_] and the backslash, the content contains the query as a literal,
    case-sensitive substring. *)
Theorem fulltext_search_like
        (self : TiDBVectorStore) (query repo_name : string) (limit : nat) :
  let results := fulltext_search self query repo_name limit in
  (List.length results <= limit)%nat
  /\ forall r, In r results ->
       Result.relevance_score r = Some f_one
       /\ exists row,
            In row (table self)
            /\ CodeEmbedding.repo_name row = repo_name
            /\ r = fulltext_result row
            /\ Result.content r = CodeEmbedding.content row
            /\ Sql.like ("%" +++ query +++ "%") (CodeEmbedding.content row) = true
            /\ (Sql.plain query = true ->
                Py.occurs query (CodeEmbedding.content row)).
Proof.
  intros results. unfold results, fulltext_search. split.
  - rewrite length_map. unfold text_query. apply firstn_le_length.
  - intros r Hr. apply in_map_iff in Hr. destruct Hr as (row & <- & Hrow).
    apply text_query_spec in Hrow. destruct Hrow as (Hin & Hrepo & Hlike).
    split; [reflexivity|]. exists row. repeat split; auto.
    intros Hp. apply SqlFacts.contains_occurs.
    now rewrite <- SqlFacts.contains_plain.
Qed.

End FulltextFacts.

(** C6, as stated, fails: in [Toy.sample_store] no content holds an
    underscore, yet the query ["_"] returns both chunks: in a [LIKE]
    pattern an underscore stands for any one character. *)
Lemma fulltext_search_underscore_matches_all :
  map Result.content (fulltext_search Toy.sample_store "_" "demo" 5)
  = ["x = 1  # TODO"; "y = 2"]
  /\ Py.contains "_" "x = 1  # TODO" = false
  /\ Py.contains "_" "y = 2" = false.
Proof. repeat split. Qed.

(* ================================================================== *)
(** * Sorting *)
(* ================================================================== *)

Section SortFacts.

Context {K A : Type}.
Variable before : K -> K -> bool.

Lemma insert_by_perm (x : K * A) (l : list (K * A)) :
  Permutation (Py.insert_by before x l) (x :: l).
Proof.
  induction l as [|y l IH]; simpl; [reflexivity|].
  destruct (before (fst y) (fst x)); [|reflexivity].
  rewrite IH. apply perm_swap.
Qed.

Lemma sort_by_perm (l : list (K * A)) : Permutation (Py.sort_by before l) l.
Proof.
  induction l as [|x l IH]; simpl; [reflexivity|].
  rewrite insert_by_perm. now constructor.
Qed.

Lemma strict_weak_among_incl (ks ks' : list K) :
  (forall k, In k ks' -> In k ks) ->
  strict_weak_among before ks -> strict_weak_among before ks'.
Proof.
  intros Hincl [Hasym Hneg]. split.
  - intros a b Ha Hb. apply Hasym; auto.
  - intros a b c Ha Hb Hc. apply Hneg; auto.
Qed.

Lemma strict_weak_amongb_spec (ks : list K) :
  strict_weak_amongb before ks = true -> strict_weak_among before ks.
Proof.
  unfold strict_weak_amongb. rewrite forallb_forall. intros H. split.
  - intros a b Ha Hb E. specialize (H a Ha). rewrite forallb_forall in H.
    specialize (H b Hb). apply andb_prop in H. destruct H as [H _].
    rewrite E in H. simpl in H. now apply negb_true_iff.
  - intros a b c Ha Hb Hc E1 E2. specialize (H a Ha).
    rewrite forallb_forall in H. specialize (H b Hb).
    apply andb_prop in H. destruct H as [_ H].
    rewrite forallb_forall in H. specialize (H c Hc).
    rewrite E1, E2 in H. simpl in H. now apply negb_true_iff.
Qed.

Lemma insert_by_ordered (x : K * A) (l : list (K * A)) :
  strict_weak_among before (map fst (x :: l)) ->
  Py.ordered_by before l -> Py.ordered_by before (Py.insert_by before x l).
Proof.
  unfold Py.ordered_by. induction l as [|y l IH]; intros Hsw H; simpl.
  - repeat constructor.
  - inversion H as [|? ? Hl Hy]; subst.
    destruct Hsw as [Hasym Hneg].
    assert (Hx : In (fst x) (map fst (x :: y :: l))) by now left.
    assert (Hky : In (fst y) (map fst (x :: y :: l))) by (right; now left).
    assert (Hkl : forall z, In z l -> In (fst z) (map fst (x :: y :: l)))
      by (intros z Hz; right; right; now apply in_map).
    destruct (before (fst y) (fst x)) eqn:E.
    + constructor.
      * apply IH; [|exact Hl]. split.
        -- intros a b Ha Hb. apply Hasym; simpl in *; tauto.
        -- intros a b c Ha Hb Hc. apply Hneg; simpl in *; tauto.
      * apply Forall_forall. intros z Hz.
        apply (Permutation_in _ (insert_by_perm x l)) in Hz.
        destruct Hz as [<-|Hz]; [now apply Hasym|].
        revert z Hz. now apply Forall_forall.
    + constructor; [assumption|]. constructor; [assumption|].
      apply Forall_forall. intros z Hz.
      apply Hneg with (b := fst y); auto.
      revert z Hz. now apply Forall_forall.
Qed.

Lemma sort_by_ordered (l : list (K * A)) :
  strict_weak_among before (map fst l) ->
  Py.ordered_by before (Py.sort_by before l).
Proof.
  induction l as [|x l IH]; intros Hsw; simpl; [constructor|].
  apply insert_by_ordered.
  - apply (strict_weak_among_incl (map fst (x :: l))); [|exact Hsw].
    intros k [<-|Hk]; [now left|]. right.
    apply in_map_iff in Hk. destruct Hk as (z & <- & Hz).
    apply in_map. exact (Permutation_in _ (sort_by_perm l) Hz).
  - apply IH. apply (strict_weak_among_incl (map fst (x :: l))); [|exact Hsw].
    intros k Hk. now right.
Qed.

(** Sorting largest first needs the same of the keys. *)
Lemma strict_weak_among_flip (ks : list K) :
  strict_weak_among before ks ->
  strict_weak_among (fun k1 k2 => before k2 k1) ks.
Proof.
  intros [Hasym Hneg]. split.
  - intros a b Ha Hb. apply Hasym; auto.
  - intros a b c Ha Hb Hc H1 H2. apply (Hneg c b a); auto.
Qed.

End SortFacts.

(* ================================================================== *)
(** * Vector search *)
(* ================================================================== *)

Section VectorFacts.

Context {fl : PyFloat} {be : Backend}.

Lemma embed_text_table (self : TiDBVectorStore) (text : string) :
  table (snd (embed_text self text)) = table self.
Proof.
  unfold embed_text.
  destruct (PyDict.get _ _); [reflexivity|].
  destruct (model_encode _) as [[|e more]|]; try reflexivity.
  destruct (make_room _); reflexivity.
Qed.

Lemma vector_search_table (self : TiDBVectorStore)
      (query repo_name : string) (limit : nat) :
  table (snd (vector_search self query repo_name limit)) = table self.
Proof.
  unfold vector_search.
  pose proof (embed_text_table self query) as H.
  destruct (embed_text self query) as [[qe|] self']; exact H.
Qed.

(** The rows [vector_query] returns come from the repository, each with
    its distance to the query. *)
Lemma vector_query_In (rows : list CodeEmbedding.t) (repo_name : string)
      (qe : Vec) (limit : nat) (d : F) (row : CodeEmbedding.t) :
  In (d, row) (vector_query rows repo_name qe limit) ->
  In row rows /\ CodeEmbedding.repo_name row = repo_name
  /\ d = cosine_distance (CodeEmbedding.embedding row) qe.
Proof.
  unfold vector_query, order_by_distance. intros H.
  apply ListFacts.firstn_In in H.
  apply (Permutation_in _ (sort_by_perm fltb _)) in H.
  apply in_map_iff in H. destruct H as (r & Hr & Hin).
  inversion Hr; subst. unfold select_repo in Hin.
  apply filter_In in Hin. destruct Hin as [Hin E].
  apply String.eqb_eq in E. auto.
Qed.

Lemma similarity_antitoneb_spec (ds : list F) :
  similarity_antitoneb ds = true -> similarity_antitone ds.
Proof.
  unfold similarity_antitoneb. rewrite forallb_forall.
  intros H a b Ha Hb E. specialize (H a Ha). rewrite forallb_forall in H.
  specialize (H b Hb). rewrite E in H. exact H.
Qed.

(** The distances [vector_query] decorates the rows with. *)
Lemma vector_query_distance (rows : list CodeEmbedding.t) (repo_name : string)
      (qe : Vec) (limit : nat) (d : F) (row : CodeEmbedding.t) :
  In (d, row) (vector_query rows repo_name qe limit) ->
  In d (distances rows repo_name qe).
Proof.
  unfold vector_query, order_by_distance, distances. intros H.
  apply ListFacts.firstn_In in H.
  apply (Permutation_in _ (sort_by_perm fltb _)) in H.
  apply in_map_iff in H. destruct H as (r & Hr & Hin).
  inversion Hr; subst. apply in_map_iff.
  eexists. split; [reflexivity | eassumption].
Qed.

(** [vector_query] returns its rows by ascending distance, when [<]
    orders the distances. *)
Lemma vector_query_ordered (rows : list CodeEmbedding.t) (repo_name : string)
      (qe : Vec) (limit : nat) :
  comparable (distances rows repo_name qe) ->
  Py.ordered_by fltb (vector_query rows repo_name qe limit).
Proof.
  intros Hcmp. unfold vector_query, order_by_distance.
  apply ListFacts.firstn_StronglySorted.
  apply sort_by_ordered. rewrite map_map. exact Hcmp.
Qed.

(** C5: for every query, repository and limit, the results of vector
    search are the rows of a list sorted by ascending cosine distance to
    the embedded query, each turned into a result whose
    [similarity_score] is [1.0] minus that distance, and they are in
    descending order of [similarity_score]: no result has a score
    strictly below that of a later one. Every result comes from a row of
    the repository, and there are at most [limit]. The order is that of
    [<] on the distances that occur, those of the rows of the repository
    to the embedded query: among them [<] is a strict weak order (none
    is NaN) and [1.0 - d] does not invert it. *)
Theorem vector_search_descending_similarity
        (self : TiDBVectorStore) (query repo_name : string) (limit : nat) :
  (forall query_embedding,
      fst (embed_text self query) = Some query_embedding ->
      comparable (distances (table self) repo_name query_embedding)
      /\ similarity_antitone (distances (table self) repo_name query_embedding)) ->
  let results := fst (vector_search self query repo_name limit) in
  (List.length results <= limit)%nat
  /\ StronglySorted
       (fun r1 r2 => exists s1 s2,
            Result.similarity_score r1 = Some s1
            /\ Result.similarity_score r2 = Some s2
            /\ fltb s1 s2 = false)
       results
  /\ (forall query_embedding,
        fst (embed_text self query) = Some query_embedding ->
        exists rows : list (F * CodeEmbedding.t),
          results = map vector_result rows
          /\ StronglySorted (fun x y => fltb (fst y) (fst x) = false) rows
          /\ forall d row, In (d, row) rows ->
               In row (table self)
               /\ CodeEmbedding.repo_name row = repo_name
               /\ d = cosine_distance (CodeEmbedding.embedding row) query_embedding
               /\ Result.similarity_score (vector_result (d, row))
                  = Some (fsub f_one
                            (cosine_distance (CodeEmbedding.embedding row)
                                             query_embedding)))
  /\ (fst (embed_text self query) = None -> results = []).
Proof.
  intros Hfloat results. unfold results, vector_search.
  pose proof (embed_text_table self query) as Ht.
  destruct (embed_text self query) as [[qe|] self'] eqn:Ee; simpl in Ht |- *.
  2:{ repeat split; try constructor; try reflexivity; try lia.
      intros qe H. discriminate. }
  rewrite Ht. destruct (Hfloat qe eq_refl) as [Hcmp Hanti].
  pose proof (vector_query_ordered (table self) repo_name qe limit Hcmp) as Hord.
  assert (Hdist : forall d row,
             In (d, row) (vector_query (table self) repo_name qe limit) ->
             In d (distances (table self) repo_name qe))
    by (intros d row; apply vector_query_distance).
  split; [|split; [|split]].
  - rewrite length_map. unfold vector_query. apply firstn_le_length.
  - unfold Py.ordered_by in Hord.
    induction Hord as [|[d row] l Hl IH Hall]; simpl; constructor.
    + apply IH. intros d' row' Hin. apply (Hdist d' row'). now right.
    + apply Forall_forall. intros r Hr. apply in_map_iff in Hr.
      destruct Hr as ([d' row'] & <- & Hin).
      exists (fsub f_one d), (fsub f_one d'). repeat split.
      rewrite Forall_forall in Hall. specialize (Hall _ Hin). simpl in Hall.
      destruct (fltb (fsub f_one d) (fsub f_one d')) eqn:E; [|reflexivity].
      apply Hanti in E.
      * congruence.
      * apply (Hdist d row). now left.
      * apply (Hdist d' row'). now right.
  - intros qe' Hqe. inversion Hqe; subst qe'.
    exists (vector_query (table self) repo_name qe limit).
    split; [reflexivity|]. split; [exact Hord|].
    intros d row Hin. apply vector_query_In in Hin.
    destruct Hin as (Hin & Hrepo & ->). repeat split; auto.
  - discriminate.
Qed.

End VectorFacts.

(** C5 at work, in binary64: searching [Toy.sample_store] for ["TODO"]
    gives the chunk that mentions it first, with similarity 1.0, then
    the other, with similarity 0.0. *)
Lemma vector_search_descending_similarity_witness :
  (forall query_embedding,
      fst (embed_text (be := Toy.binary64) Toy.sample_store "TODO")
      = Some query_embedding ->
      comparable (distances (be := Toy.binary64)
                            (table Toy.sample_store) "demo" query_embedding)
      /\ similarity_antitone
           (distances (be := Toy.binary64)
                      (table Toy.sample_store) "demo" query_embedding))
  /\ map (fun r => (Result.file_path r, Result.similarity_score r))
         (fst (vector_search (be := Toy.binary64) Toy.sample_store "TODO" "demo" 5))
     = [("a.py", Some (1%float : @F Binary64.float64));
        ("b.py", Some (0%float : @F Binary64.float64))]
  /\ StronglySorted
       (fun r1 r2 : @Result.t Binary64.float64 => exists s1 s2,
            Result.similarity_score r1 = Some s1
            /\ Result.similarity_score r2 = Some s2
            /\ @fltb Binary64.float64 s1 s2 = false)
       (fst (vector_search (be := Toy.binary64) Toy.sample_store "TODO" "demo" 5)).
Proof.
  assert (Hfloat : forall query_embedding,
             fst (embed_text (be := Toy.binary64) Toy.sample_store "TODO")
             = Some query_embedding ->
             comparable (distances (be := Toy.binary64)
                                   (table Toy.sample_store) "demo" query_embedding)
             /\ similarity_antitone
                  (distances (be := Toy.binary64)
                             (table Toy.sample_store) "demo" query_embedding)).
  { intros qe Hqe.
    assert (E : fst (embed_text (be := Toy.binary64) Toy.sample_store "TODO")
                = Some (Toy.axis "TODO")) by (vm_compute; reflexivity).
    rewrite E in Hqe. inversion Hqe; subst qe. split.
    - apply strict_weak_amongb_spec. vm_compute. reflexivity.
    - apply similarity_antitoneb_spec. vm_compute. reflexivity. }
  split; [exact Hfloat|].
  split; [vm_compute; reflexivity|].
  exact (proj1 (proj2 (vector_search_descending_similarity
                         (be := Toy.binary64)
                         Toy.sample_store "TODO" "demo" 5 Hfloat))).
Defined.

(* ================================================================== *)
(** * Hybrid search *)
(* ================================================================== *)

Module KeyFacts.

Lemma has_char_mid (c : ascii) (x y : string) :
  Py.has_char c (x +++ String c y) = true.
Proof.
  induction x as [|a x IH]; simpl.
  - now rewrite Ascii.eqb_refl.
  - rewrite IH. apply orb_true_r.
Qed.

(** [path + ":" + id] determines [path] and [id] when the ids hold no
    colon. *)
Lemma key_inj (p1 : string) : forall p2 c1 c2,
  Py.has_char ":" c1 = false -> Py.has_char ":" c2 = false ->
  p1 +++ ":" +++ c1 = p2 +++ ":" +++ c2 -> p1 = p2 /\ c1 = c2.
Proof.
  induction p1 as [|a p1 IH]; intros [|b p2] c1 c2 H1 H2 H; simpl in H.
  - inversion H. auto.
  - inversion H; subst.
    change (p2 +++ String ":" c2) with (p2 +++ ":" +++ c2) in H1.
    change (p2 +++ ":" +++ c2) with (p2 +++ String ":" c2) in H1.
    rewrite has_char_mid in H1. discriminate.
  - inversion H; subst.
    change (p1 +++ ":" +++ c1) with (p1 +++ String ":" c1) in H2.
    rewrite has_char_mid in H2. discriminate.
  - inversion H; subst. destruct (IH p2 c1 c2 H1 H2 H4). split; congruence.
Qed.

Lemma NoDup_map_by {A B C : Type} (f : A -> B) (g : A -> C) (l : list A) :
  (forall x y, In x l -> In y l -> f x = f y -> g x = g y) ->
  NoDup (map g l) -> NoDup (map f l).
Proof.
  induction l as [|x l IH]; intros Hinj Hnd; simpl; [constructor|].
  inversion Hnd; subst. constructor.
  - intros Hx. apply in_map_iff in Hx. destruct Hx as (y & Hy & Hin).
    apply H1. apply in_map_iff. exists y. split; [|assumption].
    apply Hinj; simpl; auto.
  - apply IH; [|assumption]. intros; apply Hinj; simpl; auto.
Qed.

(** Filtering keeps the images of the items apart. *)
Lemma NoDup_map_filter {A B : Type} (keep : A -> bool) (g : A -> B)
      (xs : list A) (Hxs : NoDup (map g xs)) :
  NoDup (map g (filter keep xs)).
Proof.
  revert Hxs. induction xs as [|x xs IH]; intros H; simpl; [constructor|].
  inversion H; subst. destruct (keep x); simpl; [|now apply IH].
  constructor; [|now apply IH].
  intros Hx. apply H2. apply in_map_iff in Hx. destruct Hx as (y & Hy & Hin).
  apply filter_In in Hin. apply in_map_iff. exists y. tauto.
Qed.

End KeyFacts.

Section HybridFacts.

Context {fl : PyFloat}.

Lemma Forall_set (P : string * Result.t -> Prop) (k : string) (v : Result.t)
      (d : PyDict.t Result.t) :
  Forall P d -> P (k, v) -> Forall P (PyDict.set k v d).
Proof.
  induction d as [|[k' v'] d IH]; intros Hd Hv; simpl.
  - now constructor.
  - inversion Hd; subst. destruct (String.eqb k k'); constructor; auto.
Qed.

Lemma get_entry_ok (k : string) (e : Result.t) (d : PyDict.t Result.t) :
  Forall entry_ok d -> PyDict.get k d = Some e -> result_key e = k.
Proof.
  intros Hd Hg. apply PyDictFacts.get_In in Hg.
  rewrite Forall_forall in Hd. now destruct (Hd _ Hg).
Qed.

(** The first loop of [hybrid_search]. *)
Lemma fold_add_vector (V : list Result.t) : forall acc,
  NoDup (map result_key V) ->
  (forall v, In v V -> Result.similarity_score v <> None) ->
  exists D,
    Py.foldM add_vector V acc = Ok D
    /\ (forall k, ~ In k (map result_key V) -> PyDict.get k D = PyDict.get k acc)
    /\ (forall v, In v V ->
          exists s, Result.similarity_score v = Some s
                    /\ PyDict.get (result_key v) D = Some (scored v "vector" s))
    /\ (NoDup (PyDict.keys acc) -> NoDup (PyDict.keys D))
    /\ (Forall entry_ok acc -> Forall entry_ok D).
Proof.
  induction V as [|v V IH]; intros acc Hnd Hsim.
  - exists acc. simpl. repeat split; auto. intros v [].
  - inversion Hnd as [|? ? Hv HV]; subst.
    destruct (Result.similarity_score v) as [s|] eqn:Es;
      [|now destruct (Hsim v (or_introl eq_refl))].
    destruct (IH (PyDict.set (result_key v) (scored v "vector" s) acc) HV)
      as (D & Hf & Hframe & Hin & Hk & Hok);
      [intros; apply Hsim; now right|].
    exists D. simpl. unfold add_vector at 1. rewrite Es. simpl.
    split; [exact Hf|]. split; [|split; [|split]].
    + intros k Hk'. rewrite Hframe by tauto.
      apply PyDictFacts.get_set_other. intuition congruence.
    + intros w [<-|Hw].
      * exists s. split; [exact Es|].
        rewrite Hframe by exact Hv. apply PyDictFacts.get_set_same.
      * now apply Hin.
    + intros H. apply Hk. now apply PyDictFacts.NoDup_keys_set.
    + intros H. apply Hok. apply Forall_set; [exact H|].
      split; [reflexivity | discriminate].
Qed.

(** The second loop of [hybrid_search]. *)
Lemma fold_add_fulltext (T : list Result.t) : forall D,
  NoDup (map result_key T) ->
  (forall t, In t T -> Result.relevance_score t <> None) ->
  (forall t e, In t T -> PyDict.get (result_key t) D = Some e ->
               Result.similarity_score e <> None) ->
  Forall entry_ok D ->
  exists D',
    Py.foldM add_fulltext T D = Ok D'
    /\ (forall k, ~ In k (map result_key T) -> PyDict.get k D' = PyDict.get k D)
    /\ (forall t e, In t T -> PyDict.get (result_key t) D = Some e ->
          exists sim rel,
            Result.similarity_score e = Some sim
            /\ Result.relevance_score t = Some rel
            /\ PyDict.get (result_key t) D'
               = Some (scored e "hybrid"
                         (fdiv (fadd sim (fdiv rel f_ten)) f_two)))
    /\ (forall t, In t T -> PyDict.get (result_key t) D = None ->
          exists rel,
            Result.relevance_score t = Some rel
            /\ PyDict.get (result_key t) D'
               = Some (scored t "fulltext" (fdiv rel f_ten)))
    /\ (NoDup (PyDict.keys D) -> NoDup (PyDict.keys D'))
    /\ Forall entry_ok D'.
Proof.
  induction T as [|t T IH]; intros D Hnd Hrel Hsim Hok.
  - exists D. simpl. split; [reflexivity|]. split; [reflexivity|].
    split; [intros t e []|]. split; [intros t []|]. split; [auto | exact Hok].
  - inversion Hnd as [|? ? Ht HT]; subst.
    destruct (Result.relevance_score t) as [rel|] eqn:Er;
      [|now destruct (Hrel t (or_introl eq_refl))].
    assert (Hstep : exists D1,
               add_fulltext D t = Ok D1
               /\ (forall k, k <> result_key t -> PyDict.get k D1 = PyDict.get k D)
               /\ (forall e, PyDict.get (result_key t) D = Some e ->
                     exists sim, Result.similarity_score e = Some sim
                       /\ PyDict.get (result_key t) D1
                          = Some (scored e "hybrid"
                                    (fdiv (fadd sim (fdiv rel f_ten)) f_two)))
               /\ (PyDict.get (result_key t) D = None ->
                     PyDict.get (result_key t) D1
                     = Some (scored t "fulltext" (fdiv rel f_ten)))
               /\ (NoDup (PyDict.keys D) -> NoDup (PyDict.keys D1))
               /\ Forall entry_ok D1).
    { unfold add_fulltext. rewrite Er.
      destruct (PyDict.get (result_key t) D) as [found|] eqn:Eg.
      - destruct (Result.similarity_score found) as [sim|] eqn:Es;
          [|now destruct (Hsim t found (or_introl eq_refl) Eg)].
        simpl. eexists. split; [reflexivity|]. repeat split.
        + intros k Hk. now apply PyDictFacts.get_set_other.
        + intros e He. inversion He; subst e. exists sim.
          split; [exact Es | apply PyDictFacts.get_set_same].
        + discriminate.
        + intros H. now apply PyDictFacts.NoDup_keys_set.
        + apply Forall_set; [exact Hok|]. split; [|discriminate].
          simpl. apply (get_entry_ok _ _ _ Hok Eg).
      - simpl. eexists. split; [reflexivity|]. repeat split.
        + intros k Hk. now apply PyDictFacts.get_set_other.
        + intros e He. discriminate.
        + intros _. apply PyDictFacts.get_set_same.
        + intros H. now apply PyDictFacts.NoDup_keys_set.
        + apply Forall_set; [exact Hok|]. split; [reflexivity | discriminate]. }
    destruct Hstep as (D1 & Hadd & Hother & Hhyb & Hfull & Hk1 & Hok1).
    assert (Hne : forall u, In u T -> result_key u <> result_key t).
    { intros u Hu E. apply Ht. rewrite <- E. now apply in_map. }
    destruct (IH D1 HT) as (D' & Hf & Hframe & Hboth & Honly & Hk & Hok');
      [intros; apply Hrel; now right | | exact Hok1 |].
    { intros u e Hu Hg. rewrite Hother in Hg by now apply Hne.
      apply (Hsim u e); [now right | exact Hg]. }
    exists D'. simpl. rewrite Hadd.
    split; [exact Hf|]. split; [|split; [|split; [|split]]].
    + intros k Hk'. rewrite Hframe by tauto. apply Hother. intuition congruence.
    + intros u e [<-|Hu] Hg.
      * destruct (Hhyb e Hg) as (sim & Es & Hg1).
        exists sim, rel. repeat split; auto.
        now rewrite Hframe by exact Ht.
      * apply Hboth; [exact Hu|]. now rewrite Hother by now apply Hne.
    + intros u [<-|Hu] Hg.
      * exists rel. split; [exact Er|].
        rewrite Hframe by exact Ht. now apply Hfull.
      * apply Honly; [exact Hu|]. now rewrite Hother by now apply Hne.
    + intros H. auto.
    + exact Hok'.
Qed.

End HybridFacts.

(* ================================================================== *)
(** * Indexing leaves a well-formed corpus *)
(* ================================================================== *)

Section CorpusFacts.

Context {fl : PyFloat} {be : Backend}.

Lemma map_fst_combine {A B : Type} (l : list A) : forall l' : list B,
  map fst (combine l l') = firstn (List.length l') l.
Proof.
  induction l as [|x l IH]; intros [|y l']; simpl; try reflexivity.
  now rewrite IH.
Qed.

(** The ids of the chunks of one file are pairwise distinct and hold no
    colon. *)
Lemma chunk_ids_of_file (text path : string) (chunk_size : Z) :
  NoDup (map Chunk.chunk_id (chunk_code_file text path chunk_size))
  /\ Forall (fun c => Py.has_char ":" (Chunk.chunk_id c) = false)
            (chunk_code_file text path chunk_size).
Proof.
  rewrite chunk_code_file_emitted.
  set (cs := emitted _ _ _ _ _ _ _).
  assert (Hid : forall k c, nth_error cs k = Some c ->
                  Chunk.chunk_id c = "chunk_" +++ Py.str_nat k)
    by (intros k c H; now apply emitted_ids in H).
  split.
  - apply NoDup_nth_error. intros i j Hi E.
    rewrite length_map in Hi. rewrite !nth_error_map in E.
    destruct (nth_error cs i) as [c|] eqn:Ec;
      [|apply nth_error_None in Ec; lia].
    destruct (nth_error cs j) as [d|] eqn:Ed; [|discriminate].
    simpl in E. rewrite (Hid _ _ Ec), (Hid _ _ Ed) in E. simpl in E.
    apply PyFacts.str_nat_inj. congruence.
  - apply Forall_forall. intros c Hc. apply In_nth_error in Hc.
    destruct Hc as [k Hk]. rewrite (Hid _ _ Hk). simpl.
    apply PyFacts.str_nat_no_colon.
Qed.

(** The rows added for one file. *)
Lemma index_file_rows (repo url : string) (file : FileInfo.t)
      (cs : list Chunk.t) (embs : list Vec) :
  NoDup (map Chunk.chunk_id cs) ->
  Forall (fun c => Py.has_char ":" (Chunk.chunk_id c) = false) cs ->
  let rows := map (code_embedding repo url file) (combine cs embs) in
  NoDup (map row_ident rows)
  /\ Forall (fun r => Py.has_char ":" (CodeEmbedding.chunk_id r) = false) rows
  /\ Forall (fun r => CodeEmbedding.file_path r = FileInfo.path file) rows.
Proof.
  intros Hnd Hc rows. unfold rows.
  assert (Hpre : map Chunk.chunk_id (map fst (combine cs embs))
                 = firstn (List.length embs) (map Chunk.chunk_id cs))
    by (rewrite map_fst_combine; symmetry; apply ListFacts.firstn_map).
  split; [|split].
  - apply KeyFacts.NoDup_map_by
      with (g := fun r => CodeEmbedding.chunk_id r).
    + intros x y Hx Hy E. unfold row_ident in E. congruence.
    + rewrite map_map.
      replace (map (fun x => CodeEmbedding.chunk_id (code_embedding repo url file x))
                   (combine cs embs))
        with (map Chunk.chunk_id (map fst (combine cs embs)))
        by (rewrite map_map; apply map_ext; now intros [c e]).
      rewrite Hpre. now apply ListFacts.firstn_NoDup.
  - apply Forall_forall. intros r Hr. apply in_map_iff in Hr.
    destruct Hr as ([c e] & <- & Hin). simpl.
    apply in_combine_l in Hin. rewrite Forall_forall in Hc. now apply Hc.
  - apply Forall_forall. intros r Hr. apply in_map_iff in Hr.
    now destruct Hr as ([c e] & <- & _).
Qed.

(** The loop over files with distinct paths adds rows with distinct
    identities and colon-free ids. *)
Lemma index_files_corpus (repo url : string) (files : list FileInfo.t) :
  forall st,
    NoDup (map FileInfo.path files) ->
    NoDup (map row_ident (added st)) ->
    Forall (fun r => Py.has_char ":" (CodeEmbedding.chunk_id r) = false)
           (added st) ->
    (forall r, In r (added st) ->
               ~ In (CodeEmbedding.file_path r) (map FileInfo.path files)) ->
    let st' := fold_left (index_file repo url) files st in
    NoDup (map row_ident (added st'))
    /\ Forall (fun r => Py.has_char ":" (CodeEmbedding.chunk_id r) = false)
              (added st').
Proof.
  induction files as [|f files IH]; intros st Hp Hnd Hc Hold; [now split|].
  inversion Hp as [|? ? Hf Hp']; subst.
  assert (Hold' : forall r, In r (added st) ->
                    ~ In (CodeEmbedding.file_path r) (map FileInfo.path files))
    by (intros r Hr Hin; apply (Hold r Hr); now right).
  simpl. apply IH; try assumption; unfold index_file;
    destruct (String.eqb (FileInfo.content f) ""
              || (100000 <? Py.len (FileInfo.content f)));
    try assumption;
    destruct (model_encode _) as [embs|]; simpl; try assumption;
    destruct (chunk_ids_of_file (FileInfo.content f) (FileInfo.path f)
                                default_chunk_size) as [Hids Hcol];
    destruct (index_file_rows repo url f _ embs Hids Hcol)
      as (Hr1 & Hr2 & Hr3); rewrite Forall_forall in Hr3.
  - rewrite map_app. apply NoDup_app; try assumption.
    intros a Ha Ha'. apply in_map_iff in Ha, Ha'.
    destruct Ha as (r & <- & Hr). destruct Ha' as (r' & E & Hr').
    apply (Hold r Hr). left. rewrite <- (Hr3 r' Hr').
    unfold row_ident in E. congruence.
  - apply Forall_app. now split.
  - intros r Hr. apply in_app_or in Hr. destruct Hr as [Hr|Hr].
    + now apply Hold'.
    + now rewrite (Hr3 r Hr).
Qed.

(** Indexing a file listing with distinct paths leaves the repository
    with a well-formed corpus, whatever the store held. *)
Lemma index_repository_corpus_ok
      (self : TiDBVectorStore) (repo_data : RepoData.t) :
  NoDup (map FileInfo.path (RepoData.files repo_data)) ->
  corpus_ok (table (snd (index_repository self repo_data)))
            (match RepoData.repo_name repo_data with
             | Some n => n
             | None => ""
             end).
Proof.
  intros Hp. unfold index_repository. simpl.
  set (repo := match RepoData.repo_name repo_data with Some n => n | None => "" end).
  set (init := {| added := []; indexed_count := 0;
                  total_chunks := 0; encode_calls := 0 |}).
  destruct (index_files_inv repo (RepoData.github_url repo_data)
              (RepoData.files repo_data) init (Forall_nil _) eq_refl)
    as [Hall _].
  destruct (index_files_corpus repo (RepoData.github_url repo_data)
              (RepoData.files repo_data) init Hp (NoDup_nil _) (Forall_nil _))
    as [Hnd Hc]; [intros r []|].
  unfold corpus_ok.
  rewrite select_repo_app, select_delete_same, select_all by exact Hall.
  now split.
Qed.

End CorpusFacts.

Section HybridSearch.

Context {fl : PyFloat} {be : Backend}.

Lemma result_key_ident (x y : Result.t) :
  result_ident x = result_ident y -> result_key x = result_key y.
Proof. unfold result_ident, result_key. intros H. inversion H. congruence. Qed.

Lemma result_ident_key (x y : Result.t) :
  Py.has_char ":" (Result.chunk_id x) = false ->
  Py.has_char ":" (Result.chunk_id y) = false ->
  result_key x = result_key y -> result_ident x = result_ident y.
Proof.
  unfold result_ident, result_key. intros Hx Hy H.
  destruct (KeyFacts.key_inj _ _ _ _ Hx Hy H). congruence.
Qed.

(** Results with distinct identities and colon-free ids have distinct
    keys. *)
Lemma NoDup_result_keys (l : list Result.t) :
  NoDup (map result_ident l) ->
  Forall (fun r => Py.has_char ":" (Result.chunk_id r) = false) l ->
  NoDup (map result_key l).
Proof.
  intros Hnd Hc. apply KeyFacts.NoDup_map_by with (g := result_ident); [|exact Hnd].
  rewrite Forall_forall in Hc. intros x y Hx Hy. apply result_ident_key; auto.
Qed.

(** What [vector_search] returns, over a well-formed corpus. *)
Lemma vector_search_shape (self : TiDBVectorStore)
      (query repo_name : string) (limit : nat) :
  corpus_ok (table self) repo_name ->
  let V := fst (vector_search self query repo_name limit) in
  NoDup (map result_ident V)
  /\ Forall (fun r => Py.has_char ":" (Result.chunk_id r) = false) V
  /\ Forall (fun r => Result.similarity_score r <> None) V.
Proof.
  intros [Hnd Hc] V. unfold V, vector_search.
  pose proof (embed_text_table self query) as Ht.
  destruct (embed_text self query) as [[qe|] self']; simpl in Ht |- *;
    [|repeat split; constructor].
  rewrite Ht. unfold vector_query, order_by_distance.
  set (dec := map _ (select_repo repo_name (table self))).
  assert (Hperm : Permutation (map snd (Py.sort_by fltb dec))
                              (select_repo repo_name (table self))).
  { rewrite (Permutation_map snd (sort_by_perm fltb dec)).
    unfold dec. rewrite map_map. simpl. now rewrite map_id. }
  split; [|split].
  - rewrite map_map.
    replace (map (fun x => result_ident (vector_result x))
                 (firstn limit (Py.sort_by fltb dec)))
      with (firstn limit (map row_ident (map snd (Py.sort_by fltb dec)))).
    + apply ListFacts.firstn_NoDup.
      apply (Permutation_NoDup (l := map row_ident (select_repo repo_name (table self))));
        [|exact Hnd].
      symmetry. now apply Permutation_map.
    + rewrite map_map, ListFacts.firstn_map. apply map_ext. now intros [d r].
  - apply Forall_forall. intros r Hr. apply in_map_iff in Hr.
    destruct Hr as ([d row] & <- & Hin). simpl.
    apply ListFacts.firstn_In in Hin.
    assert (Hrow : In row (map snd (Py.sort_by fltb dec)))
      by (apply in_map_iff; now exists (d, row)).
    apply (Permutation_in _ Hperm) in Hrow.
    rewrite Forall_forall in Hc. now apply Hc.
  - apply Forall_forall. intros r Hr. apply in_map_iff in Hr.
    destruct Hr as ([d row] & <- & _). discriminate.
Qed.

(** What [fulltext_search] returns, over a well-formed corpus. *)
Lemma fulltext_search_shape (self : TiDBVectorStore)
      (query repo_name : string) (limit : nat) :
  corpus_ok (table self) repo_name ->
  let T := fulltext_search self query repo_name limit in
  NoDup (map result_ident T)
  /\ Forall (fun r => Py.has_char ":" (Result.chunk_id r) = false) T
  /\ Forall (fun r => Result.relevance_score r <> None) T.
Proof.
  intros [Hnd Hc] T. unfold T, fulltext_search, text_query.
  split; [|split].
  - rewrite map_map.
    change (map (fun x => result_ident (fulltext_result x)))
      with (map row_ident).
    rewrite <- ListFacts.firstn_map. apply ListFacts.firstn_NoDup.
    now apply KeyFacts.NoDup_map_filter.
  - apply Forall_forall. intros r Hr. apply in_map_iff in Hr.
    destruct Hr as (row & <- & Hin). simpl.
    apply ListFacts.firstn_In in Hin. apply filter_In in Hin.
    rewrite Forall_forall in Hc. now apply Hc.
  - apply Forall_forall. intros r Hr. apply in_map_iff in Hr.
    destruct Hr as (row & <- & _). discriminate.
Qed.

Lemma mapM_decorate (l : list Result.t) :
  Forall (fun e => Result.combined_score e <> None) l ->
  exists dec,
    Py.mapM (fun x => k <- getitem "combined_score" (Result.combined_score x) ;;
                      Ok (k, x)) l = Ok dec
    /\ map snd dec = l
    /\ Forall (fun p => Result.combined_score (snd p) = Some (fst p)) dec.
Proof.
  induction 1 as [|e l He _ (dec & Hm & Hs & Hd)].
  - exists []. repeat split; constructor.
  - destruct (Result.combined_score e) as [k|] eqn:Ek; [|congruence].
    exists ((k, e) :: dec). simpl. rewrite Ek. simpl. rewrite Hm.
    repeat split; [now rewrite Hs | now constructor].
Qed.

Lemma decorated_scores (dec : list (F * Result.t)) :
  Forall (fun p => Result.combined_score (snd p) = Some (fst p)) dec ->
  combined_scores (map snd dec) = map fst dec.
Proof.
  induction 1 as [|p dec Hp _ IH]; [reflexivity|].
  unfold combined_scores in *. simpl. now rewrite Hp, IH.
Qed.

(** [sorted(..., reverse=True)] returns a rearrangement of its argument
    in which no result scores below a later one, when [<] orders the
    scores. *)
Lemma sorted_by_combined_score_spec (l : list Result.t) :
  Forall (fun e => Result.combined_score e <> None) l ->
  comparable (combined_scores l) ->
  exists sorted,
    sorted_by_combined_score l = Ok sorted
    /\ Permutation sorted l
    /\ StronglySorted score_ge sorted.
Proof.
  intros Hl Hcmp. destruct (mapM_decorate l Hl) as (dec & Hm & Hs & Hd).
  unfold sorted_by_combined_score. rewrite Hm.
  set (before := fun k1 k2 : F => fltb k2 k1).
  exists (map snd (Py.sort_by before dec)). split; [reflexivity|]. split.
  - rewrite <- Hs. apply Permutation_map. apply sort_by_perm.
  - assert (Hord : Py.ordered_by before (Py.sort_by before dec)).
    { apply sort_by_ordered. unfold before.
      apply strict_weak_among_flip.
      rewrite <- (decorated_scores dec Hd), Hs. exact Hcmp. }
    assert (Hd' : Forall (fun p => Result.combined_score (snd p) = Some (fst p))
                         (Py.sort_by before dec)).
    { apply Forall_forall. intros p Hp.
      apply (Permutation_in _ (sort_by_perm before dec)) in Hp.
      revert p Hp. now apply Forall_forall. }
    unfold Py.ordered_by in Hord.
    induction Hord as [|p s Hs' IH Hall]; simpl; constructor.
    + apply IH. now inversion Hd'.
    + inversion Hd' as [|? ? Hp Hrest]; subst.
      apply Forall_forall. intros e He. apply in_map_iff in He.
      destruct He as (q & <- & Hq).
      rewrite Forall_forall in Hall, Hrest.
      exists (fst p), (fst q). repeat split; auto.
      exact (Hall q Hq).
Qed.

End HybridSearch.

Section HybridClaim.

Context {fl : PyFloat} {be : Backend}.

(** The dict the two loops build from result lists with distinct keys. *)
Lemma combine_results_spec (V T : list Result.t) :
  NoDup (map result_key V) -> NoDup (map result_key T) ->
  Forall (fun r => Result.similarity_score r <> None) V ->
  Forall (fun r => Result.relevance_score r <> None) T ->
  exists D,
    combine_results V T = Ok D
    /\ NoDup (PyDict.keys D)
    /\ Forall entry_ok D
    /\ (forall v t, In v V -> In t T -> result_key v = result_key t ->
          exists sim rel,
            Result.similarity_score v = Some sim
            /\ Result.relevance_score t = Some rel
            /\ PyDict.get (result_key v) D
               = Some (scored v "hybrid"
                         (fdiv (fadd sim (fdiv rel f_ten)) f_two)))
    /\ (forall v, In v V -> ~ In (result_key v) (map result_key T) ->
          exists sim,
            Result.similarity_score v = Some sim
            /\ PyDict.get (result_key v) D = Some (scored v "vector" sim))
    /\ (forall t, In t T -> ~ In (result_key t) (map result_key V) ->
          exists rel,
            Result.relevance_score t = Some rel
            /\ PyDict.get (result_key t) D
               = Some (scored t "fulltext" (fdiv rel f_ten)))
    /\ (forall k e, PyDict.get k D = Some e ->
          exists r, (In r V \/ In r T) /\ result_ident e = result_ident r).
Proof.
  intros HV HT Hsim Hrel. rewrite Forall_forall in Hsim, Hrel.
  destruct (fold_add_vector V [] HV Hsim)
    as (D1 & Hf1 & Hframe1 & Hin1 & Hk1 & Hok1).
  specialize (Hk1 (NoDup_nil _)). specialize (Hok1 (Forall_nil _)).
  assert (Hfrom : forall k e, PyDict.get k D1 = Some e ->
             exists v s, In v V /\ result_key v = k
                         /\ Result.similarity_score v = Some s
                         /\ e = scored v "vector" s).
  { intros k e Hg.
    destruct (in_dec string_dec k (map result_key V)) as [Hk|Hk].
    - apply in_map_iff in Hk. destruct Hk as (v & <- & Hv).
      destruct (Hin1 v Hv) as (s & Es & Hg'). exists v, s.
      repeat split; auto. congruence.
    - rewrite Hframe1 in Hg by exact Hk. discriminate. }
  destruct (fold_add_fulltext T D1 HT Hrel)
    as (D & Hf & Hframe & Hboth & Honly & Hk & Hok); [|exact Hok1|].
  { intros t e _ Hg. destruct (Hfrom _ _ Hg) as (v & s & _ & _ & Es & ->).
    simpl. congruence. }
  exists D. unfold combine_results. rewrite Hf1.
  split; [exact Hf|]. split; [now apply Hk|]. split; [exact Hok|].
  split; [|split; [|split]].
  - intros v t Hv Ht E.
    destruct (Hin1 v Hv) as (s & Es & Hg1). rewrite E in Hg1.
    destruct (Hboth t _ Ht Hg1) as (sim & rel & Es' & Er & Hg).
    exists sim, rel. simpl in Es'. rewrite E. repeat split; auto.
  - intros v Hv Hn. destruct (Hin1 v Hv) as (s & Es & Hg1).
    exists s. split; [exact Es|]. now rewrite Hframe.
  - intros t Ht Hn. apply Honly; [exact Ht|].
    rewrite Hframe1 by exact Hn. reflexivity.
  - intros k e Hg.
    destruct (in_dec string_dec k (map result_key T)) as [Hk'|Hk'].
    + apply in_map_iff in Hk'. destruct Hk' as (t & <- & Ht).
      destruct (PyDict.get (result_key t) D1) as [e1|] eqn:Eg1.
      * destruct (Hboth t e1 Ht Eg1) as (sim & rel & _ & _ & Hg').
        destruct (Hfrom _ _ Eg1) as (v & s & Hv & _ & _ & ->).
        exists v. split; [now left|].
        rewrite Hg in Hg'. now inversion Hg'.
      * destruct (Honly t Ht Eg1) as (rel & _ & Hg').
        exists t. split; [now right|].
        rewrite Hg in Hg'. now inversion Hg'.
    + rewrite Hframe in Hg by exact Hk'.
      destruct (Hfrom _ _ Hg) as (v & s & Hv & _ & _ & ->).
      exists v. split; [now left | reflexivity].
Qed.

Lemma hybrid_search_unfold
      (self : TiDBVectorStore) (query repo_name : string) (limit : nat) :
  fst (hybrid_search self query repo_name limit)
  = (combined_results <-
       combine_results
         (fst (vector_search self query repo_name limit))
         (fulltext_search (snd (vector_search self query repo_name limit))
                          query repo_name limit) ;;
     sorted_results <-
       sorted_by_combined_score (PyDict.values combined_results) ;;
     Ok (firstn limit sorted_results)).
Proof.
  unfold hybrid_search.
  now destruct (vector_search self query repo_name limit).
Qed.

(** X28: over a corpus whose rows have distinct [(file_path, chunk_id)]
    and chunk ids without a colon, and when [<] orders the combined
    scores of the merged entries (none is NaN), hybrid search returns
    the first [limit] entries of a list [merged] that is sorted by
    [combined_score], larger first, and holds one entry for each
    [(file_path, chunk_id)] found by vector search or by full-text search
    at this [limit], and no other: for a chunk found by both, the vector
    result with [search_type = "hybrid"] and
    [combined_score = (similarity_score + relevance_score / 10.0) / 2];
    for a chunk found by vector search only, the vector result with
    [search_type = "vector"] and [combined_score = similarity_score]; for
    a chunk found by full-text search only, the full-text result with
    [search_type = "fulltext"] and
    [combined_score = relevance_score / 10.0]. *)
Theorem hybrid_search_merges_by_identity
        (self : TiDBVectorStore) (query repo_name : string) (limit : nat) :
  corpus_ok (table self) repo_name ->
  (forall D,
      combine_results
        (fst (vector_search self query repo_name limit))
        (fulltext_search (snd (vector_search self query repo_name limit))
                         query repo_name limit)
      = Ok D ->
      comparable (combined_scores (PyDict.values D))) ->
  let vector_results := fst (vector_search self query repo_name limit) in
  let fulltext_results :=
    fulltext_search (snd (vector_search self query repo_name limit))
                    query repo_name limit in
  exists merged : list Result.t,
    fst (hybrid_search self query repo_name limit) = Ok (firstn limit merged)
    /\ StronglySorted score_ge merged
    /\ NoDup (map result_ident merged)
    /\ (forall e, In e merged ->
          exists r, (In r vector_results \/ In r fulltext_results)
                    /\ result_ident e = result_ident r)
    /\ (forall v t,
          In v vector_results -> In t fulltext_results ->
          result_ident v = result_ident t ->
          exists sim rel,
            Result.similarity_score v = Some sim
            /\ Result.relevance_score t = Some rel
            /\ In (scored v "hybrid" (fdiv (fadd sim (fdiv rel f_ten)) f_two))
                  merged)
    /\ (forall v,
          In v vector_results ->
          (forall t, In t fulltext_results -> result_ident t <> result_ident v) ->
          exists sim,
            Result.similarity_score v = Some sim
            /\ In (scored v "vector" sim) merged)
    /\ (forall t,
          In t fulltext_results ->
          (forall v, In v vector_results -> result_ident v <> result_ident t) ->
          exists rel,
            Result.relevance_score t = Some rel
            /\ In (scored t "fulltext" (fdiv rel f_ten)) merged).
Proof.
  intros Hcorpus Hcmp V T. rewrite hybrid_search_unfold. fold V T.
  fold V T in Hcmp.
  destruct (vector_search_shape self query repo_name limit Hcorpus)
    as (HVnd & HVc & HVs). fold V in HVnd, HVc, HVs.
  assert (Hcorpus' : corpus_ok
                       (table (snd (vector_search self query repo_name limit)))
                       repo_name)
    by now rewrite vector_search_table.
  destruct (fulltext_search_shape _ query repo_name limit Hcorpus')
    as (HTnd & HTc & HTr). fold T in HTnd, HTc, HTr.
  destruct (combine_results_spec V T
              (NoDup_result_keys V HVnd HVc) (NoDup_result_keys T HTnd HTc)
              HVs HTr)
    as (D & Hcomb & HDk & HDok & Hboth & Hvec & Hfull & Hfrom).
  assert (Hscored : Forall (fun e => Result.combined_score e <> None)
                           (PyDict.values D)).
  { unfold PyDict.values. apply Forall_forall. intros e He.
    apply in_map_iff in He. destruct He as (kv & <- & Hkv).
    rewrite Forall_forall in HDok. now destruct (HDok kv Hkv). }
  destruct (sorted_by_combined_score_spec _ Hscored (Hcmp D Hcomb))
    as (merged & Hsort & Hperm & Hsorted).
  assert (Hmem : forall k e, PyDict.get k D = Some e -> In e merged).
  { intros k e Hg. apply (Permutation_in _ (Permutation_sym Hperm)).
    unfold PyDict.values. apply in_map_iff. exists (k, e).
    split; [reflexivity | now apply PyDictFacts.get_In]. }
  rewrite Forall_forall in HVc, HTc.
  exists merged. split; [|split; [|split; [|split; [|split; [|split]]]]].
  - now rewrite Hcomb, Hsort.
  - exact Hsorted.
  - apply (Permutation_NoDup (l := map result_ident (PyDict.values D)));
      [symmetry; now apply Permutation_map|].
    apply KeyFacts.NoDup_map_by with (g := result_key);
      [intros x y _ _; apply result_key_ident|].
    replace (map result_key (PyDict.values D)) with (PyDict.keys D);
      [exact HDk|].
    unfold PyDict.values, PyDict.keys. rewrite map_map. apply map_ext_in.
    intros kv Hkv. rewrite Forall_forall in HDok.
    now destruct (HDok kv Hkv).
  - intros e He. apply (Permutation_in _ Hperm) in He.
    unfold PyDict.values in He. apply in_map_iff in He.
    destruct He as ([k e'] & <- & Hkv). simpl.
    apply (Hfrom k). now apply PyDictFacts.In_get.
  - intros v t Hv Ht E.
    destruct (Hboth v t Hv Ht (result_key_ident _ _ E))
      as (sim & rel & Es & Er & Hg).
    exists sim, rel. repeat split; auto. exact (Hmem _ _ Hg).
  - intros v Hv Hno. destruct (Hvec v Hv) as (sim & Es & Hg).
    + intros Hk. apply in_map_iff in Hk. destruct Hk as (t & E & Ht).
      apply (Hno t Ht). apply result_ident_key; auto.
    + exists sim. split; [exact Es | exact (Hmem _ _ Hg)].
  - intros t Ht Hno. destruct (Hfull t Ht) as (rel & Er & Hg).
    + intros Hk. apply in_map_iff in Hk. destruct Hk as (v & E & Hv).
      apply (Hno v Hv). apply result_ident_key; auto.
    + exists rel. split; [exact Er | exact (Hmem _ _ Hg)].
Qed.

End HybridClaim.

(** [Toy.sample_store] comes from indexing two files with distinct paths. *)
Lemma sample_corpus_ok : corpus_ok (table Toy.sample_store) "demo".
Proof.
  apply (index_repository_corpus_ok (be := Toy.binary64)
           TiDBVectorStore_init Toy.sample_repo).
  simpl. repeat constructor; simpl; intuition discriminate.
Qed.

(** X28 at work, in binary64: searching [Toy.sample_store] for
    ["TODO"], the chunk of [a.py] is found by both searches and gets
    [(1.0 + 1.0 / 10.0) / 2] as a hybrid result; the chunk of [b.py] is
    found by vector search only and keeps its similarity, 0.0. *)
Lemma hybrid_search_merges_by_identity_witness :
  corpus_ok (table Toy.sample_store) "demo"
  /\ (forall D,
        combine_results
          (fst (vector_search (be := Toy.binary64)
                  Toy.sample_store "TODO" "demo" 5))
          (fulltext_search
             (snd (vector_search (be := Toy.binary64)
                     Toy.sample_store "TODO" "demo" 5))
             "TODO" "demo" 5)
        = Ok D ->
        comparable (combined_scores (PyDict.values D)))
  /\ (exists merged,
        fst (hybrid_search (be := Toy.binary64) Toy.sample_store "TODO" "demo" 5)
        = Ok (firstn 5 merged)
        /\ StronglySorted score_ge merged
        /\ NoDup (map result_ident merged))
  /\ (exists results,
        fst (hybrid_search (be := Toy.binary64) Toy.sample_store "TODO" "demo" 5)
        = Ok results
        /\ map (fun r => (Result.file_path r, Result.search_type r,
                          Result.combined_score r)) results
           = [("a.py", Some "hybrid",
               Some (PrimFloat.div
                       (PrimFloat.add 1%float (PrimFloat.div 1%float 10%float))
                       2%float : @F Binary64.float64));
              ("b.py", Some "vector", Some (0%float : @F Binary64.float64))]).
Proof.
  assert (Hcmp : forall D,
             combine_results
               (fst (vector_search (be := Toy.binary64)
                       Toy.sample_store "TODO" "demo" 5))
               (fulltext_search
                  (snd (vector_search (be := Toy.binary64)
                          Toy.sample_store "TODO" "demo" 5))
                  "TODO" "demo" 5)
             = Ok D ->
             comparable (combined_scores (PyDict.values D))).
  { intros D HD. vm_compute in HD. inversion HD; subst D.
    apply strict_weak_amongb_spec. vm_compute. reflexivity. }
  split; [exact sample_corpus_ok|]. split; [exact Hcmp|]. split.
  - destruct (hybrid_search_merges_by_identity
                (be := Toy.binary64)
                Toy.sample_store "TODO" "demo" 5 sample_corpus_ok Hcmp)
      as (merged & H1 & H2 & H3 & _).
    exists merged. repeat split; assumption.
  - eexists. split; [vm_compute; reflexivity|]. vm_compute. reflexivity.
Defined.

(** The example of the design notes, in binary64: a chunk with
    [similarity_score = 0.8] from vector search and
    [relevance_score = 1.0] from full-text search gets
    [combined_score = 0.45], the float nearest to 0.45, and
    [search_type = "hybrid"]. *)
Lemma hybrid_example_binary64 :
  combine_results [Toy.vector_08] [Toy.fulltext_10]
  = Ok [("c.py:chunk_0",
         scored Toy.vector_08 "hybrid"
                (0x1.ccccccccccccdp-2%float : @F Binary64.float64))].
Proof. vm_compute. reflexivity. Qed.


(* ================================================================== *)
(** * The context of the answerer *)
(* ================================================================== *)

(** C9: [Toy.long_store] holds one chunk of 1200 characters. The answerer
    asks for it; the context it builds shows the first 1000 characters
    followed by ["..."], not the stored content: [CodeSearchTool._run]
    fills [full_content] from [result['content']], which [vector_search]
    has truncated, and not from [result['full_content']]. *)
Theorem rag_context_truncates_long_chunk :
  map CodeEmbedding.content (table Toy.long_store)
  = [Toy.repeat_char "a" 1200]
  /\ map Processed.full_content
         (rag_context_chunks (be := Toy.binary64) Toy.long_store "a" "long")
     = [Toy.repeat_char "a" 1000 +++ "..."]
  /\ context_parts
       (SearchResponse.results
          (fst (CodeSearchTool_run (be := Toy.binary64) (Some Toy.long_store)
                                   "a" "long" "hybrid" 8)))
     = [context_block "long.py"
          (Some {| Metadata.language := "Python";
                   Metadata.start_line := 0;
                   Metadata.end_line := 0;
                   Metadata.chunk_size := 1200;
                   Metadata.file_size := 1200 |})
          (Toy.repeat_char "a" 1000 +++ "...")]
  /\ Toy.repeat_char "a" 1000 +++ "..." <> Toy.repeat_char "a" 1200.
Proof.
  split; [vm_compute; reflexivity|].
  split; [vm_compute; reflexivity|].
  split; [vm_compute; reflexivity|].
  intros H. apply (f_equal String.length) in H. vm_compute in H. discriminate.
Qed.

(* ================================================================== *)
(** * More on the chunker *)
(* ================================================================== *)

Module SliceFacts.

Lemma lines_size_app (a b : list string) :
  lines_size (a ++ b) = lines_size a + lines_size b.
Proof. induction a as [|x a IH]; simpl; [reflexivity | rewrite IH; lia]. Qed.

Lemma lines_size_nonneg (a : list string) : 0 <= lines_size a.
Proof.
  induction a as [|x a IH]; simpl; [lia|]. unfold Py.len. lia.
Qed.

(** [len('\n'.join(ls)) + 1] is the size the loop accumulates. *)
Lemma len_join (ls : list string) :
  ls <> [] -> Py.len (Py.join Py.NL ls) + 1 = lines_size ls.
Proof.
  induction ls as [|x ls IH]; [congruence|]. intros _.
  destruct ls as [|y ls]; [simpl; lia|].
  rewrite PyFacts.join_cons by discriminate.
  change (lines_size (x :: y :: ls)) with (Py.len x + 1 + lines_size (y :: ls)).
  rewrite <- IH by discriminate. unfold Py.len.
  rewrite !PyFacts.length_append. simpl String.length. lia.
Qed.

Lemma slice_from (pre x : list string) (n : nat) :
  lines_slice (List.length pre) (List.length pre + n) (pre ++ x) = firstn n x.
Proof.
  unfold lines_slice. replace (List.length pre + n - List.length pre)%nat with n by lia.
  f_equal. induction pre as [|p pre IH]; simpl; auto.
Qed.

Lemma firstn_exact {A : Type} (a b : list A) : firstn (List.length a) (a ++ b) = a.
Proof. induction a as [|x a IH]; simpl; [now destruct b | now rewrite IH]. Qed.

Lemma firstn_one_more {A : Type} (a : list A) (x : A) (b : list A) :
  firstn (List.length a + 1) (a ++ x :: b) = a ++ [x].
Proof. induction a as [|y a IH]; simpl; [reflexivity | now rewrite IH]. Qed.

End SliceFacts.

Section ChunkerMore.

Variable path : string.
Variable chunk_size : Z.
Variable nlines : Z.

(** Every chunk the loop appends, read against the whole list of lines
    [pre ++ cur ++ ls]: its range, its content, and the two sides of the
    size trigger. *)
Lemma emitted_chunks_spec (ls : list string) : forall pre cur size num i,
  Z.of_nat (List.length pre + List.length cur) = i ->
  i + Z.of_nat (List.length ls) = nlines ->
  size = lines_size cur ->
  (cur <> [] -> size < chunk_size) ->
  forall c,
    In c (emitted path chunk_size nlines cur size num (Py.enumerate_from i ls)) ->
    exists a b : nat,
      Chunk.start_line c = Z.of_nat a
      /\ Chunk.end_line c = Z.of_nat b
      /\ (a <= b)%nat
      /\ (b < List.length (pre ++ cur ++ ls))%nat
      /\ Chunk.content c
         = Py.join Py.NL (lines_slice a (S b) (pre ++ cur ++ ls))
      /\ ((a < b)%nat ->
          lines_size (lines_slice a b (pre ++ cur ++ ls)) < chunk_size)
      /\ (Z.of_nat b < nlines - 1 ->
          chunk_size <= lines_size (lines_slice a (S b) (pre ++ cur ++ ls)))
      /\ Chunk.file_path c = path.
Proof.
  induction ls as [|l ls IH]; intros pre cur size num i Hi Hlen Hsize Hlow c Hc;
    [destruct Hc|].
  simpl in Hc. simpl List.length in Hlen.
  destruct ((chunk_size <=? size + (Py.len l + 1)) || (i =? nlines - 1)) eqn:E.
  - destruct Hc as [<-|Hc].
    + exists (List.length pre), (List.length pre + List.length cur)%nat.
      simpl. rewrite length_app. simpl List.length.
      replace (S (List.length pre + List.length cur))
        with (List.length pre + (List.length cur + 1))%nat by lia.
      rewrite !SliceFacts.slice_from.
      rewrite SliceFacts.firstn_one_more, SliceFacts.firstn_exact.
      rewrite !length_app. simpl List.length.
      repeat split; try lia.
      * intros Hab. subst size. apply Hlow. destruct cur; [simpl in Hab; lia | discriminate].
      * intros Hb. apply orb_true_iff in E. destruct E as [E|E].
        -- apply Z.leb_le in E. rewrite SliceFacts.lines_size_app. simpl. lia.
        -- apply Z.eqb_eq in E. lia.
    + specialize (IH (pre ++ cur ++ [l]) [] 0 (S num) (i + 1)).
      replace ((pre ++ cur ++ [l]) ++ [] ++ ls) with (pre ++ cur ++ l :: ls) in IH
        by (simpl; rewrite <- !app_assoc; reflexivity).
      apply IH; auto; try congruence.
      * rewrite !length_app. simpl List.length. lia.
      * lia.
  - apply orb_false_iff in E. destruct E as [E1 E2]. apply Z.leb_gt in E1.
    specialize (IH pre (cur ++ [l]) (size + (Py.len l + 1)) num (i + 1)).
    replace (pre ++ (cur ++ [l]) ++ ls) with (pre ++ cur ++ l :: ls) in IH
      by (rewrite <- !app_assoc; reflexivity).
    apply IH; auto.
    + rewrite !length_app. simpl List.length. lia.
    + lia.
    + rewrite SliceFacts.lines_size_app. simpl. lia.
Qed.

Lemma emitted_cons (cur : list string) (size : Z) (num : nat)
      (i : Z) (l : string) (ls : list string) :
  emitted path chunk_size nlines cur size num (Py.enumerate_from i (l :: ls))
  = if (chunk_size <=? size + (Py.len l + 1)) || (i =? nlines - 1)
    then {| Chunk.chunk_id := "chunk_" +++ Py.str_nat num;
            Chunk.content := Py.join Py.NL (cur ++ [l]);
            Chunk.start_line := i - Z.of_nat (List.length (cur ++ [l])) + 1;
            Chunk.end_line := i;
            Chunk.file_path := path |}
         :: emitted path chunk_size nlines [] 0 (S num)
                    (Py.enumerate_from (i + 1) ls)
    else emitted path chunk_size nlines (cur ++ [l]) (size + (Py.len l + 1)) num
                 (Py.enumerate_from (i + 1) ls).
Proof. reflexivity. Qed.

(** When even the whole text stays below [chunk_size] before its last
    line, the loop closes one chunk, at the last line. *)
Lemma emitted_single (ls : list string) : forall cur size num i,
  i + Z.of_nat (List.length ls) = nlines ->
  ls <> [] ->
  size + lines_size (removelast ls) < chunk_size ->
  emitted path chunk_size nlines cur size num (Py.enumerate_from i ls)
  = [ {| Chunk.chunk_id := "chunk_" +++ Py.str_nat num;
         Chunk.content := Py.join Py.NL (cur ++ ls);
         Chunk.start_line := i - Z.of_nat (List.length cur);
         Chunk.end_line := nlines - 1;
         Chunk.file_path := path |} ].
Proof.
  induction ls as [|l ls IH]; intros cur size num i Hlen Hne Hsz; [congruence|].
  rewrite emitted_cons. destruct ls as [|l' ls].
  - simpl in Hlen.
    replace (i =? nlines - 1) with true by (symmetry; apply Z.eqb_eq; lia).
    rewrite orb_true_r, length_app. simpl.
    f_equal. f_equal; lia.
  - change (removelast (l :: l' :: ls)) with (l :: removelast (l' :: ls)) in Hsz.
    change (lines_size (l :: removelast (l' :: ls)))
      with (Py.len l + 1 + lines_size (removelast (l' :: ls))) in Hsz.
    pose proof (SliceFacts.lines_size_nonneg (removelast (l' :: ls))) as Hpos.
    simpl List.length in Hlen.
    replace (chunk_size <=? size + (Py.len l + 1)) with false
      by (symmetry; apply Z.leb_gt; lia).
    replace (i =? nlines - 1) with false by (symmetry; apply Z.eqb_neq; lia).
    cbn [orb].
    rewrite (IH (cur ++ [l]) (size + (Py.len l + 1)) num (i + 1));
      [| simpl List.length; lia | discriminate | lia].
    rewrite length_app, <- app_assoc. simpl List.length. simpl app.
    f_equal. f_equal. lia.
Qed.

(** With [chunk_size <= 1] every line closes its chunk. *)
Lemma emitted_per_line (ls : list string) : forall num i,
  chunk_size <= 1 -> (0 <= i) -> Z.to_nat i = num ->
  emitted path chunk_size nlines [] 0 num (Py.enumerate_from i ls)
  = map (line_chunk path) (Py.enumerate_from i ls).
Proof.
  induction ls as [|l ls IH]; intros num i Hcs Hi Hnum; [reflexivity|].
  rewrite emitted_cons.
  replace (chunk_size <=? 0 + (Py.len l + 1)) with true
    by (symmetry; apply Z.leb_le; unfold Py.len; lia).
  cbn [orb]. rewrite (IH (S num) (i + 1)) by lia.
  cbn [Py.enumerate_from map]. f_equal.
  unfold line_chunk. simpl. subst num. f_equal. lia.
Qed.

End ChunkerMore.

Lemma lines_slice_length (a b : nat) (l : list string) :
  (a <= b)%nat -> (b <= List.length l)%nat ->
  List.length (lines_slice a b l) = (b - a)%nat.
Proof.
  intros Hab Hb. unfold lines_slice.
  rewrite length_firstn, length_skipn. lia.
Qed.

(** X1: the content of every chunk is the text of its own line range:
    the lines [start_line .. end_line] of [content.split('\n')], joined
    by line feeds; and every chunk carries the path it was given. *)
Theorem chunk_content_is_its_lines (text path : string) (chunk_size : Z) :
  Forall (fun c =>
            0 <= Chunk.start_line c
            /\ Chunk.content c
               = Py.join Py.NL
                   (lines_slice (Z.to_nat (Chunk.start_line c))
                                (S (Z.to_nat (Chunk.end_line c)))
                                (Py.split_lines text))
            /\ Chunk.file_path c = path)
         (chunk_code_file text path chunk_size).
Proof.
  apply Forall_forall. intros c Hc. rewrite chunk_code_file_emitted in Hc.
  destruct (emitted_chunks_spec path chunk_size
              (Z.of_nat (List.length (Py.split_lines text)))
              (Py.split_lines text)
              [] [] 0 0%nat 0 eq_refl ltac:(lia) eq_refl ltac:(congruence) c Hc)
    as (a & b & Ha & Hb & _ & _ & Hcont & _ & _ & Hp).
  simpl in Hcont. rewrite Ha, Hb, !Nat2Z.id. repeat split; auto. lia.
Qed.

(** X2: the size bound is a trigger, not a cap. A chunk that is not the
    last of its file has reached the bound: [len(content) + 1 >=
    chunk_size]. And a chunk of several lines was still below the bound
    before its last line: the lines [start_line .. end_line - 1], joined,
    have [len + 1 < chunk_size]. *)
Theorem chunk_closes_when_size_is_reached (text path : string) (chunk_size : Z) :
  let lines := Py.split_lines text in
  Forall (fun c =>
            (Chunk.end_line c < Z.of_nat (List.length lines) - 1 ->
             chunk_size <= Py.len (Chunk.content c) + 1)
            /\ (Chunk.start_line c < Chunk.end_line c ->
                Py.len (Py.join Py.NL
                          (lines_slice (Z.to_nat (Chunk.start_line c))
                                       (Z.to_nat (Chunk.end_line c)) lines))
                + 1 < chunk_size))
         (chunk_code_file text path chunk_size).
Proof.
  intros lines. apply Forall_forall. intros c Hc.
  rewrite chunk_code_file_emitted in Hc.
  destruct (emitted_chunks_spec path chunk_size
              (Z.of_nat (List.length (Py.split_lines text)))
              (Py.split_lines text)
              [] [] 0 0%nat 0 eq_refl ltac:(lia) eq_refl ltac:(congruence) c Hc)
    as (a & b & Ha & Hb & Hab & Hlt & Hcont & Hlow & Hhigh & _).
  simpl in Hcont, Hlow, Hhigh, Hlt. fold lines in Hcont, Hlow, Hhigh, Hlt.
  rewrite Ha, Hb, !Nat2Z.id. split.
  - intros Hnl. rewrite Hcont, SliceFacts.len_join; [now apply Hhigh|].
    intros E. apply (f_equal (@List.length string)) in E.
    rewrite lines_slice_length in E by lia. cbn [List.length] in E. lia.
  - intros Hse. rewrite SliceFacts.len_join; [apply Hlow; lia|].
    intros E. apply (f_equal (@List.length string)) in E.
    rewrite lines_slice_length in E by lia. cbn [List.length] in E. lia.
Qed.

(** X3: a text shorter than [chunk_size] gives exactly one chunk,
    [chunk_0], whose content is the whole text and whose range is all
    its lines. *)
Theorem short_text_is_one_chunk (text path : string) (chunk_size : Z) :
  Py.len text < chunk_size ->
  chunk_code_file text path chunk_size
  = [ {| Chunk.chunk_id := "chunk_0";
         Chunk.content := text;
         Chunk.start_line := 0;
         Chunk.end_line := Z.of_nat (List.length (Py.split_lines text)) - 1;
         Chunk.file_path := path |} ].
Proof.
  intros Hshort. rewrite chunk_code_file_emitted. unfold Py.enumerate.
  pose proof (PyFacts.split_lines_nonempty text) as Hne.
  pose proof (PyFacts.join_split_lines text) as Hjoin.
  rewrite emitted_single; [simpl; now rewrite Hjoin | lia | exact Hne |].
  pose proof (SliceFacts.len_join _ Hne) as Hlen. rewrite Hjoin in Hlen.
  rewrite (app_removelast_last "" Hne) in Hlen.
  rewrite SliceFacts.lines_size_app in Hlen. simpl in Hlen.
  unfold Py.len in *. lia.
Qed.

(** X3 at work: a function of two lines and a final line feed, at the
    default size, is one chunk covering lines 0 to 2: the text after the
    last line feed is an empty third line. *)
Lemma short_text_is_one_chunk_witness :
  Py.len ("def f():" +++ Py.NL +++ "    pass" +++ Py.NL) < 1000
  /\ chunk_code_file ("def f():" +++ Py.NL +++ "    pass" +++ Py.NL) "a.py" 1000
     = [ {| Chunk.chunk_id := "chunk_0";
            Chunk.content := "def f():" +++ Py.NL +++ "    pass" +++ Py.NL;
            Chunk.start_line := 0;
            Chunk.end_line := 2;
            Chunk.file_path := "a.py" |} ].
Proof.
  assert (H : Py.len ("def f():" +++ Py.NL +++ "    pass" +++ Py.NL) < 1000)
    by (vm_compute; reflexivity).
  split; [exact H|].
  exact (short_text_is_one_chunk _ "a.py" 1000 H).
Defined.

(** X4: with [chunk_size <= 1] every line is a chunk of its own: the
    chunk at position [k] is line [k] itself, with
    [start_line = end_line = k]. *)
Theorem tiny_chunk_size_gives_one_chunk_per_line
        (text path : string) (chunk_size : Z) :
  chunk_size <= 1 ->
  chunk_code_file text path chunk_size
  = map (line_chunk path) (Py.enumerate (Py.split_lines text)).
Proof.
  intros Hcs. rewrite chunk_code_file_emitted. unfold Py.enumerate.
  now apply emitted_per_line.
Qed.

Lemma tiny_chunk_size_gives_one_chunk_per_line_witness :
  0 <= 1
  /\ map Chunk.content (chunk_code_file ("ab" +++ Py.NL +++ "cd") "a.py" 0)
     = ["ab"; "cd"].
Proof.
  split; [lia|].
  rewrite (tiny_chunk_size_gives_one_chunk_per_line _ "a.py" 0 ltac:(lia)).
  reflexivity.
Defined.

(* ================================================================== *)
(** * More on the embedding cache *)
(* ================================================================== *)

Section CacheMore.

Context {fl : PyFloat} {be : Backend}.

Lemma get_app_None {V : Type} (k : string) (d1 d2 : PyDict.t V) :
  PyDict.get k d1 = None -> PyDict.get k (d1 ++ d2) = PyDict.get k d2.
Proof.
  induction d1 as [|[k' v'] d1 IH]; simpl; [reflexivity|].
  destruct (String.eqb k k'); [discriminate | exact IH].
Qed.

(** X5: once [embed_text] has returned a vector for a text, asking again
    returns the same vector and leaves the store as it is: the cache
    answers and the model is not invoked a second time. *)
Theorem embed_text_again_hits_cache
        (self self' : TiDBVectorStore) (text : string) (v : Vec) :
  embed_text self text = (Some v, self') ->
  embed_text self' text = (Some v, self').
Proof.
  unfold embed_text at 1.
  destruct (PyDict.get (md5_hexdigest text) (_embedding_cache self)) as [c|] eqn:Eg.
  - intros H. inversion H; subst. unfold embed_text. now rewrite Eg.
  - destruct (model_encode [text]) as [[|e more]|]; try discriminate.
    destruct (make_room (_embedding_cache self)) as [cache|]; [|discriminate].
    intros H. inversion H; subst. unfold embed_text. simpl.
    now rewrite PyDictFacts.get_set_same.
Qed.

(** X6: the cache is first-in first-out, not least-recently-used: a hit
    does not move an entry. With the cache full, a hit on the entry
    inserted first followed by a miss on a new text evicts that very
    entry, so the text just served is no longer cached. *)
Theorem cache_hit_does_not_protect_from_eviction
        (self : TiDBVectorStore) (t1 t2 : string)
        (v0 e : Vec) (more : list Vec) (rest : PyDict.t Vec) :
  cache_ok self ->
  _embedding_cache self = (md5_hexdigest t1, v0) :: rest ->
  List.length (_embedding_cache self) = 1000%nat ->
  PyDict.get (md5_hexdigest t2) (_embedding_cache self) = None ->
  model_encode [t2] = Some (e :: more) ->
  embed_text self t1 = (Some v0, self)
  /\ PyDict.get (md5_hexdigest t1)
       (_embedding_cache (snd (embed_text (snd (embed_text self t1)) t2)))
     = None.
Proof.
  intros [Hnd _] Hc Hfull Hmiss Henc.
  assert (Hhit : embed_text self t1 = (Some v0, self)).
  { unfold embed_text. rewrite Hc. simpl. now rewrite String.eqb_refl. }
  split; [exact Hhit|]. rewrite Hhit. simpl.
  unfold embed_text. rewrite Hmiss, Henc. unfold make_room.
  rewrite Hfull. simpl Nat.leb. rewrite Hc. cbn [PyDict.first_key].
  rewrite PyDictFacts.del_first. simpl.
  rewrite Hc in Hmiss, Hnd. simpl in Hmiss, Hnd.
  destruct (String.eqb (md5_hexdigest t2) (md5_hexdigest t1)) eqn:E;
    [discriminate|].
  rewrite PyDictFacts.set_new by exact Hmiss.
  inversion Hnd as [|? ? Hk0 _]; subst.
  rewrite get_app_None by (now apply PyDictFacts.get_None).
  simpl. rewrite String.eqb_sym. now rewrite E.
Qed.

End CacheMore.

Lemma embed_text_again_hits_cache_witness :
  embed_text (be := Toy.binary64) TiDBVectorStore_init "x"
  = (Some (Toy.axis "x"),
     {| table := []; _embedding_cache := [("x", Toy.axis "x")];
        model_invocations := 1 |})
  /\ embed_text (be := Toy.binary64)
       {| table := []; _embedding_cache := [("x", Toy.axis "x")];
          model_invocations := 1 |} "x"
     = (Some (Toy.axis "x"),
        {| table := []; _embedding_cache := [("x", Toy.axis "x")];
           model_invocations := 1 |}).
Proof.
  assert (H : embed_text (be := Toy.binary64) TiDBVectorStore_init "x"
              = (Some (Toy.axis "x"),
                 {| table := []; _embedding_cache := [("x", Toy.axis "x")];
                    model_invocations := 1 |})) by reflexivity.
  split; [exact H|].
  exact (embed_text_again_hits_cache (be := Toy.binary64) _ _ _ _ H).
Defined.

Lemma full_store_cache_ok : cache_ok Toy.full_store.
Proof.
  apply (embed_texts_cache_ok (be := Toy.binary64)).
  now apply empty_cache_ok.
Qed.

(** X6 at work on [Toy.full_store], whose first entry is that of
    ["999"]: ["999"] is served from the cache, ["new"] is embedded, and
    ["999"] is gone. *)
Lemma cache_hit_does_not_protect_from_eviction_witness :
  cache_ok Toy.full_store
  /\ List.length (_embedding_cache Toy.full_store) = 1000%nat
  /\ PyDict.get "new" (_embedding_cache Toy.full_store) = None
  /\ embed_text (be := Toy.binary64) Toy.full_store "999"
     = (Some (Toy.axis "999"), Toy.full_store)
  /\ PyDict.get "999"
       (_embedding_cache
          (snd (embed_text (be := Toy.binary64)
                  (snd (embed_text (be := Toy.binary64) Toy.full_store "999"))
                  "new")))
     = None.
Proof.
  assert (Hfull : List.length (_embedding_cache Toy.full_store) = 1000%nat)
    by (vm_compute; reflexivity).
  assert (Hmiss : PyDict.get "new" (_embedding_cache Toy.full_store) = None)
    by (vm_compute; reflexivity).
  assert (Hc : _embedding_cache Toy.full_store
               = ("999", Toy.axis "999") :: tl (_embedding_cache Toy.full_store))
    by (vm_compute; reflexivity).
  split; [exact full_store_cache_ok|]. split; [exact Hfull|].
  split; [exact Hmiss|].
  exact (cache_hit_does_not_protect_from_eviction (be := Toy.binary64)
           Toy.full_store "999" "new" (Toy.axis "999") (Toy.axis "new") []
           (tl (_embedding_cache Toy.full_store))
           full_store_cache_ok Hc Hfull Hmiss eq_refl).
Defined.

(* ================================================================== *)
(** * More on indexing *)
(* ================================================================== *)

Section IndexMore.

Context {fl : PyFloat} {be : Backend}.

Lemma index_file_unfold (repo url : string) (st : IndexLoop) (f : FileInfo.t) :
  added (index_file repo url st f) = added st ++ file_rows repo url f
  /\ encode_calls (index_file repo url st f)
     = (encode_calls st + if indexable f then 1 else 0)%nat
  /\ indexed_count (index_file repo url st f)
     = (indexed_count st + if indexable f && file_embeds f then 1 else 0)%nat.
Proof.
  unfold index_file, file_rows, file_embeds, indexable, file_chunks.
  destruct (String.eqb (FileInfo.content f) ""
            || (100000 <? Py.len (FileInfo.content f))); simpl.
  - rewrite app_nil_r. repeat split; lia.
  - destruct (model_encode _); simpl; repeat split; try lia.
    now rewrite app_nil_r.
Qed.

(** The loop over the files, in closed form. *)
Lemma index_files_unfold (repo url : string) (files : list FileInfo.t) :
  forall st,
    let st' := fold_left (index_file repo url) files st in
    added st' = added st ++ flat_map (file_rows repo url) files
    /\ encode_calls st'
       = (encode_calls st + List.length (filter indexable files))%nat
    /\ indexed_count st'
       = (indexed_count st
          + List.length (filter (fun f => indexable f && file_embeds f) files))%nat.
Proof.
  induction files as [|f files IH]; intros st; simpl.
  - rewrite app_nil_r. repeat split; lia.
  - destruct (IH (index_file repo url st f)) as (Ha & He & Hi).
    destruct (index_file_unfold repo url st f) as (Ha1 & He1 & Hi1).
    rewrite Ha, He, Hi, Ha1, He1, Hi1. rewrite <- app_assoc.
    split; [reflexivity|].
    destruct (indexable f); simpl; [|split; lia].
    destruct (file_embeds f); simpl; split; lia.
Qed.

(** The rows of the repository once [index_repository] has returned. *)
Lemma index_repository_rows (self : TiDBVectorStore) (repo_data : RepoData.t) :
  select_repo (stored_name repo_data)
              (table (snd (index_repository self repo_data)))
  = flat_map (file_rows (stored_name repo_data) (RepoData.github_url repo_data))
             (RepoData.files repo_data).
Proof.
  unfold index_repository. fold (stored_name repo_data). cbn [snd table].
  set (init := {| added := []; indexed_count := 0;
                  total_chunks := 0; encode_calls := 0 |}).
  destruct (index_files_inv (stored_name repo_data)
              (RepoData.github_url repo_data) (RepoData.files repo_data) init
              (Forall_nil _) eq_refl) as [Hall _].
  rewrite select_repo_app, select_delete_same, select_all by exact Hall.
  destruct (index_files_unfold (stored_name repo_data)
              (RepoData.github_url repo_data) (RepoData.files repo_data) init)
    as (Ha & _). exact Ha.
Qed.

Lemma index_repository_result (self : TiDBVectorStore) (repo_data : RepoData.t) :
  fst (index_repository self repo_data)
  = {| IndexResult.success := true;
       IndexResult.indexed_files :=
         List.length (filter (fun f => indexable f && file_embeds f)
                             (RepoData.files repo_data));
       IndexResult.total_chunks :=
         List.length (flat_map (file_rows (stored_name repo_data)
                                          (RepoData.github_url repo_data))
                               (RepoData.files repo_data));
       IndexResult.repo_name := stored_name repo_data |}.
Proof.
  unfold index_repository. fold (stored_name repo_data). cbn [fst].
  set (init := {| added := []; indexed_count := 0;
                  total_chunks := 0; encode_calls := 0 |}).
  destruct (index_files_inv (stored_name repo_data)
              (RepoData.github_url repo_data) (RepoData.files repo_data) init
              (Forall_nil _) eq_refl) as [_ Hcount].
  destruct (index_files_unfold (stored_name repo_data)
              (RepoData.github_url repo_data) (RepoData.files repo_data) init)
    as (Ha & _ & Hi).
  rewrite Hcount, Ha, Hi. reflexivity.
Qed.

(** The chunks of a file, joined, are the file (the loop of the chunker
    and the split, put together). *)
Lemma file_chunks_join (file : FileInfo.t) :
  Py.join Py.NL (map Chunk.content (file_chunks file)) = FileInfo.content file.
Proof.
  unfold file_chunks. rewrite chunk_code_file_emitted. unfold Py.enumerate.
  rewrite (emitted_join _ _ _ (Py.split_lines (FileInfo.content file)) [] 0 0%nat 0);
    [apply PyFacts.join_split_lines | lia | now right].
Qed.

Lemma file_chunks_nonempty (file : FileInfo.t) : file_chunks file <> [].
Proof.
  unfold file_chunks. rewrite chunk_code_file_emitted.
  apply emitted_nonempty; [apply PyFacts.split_lines_nonempty | lia].
Qed.

Lemma combine_same_length {A B : Type} (l : list A) : forall l' : list B,
  List.length l' = List.length l -> map fst (combine l l') = l.
Proof.
  induction l as [|x l IH]; intros [|y l'] H; simpl in *; try congruence.
  f_equal. apply IH. lia.
Qed.

(** With a model that answers, a file that is not skipped gets one row
    per chunk, in order. *)
Lemma file_rows_contents (repo url : string) (file : FileInfo.t) :
  model_answers -> indexable file = true ->
  map CodeEmbedding.content (file_rows repo url file)
  = map Chunk.content (file_chunks file).
Proof.
  intros Hm Hi. unfold file_rows. rewrite Hi.
  destruct (Hm (map Chunk.content (file_chunks file))) as (vs & -> & Hlen).
  rewrite length_map in Hlen.
  rewrite <- (combine_same_length (file_chunks file) vs Hlen) at 2.
  rewrite !map_map. apply map_ext. now intros [c e].
Qed.

Lemma file_rows_path (repo url : string) (file : FileInfo.t) :
  Forall (fun r => CodeEmbedding.file_path r = FileInfo.path file)
         (file_rows repo url file).
Proof.
  unfold file_rows. destruct (indexable file); [|constructor].
  destruct (model_encode _); [|constructor].
  apply Forall_forall. intros r Hr. apply in_map_iff in Hr.
  now destruct Hr as ([c e] & <- & _).
Qed.

(** Among the rows added for a listing with distinct paths, those of one
    path are the rows of its file. *)
Lemma filter_path_flat_map (repo url : string) (files : list FileInfo.t)
      (file : FileInfo.t) :
  NoDup (map FileInfo.path files) -> In file files ->
  filter (fun r => String.eqb (CodeEmbedding.file_path r) (FileInfo.path file))
         (flat_map (file_rows repo url) files)
  = file_rows repo url file.
Proof.
  induction files as [|f files IH]; intros Hnd Hin; [destruct Hin|].
  inversion Hnd as [|? ? Hf Hnd']; subst. simpl. rewrite filter_app.
  assert (Hkeep : forall g p,
             filter (fun r => String.eqb (CodeEmbedding.file_path r) p)
                    (file_rows repo url g)
             = if String.eqb (FileInfo.path g) p then file_rows repo url g else []).
  { intros g p. pose proof (file_rows_path repo url g) as Hp.
    induction Hp as [|r rs Hr _ IHr]; [now destruct (String.eqb _ _)|].
    simpl. rewrite Hr, IHr. now destruct (String.eqb (FileInfo.path g) p). }
  assert (Hnone : forall fs p,
             ~ In p (map FileInfo.path fs) ->
             filter (fun r => String.eqb (CodeEmbedding.file_path r) p)
                    (flat_map (file_rows repo url) fs) = []).
  { intros fs p. induction fs as [|g fs IHg]; intros Hp; [reflexivity|].
    simpl. rewrite filter_app, Hkeep.
    destruct (String.eqb (FileInfo.path g) p) eqn:E.
    - apply String.eqb_eq in E. exfalso. apply Hp. left. exact E.
    - apply IHg. intros H. apply Hp. now right. }
  destruct Hin as [->|Hin].
  - rewrite Hkeep, String.eqb_refl.
    now rewrite (Hnone files (FileInfo.path file) Hf), app_nil_r.
  - rewrite Hkeep.
    destruct (String.eqb (FileInfo.path f) (FileInfo.path file)) eqn:E.
    + apply String.eqb_eq in E. exfalso. apply Hf. rewrite E.
      now apply in_map.
    + simpl. now apply IH.
Qed.

End IndexMore.

Section IndexExtras.

Context {fl : PyFloat} {be : Backend}.

(** X7: after [index_repository], every row of the repository is a chunk
    of a listed file that was not skipped (content not empty, at most
    100000 characters): it has the file's path, the chunk's id and
    content, and metadata giving the file's language and size, the
    chunk's size and its line range, which is not empty. *)
Theorem indexed_rows_describe_chunks
        (self : TiDBVectorStore) (repo_data : RepoData.t) :
  Forall (fun row =>
            exists file chunk,
              In file (RepoData.files repo_data)
              /\ FileInfo.content file <> ""
              /\ Py.len (FileInfo.content file) <= 100000
              /\ In chunk (file_chunks file)
              /\ CodeEmbedding.repo_url row = RepoData.github_url repo_data
              /\ CodeEmbedding.file_path row = FileInfo.path file
              /\ CodeEmbedding.chunk_id row = Chunk.chunk_id chunk
              /\ CodeEmbedding.content row = Chunk.content chunk
              /\ CodeEmbedding.chunk_metadata row
                 = Some {| Metadata.language := FileInfo.language file;
                           Metadata.start_line := Chunk.start_line chunk;
                           Metadata.end_line := Chunk.end_line chunk;
                           Metadata.chunk_size := Py.len (Chunk.content chunk);
                           Metadata.file_size := Py.len (FileInfo.content file) |}
              /\ 0 <= Chunk.start_line chunk <= Chunk.end_line chunk)
         (select_repo (stored_name repo_data)
                      (table (snd (index_repository self repo_data)))).
Proof.
  rewrite index_repository_rows. apply Forall_forall. intros row Hrow.
  apply in_flat_map in Hrow. destruct Hrow as (file & Hfile & Hrow).
  unfold file_rows in Hrow. destruct (indexable file) eqn:Ei; [|destruct Hrow].
  destruct (model_encode _) as [vs|]; [|destruct Hrow].
  apply in_map_iff in Hrow. destruct Hrow as ([chunk e] & <- & Hin).
  apply in_combine_l in Hin.
  unfold indexable in Ei. apply negb_true_iff, orb_false_iff in Ei.
  destruct Ei as [E1 E2]. apply String.eqb_neq in E1. apply Z.ltb_ge in E2.
  exists file, chunk. simpl. repeat split; auto.
  - pose proof (tiles_spec _ _ _
                  (chunk_code_file_tiles (FileInfo.content file)
                     (FileInfo.path file) default_chunk_size)) as (_ & H & _).
    now destruct (H chunk Hin).
  - pose proof (tiles_spec _ _ _
                  (chunk_code_file_tiles (FileInfo.content file)
                     (FileInfo.path file) default_chunk_size)) as (_ & H & _).
    now destruct (H chunk Hin) as (_ & ? & _).
Qed.

(** X8: what is indexed can be read back. When the model answers every
    batch with one vector per text and the listing names no path twice,
    the stored rows of a file that was not skipped, taken in storage order
    and joined by line feeds, are the content of the file. *)
Theorem indexed_file_reads_back
        (self : TiDBVectorStore) (repo_data : RepoData.t) (file : FileInfo.t) :
  model_answers ->
  NoDup (map FileInfo.path (RepoData.files repo_data)) ->
  In file (RepoData.files repo_data) ->
  indexable file = true ->
  Py.join Py.NL
    (map CodeEmbedding.content
         (rows_of_file (table (snd (index_repository self repo_data)))
                       (stored_name repo_data) (FileInfo.path file)))
  = FileInfo.content file.
Proof.
  intros Hm Hnd Hin Hi. unfold rows_of_file.
  rewrite index_repository_rows, filter_path_flat_map by assumption.
  rewrite file_rows_contents by assumption. apply file_chunks_join.
Qed.

(** X9: when the embedding model raises on every batch,
    [index_repository] still deletes the repository's rows, adds none,
    and reports [success = True] with no file and no chunk indexed: the
    repository is left empty. *)
Theorem indexing_with_model_down_empties_repository
        (self : TiDBVectorStore) (repo_data : RepoData.t) :
  (forall texts, model_encode texts = None) ->
  fst (index_repository self repo_data)
  = {| IndexResult.success := true;
       IndexResult.indexed_files := 0;
       IndexResult.total_chunks := 0;
       IndexResult.repo_name := stored_name repo_data |}
  /\ select_repo (stored_name repo_data)
                 (table (snd (index_repository self repo_data))) = []
  /\ get_repository_stats (snd (index_repository self repo_data))
                          (stored_name repo_data)
     = {| Stats.total_chunks := 0; Stats.total_files := 0;
          Stats.avg_chunk_size := 0 |}.
Proof.
  intros Hdown.
  assert (Hrows : forall fs,
             flat_map (file_rows (stored_name repo_data)
                                 (RepoData.github_url repo_data)) fs = []).
  { induction fs as [|f fs IH]; [reflexivity|].
    simpl. rewrite IH, app_nil_r. unfold file_rows.
    destruct (indexable f); [|reflexivity]. now rewrite Hdown. }
  assert (Hcount : forall fs,
             filter (fun f => indexable f && file_embeds f) fs = []).
  { induction fs as [|f fs IH]; [reflexivity|].
    simpl. unfold file_embeds at 1. rewrite Hdown, andb_false_r. exact IH. }
  assert (Hsel : select_repo (stored_name repo_data)
                   (table (snd (index_repository self repo_data))) = [])
    by (now rewrite index_repository_rows).
  split; [|split].
  - now rewrite index_repository_result, Hrows, Hcount.
  - exact Hsel.
  - unfold get_repository_stats. now rewrite Hsel.
Qed.

(** The paths that occur among the rows of the listed files are those of
    the files that were not skipped. *)
Lemma indexed_paths (repo url : string) (files : list FileInfo.t) (p : string) :
  model_answers ->
  In p (map CodeEmbedding.file_path (flat_map (file_rows repo url) files))
  <-> In p (map FileInfo.path (filter indexable files)).
Proof.
  intros Hm. rewrite !in_map_iff. split.
  - intros (row & <- & Hrow). apply in_flat_map in Hrow.
    destruct Hrow as (f & Hf & Hrow). exists f. split.
    + pose proof (file_rows_path repo url f) as Hp.
      rewrite Forall_forall in Hp. symmetry. now apply Hp.
    + apply filter_In. split; [exact Hf|].
      unfold file_rows in Hrow. now destruct (indexable f).
  - intros (f & <- & Hf). apply filter_In in Hf. destruct Hf as [Hf Hi].
    pose proof (file_rows_contents repo url f Hm Hi) as Hc.
    pose proof (file_chunks_nonempty f) as Hne.
    destruct (file_rows repo url f) as [|row rows] eqn:Er.
    + destruct (file_chunks f); [congruence | discriminate].
    + exists row. split.
      * pose proof (file_rows_path repo url f) as Hp. rewrite Er in Hp.
        now inversion Hp.
      * apply in_flat_map. exists f. split; [exact Hf|]. rewrite Er. now left.
Qed.

(** X10: when the model answers every batch with one vector per text and
    the listing names no path twice, the stats read after
    [index_repository] agree with what it returned: [total_files] is
    [indexed_files], the number of files not skipped, and [total_chunks]
    is [total_chunks]. *)
Theorem stats_after_indexing_match_result
        (self : TiDBVectorStore) (repo_data : RepoData.t) :
  model_answers ->
  NoDup (map FileInfo.path (RepoData.files repo_data)) ->
  let result := fst (index_repository self repo_data) in
  let stats := get_repository_stats (snd (index_repository self repo_data))
                                    (stored_name repo_data) in
  Stats.total_files stats = IndexResult.indexed_files result
  /\ Stats.total_chunks stats = IndexResult.total_chunks result
  /\ IndexResult.indexed_files result
     = List.length (filter indexable (RepoData.files repo_data)).
Proof.
  intros Hm Hnd result stats. unfold result, stats, get_repository_stats.
  cbn [Stats.total_files Stats.total_chunks].
  rewrite index_repository_rows, index_repository_result.
  cbn [IndexResult.indexed_files IndexResult.total_chunks].
  assert (Hfilter : filter (fun f => indexable f && file_embeds f)
                           (RepoData.files repo_data)
                    = filter indexable (RepoData.files repo_data)).
  { apply filter_ext. intros f. unfold file_embeds.
    destruct (Hm (map Chunk.content (file_chunks f))) as (vs & -> & _).
    apply andb_true_r. }
  rewrite Hfilter. split; [|split; reflexivity].
  rewrite <- (length_map FileInfo.path (filter indexable _)).
  apply Permutation_length. apply NoDup_Permutation.
  - apply NoDup_nodup.
  - now apply KeyFacts.NoDup_map_filter.
  - intros p. rewrite nodup_In. now apply indexed_paths.
Qed.

(** X11: [index_repository] does not go through the embedding cache: it
    leaves the cache as it is and calls the model once for each file it
    does not skip, also for texts whose embedding is cached. *)
Theorem indexing_bypasses_cache
        (self : TiDBVectorStore) (repo_data : RepoData.t) :
  _embedding_cache (snd (index_repository self repo_data))
  = _embedding_cache self
  /\ model_invocations (snd (index_repository self repo_data))
     = (model_invocations self
        + List.length (filter indexable (RepoData.files repo_data)))%nat.
Proof.
  unfold index_repository. cbn [snd _embedding_cache model_invocations].
  split; [reflexivity|].
  destruct (index_files_unfold (stored_name repo_data)
              (RepoData.github_url repo_data) (RepoData.files repo_data)
              {| added := []; indexed_count := 0;
                 total_chunks := 0; encode_calls := 0 |})
    as (_ & He & _).
  unfold stored_name in He. rewrite He. reflexivity.
Qed.

End IndexExtras.

Lemma toy_model_answers : model_answers (be := Toy.binary64).
Proof.
  intros texts. eexists. split; [reflexivity|]. apply length_map.
Qed.

(** X8 at work: the rows stored for [a.py] of [Toy.sample_repo] give
    back its content. *)
Lemma indexed_file_reads_back_witness :
  model_answers (be := Toy.binary64)
  /\ Py.join Py.NL
       (map CodeEmbedding.content
            (rows_of_file (table Toy.sample_store) "demo" "a.py"))
     = "x = 1  # TODO".
Proof.
  split; [exact toy_model_answers|].
  refine (indexed_file_reads_back (be := Toy.binary64)
            TiDBVectorStore_init Toy.sample_repo
            {| FileInfo.path := "a.py";
               FileInfo.content := "x = 1  # TODO";
               FileInfo.language := "Python" |}
            toy_model_answers _ _ _).
  - simpl. repeat constructor; simpl; intuition discriminate.
  - now left.
  - reflexivity.
Defined.

(** X9 at work: [Toy.sample_store] holds two chunks of ["demo"];
    indexing ["demo"] again while the model is down reports success and
    leaves none. *)
Lemma indexing_with_model_down_empties_repository_witness :
  (forall texts, model_encode (Backend := Toy.down) texts = None)
  /\ Stats.total_chunks (get_repository_stats Toy.sample_store "demo") = 2%nat
  /\ IndexResult.success
       (fst (index_repository (be := Toy.down) Toy.sample_store Toy.sample_repo))
     = true
  /\ Stats.total_chunks
       (get_repository_stats
          (snd (index_repository (be := Toy.down) Toy.sample_store Toy.sample_repo))
          "demo")
     = 0%nat.
Proof.
  assert (Hdown : forall texts, model_encode (Backend := Toy.down) texts = None)
    by reflexivity.
  destruct (indexing_with_model_down_empties_repository (be := Toy.down)
              Toy.sample_store Toy.sample_repo Hdown) as (Hr & _ & Hs).
  split; [exact Hdown|]. split; [reflexivity|].
  split; [exact (f_equal IndexResult.success Hr)
         | exact (f_equal Stats.total_chunks Hs)].
Defined.

(** X10 at work on [Toy.sample_repo]: two files, two chunks. *)
Lemma stats_after_indexing_match_result_witness :
  model_answers (be := Toy.binary64)
  /\ NoDup (map FileInfo.path (RepoData.files Toy.sample_repo))
  /\ Stats.total_files (get_repository_stats Toy.sample_store "demo")
     = IndexResult.indexed_files
         (fst (index_repository (be := Toy.binary64)
                 TiDBVectorStore_init Toy.sample_repo))
  /\ Stats.total_files (get_repository_stats Toy.sample_store "demo") = 2%nat.
Proof.
  assert (Hnd : NoDup (map FileInfo.path (RepoData.files Toy.sample_repo)))
    by (simpl; repeat constructor; simpl; intuition discriminate).
  split; [exact toy_model_answers|]. split; [exact Hnd|].
  split; [|reflexivity].
  exact (proj1 (stats_after_indexing_match_result (be := Toy.binary64)
                  TiDBVectorStore_init Toy.sample_repo toy_model_answers Hnd)).
Defined.

(* ================================================================== *)
(** * Indexing again replaces the corpus *)
(* ================================================================== *)

Section Reindex.

Context {fl : PyFloat} {be : Backend}.

Lemma map_flat_map {A B C : Type} (f : B -> C) (g : A -> list B) (l : list A) :
  map f (flat_map g l) = flat_map (fun x => map f (g x)) l.
Proof.
  induction l as [|x l IH]; simpl; [reflexivity|].
  now rewrite map_app, IH.
Qed.

(** With a model that answers, the rows of a file are its chunks. *)
Lemma file_rows_chunks (repo url : string) (file : FileInfo.t) :
  model_answers ->
  map (fun r => (CodeEmbedding.file_path r, CodeEmbedding.chunk_id r,
                 CodeEmbedding.content r))
      (file_rows repo url file)
  = if indexable file then
      map (fun c => (FileInfo.path file, Chunk.chunk_id c, Chunk.content c))
          (file_chunks file)
    else [].
Proof.
  intros Hm. unfold file_rows. destruct (indexable file); [|reflexivity].
  destruct (Hm (map Chunk.content (file_chunks file))) as (vs & -> & Hlen).
  rewrite length_map in Hlen.
  rewrite <- (combine_same_length (file_chunks file) vs Hlen) at 2.
  rewrite !map_map. apply map_ext. now intros [c e].
Qed.

(** C4: let [repo] be the name under which [index_repository] files
    [repo_data]. After the call the rows of [repo] are exactly the rows
    built from the listed files, one file after the other: with a model
    that answers every batch, they are the chunks of the files that are
    not skipped, with their paths, ids and contents. [total_chunks] of
    the stats of [repo] is the number of these rows, which is the number
    the call reports as inserted. The rows of [repo], and so its stats,
    are the same whatever the store held before (rows of an earlier
    indexing are gone); the rows of every other repository are left as
    they were; and indexing the same [repo_data] a second time returns
    the same result and leaves the same table, hence the same stats. *)
Theorem reindex_replaces_corpus (self : TiDBVectorStore) (repo_data : RepoData.t) :
  let repo := stored_name repo_data in
  let files := RepoData.files repo_data in
  let result := fst (index_repository self repo_data) in
  let self1 := snd (index_repository self repo_data) in
  let stats := get_repository_stats self1 repo in
  select_repo repo (table self1)
  = flat_map (file_rows repo (RepoData.github_url repo_data)) files
  /\ Stats.total_chunks stats
     = List.length (flat_map (file_rows repo (RepoData.github_url repo_data))
                             files)
  /\ IndexResult.total_chunks result = Stats.total_chunks stats
  /\ (model_answers ->
      map (fun r => (CodeEmbedding.file_path r, CodeEmbedding.chunk_id r,
                     CodeEmbedding.content r))
          (select_repo repo (table self1))
      = listed_chunks files
      /\ Stats.total_chunks stats = List.length (listed_chunks files))
  /\ (forall before : TiDBVectorStore,
        select_repo repo (table (snd (index_repository before repo_data)))
        = select_repo repo (table self1)
        /\ get_repository_stats (snd (index_repository before repo_data)) repo
           = stats)
  /\ (forall other, other <> repo ->
        select_repo other (table self1) = select_repo other (table self))
  /\ fst (index_repository self1 repo_data) = result
  /\ table (snd (index_repository self1 repo_data)) = table self1
  /\ get_repository_stats (snd (index_repository self1 repo_data)) repo
     = stats.
Proof.
  intros repo files result self1 stats.
  assert (Hrows : forall before : TiDBVectorStore,
             select_repo repo (table (snd (index_repository before repo_data)))
             = flat_map (file_rows repo (RepoData.github_url repo_data)) files)
    by (intros before; apply index_repository_rows).
  assert (Hself : select_repo repo (table self1)
                  = flat_map (file_rows repo (RepoData.github_url repo_data))
                             files) by apply Hrows.
  assert (Hstats : Stats.total_chunks stats
                   = List.length
                       (flat_map (file_rows repo (RepoData.github_url repo_data))
                                 files)).
  { unfold stats, get_repository_stats. cbn [Stats.total_chunks].
    now rewrite Hself. }
  assert (Hlisted : model_answers ->
             map (fun r => (CodeEmbedding.file_path r, CodeEmbedding.chunk_id r,
                            CodeEmbedding.content r))
                 (flat_map (file_rows repo (RepoData.github_url repo_data)) files)
             = listed_chunks files).
  { intros Hm. rewrite map_flat_map. unfold listed_chunks.
    clear - Hm. induction files as [|f fs IH]; simpl; [reflexivity|].
    now rewrite IH, (file_rows_chunks _ _ f Hm). }
  destruct (index_repository_table self repo_data)
    as (rows & Ht & Hall & _ & Hany).
  fold (stored_name repo_data) in Ht, Hall, Hany.
  fold repo in Ht, Hall, Hany. fold self1 in Ht.
  assert (Hagain : table (snd (index_repository self1 repo_data)) = table self1).
  { rewrite (Hany self1), Ht, delete_repo_app, delete_repo_idem.
    now rewrite (delete_all repo rows), app_nil_r. }
  split; [exact Hself|]. split; [exact Hstats|].
  split; [|split; [|split; [|split; [|split; [|split]]]]].
  - rewrite Hstats. unfold result. now rewrite index_repository_result.
  - intros Hm. split.
    + rewrite Hself. now apply Hlisted.
    + rewrite Hstats, <- (Hlisted Hm). now rewrite length_map.
  - intros before. split.
    + now rewrite Hrows, Hself.
    + unfold stats, get_repository_stats. now rewrite Hrows, Hself.
  - intros other Hne. rewrite Ht, select_repo_app.
    rewrite select_delete_other by assumption.
    now rewrite (select_none repo other rows), app_nil_r.
  - unfold result. now rewrite !index_repository_result.
  - exact Hagain.
  - unfold stats, get_repository_stats. now rewrite Hagain.
Qed.

End Reindex.

(** C4 at work: [Toy.sample_store] holds the two chunks of an earlier
    indexing of ["demo"]. Indexing a listing of one file under the same
    name leaves exactly the one chunk of that file, and the stats count
    one chunk and one file. *)
Lemma reindex_replaces_corpus_witness :
  Stats.total_chunks (get_repository_stats Toy.sample_store "demo") = 2%nat
  /\ map (fun r => (CodeEmbedding.file_path r, CodeEmbedding.chunk_id r,
                    CodeEmbedding.content r))
         (select_repo "demo"
            (table (snd (index_repository (be := Toy.binary64)
                           Toy.sample_store Toy.smaller_repo))))
     = [("c.py", "chunk_0", "z = 3")]
  /\ get_repository_stats
       (snd (index_repository (be := Toy.binary64)
               Toy.sample_store Toy.smaller_repo)) "demo"
     = {| Stats.total_chunks := 1; Stats.total_files := 1;
          Stats.avg_chunk_size := 0 |}.
Proof.
  split; [reflexivity|].
  destruct (reindex_replaces_corpus (be := Toy.binary64)
              Toy.sample_store Toy.smaller_repo)
    as (_ & _ & _ & Hlisted & _).
  destruct (Hlisted toy_model_answers) as [Hrows _].
  split; [etransitivity; [exact Hrows | reflexivity] | reflexivity].
Defined.

(* ================================================================== *)
(** * Clearing, statistics, and searches over an empty repository *)
(* ================================================================== *)

Section StoreExtras.

Context {fl : PyFloat} {be : Backend}.

(** The three searches find nothing in a repository without rows. *)
Lemma searches_on_empty_repository
      (self : TiDBVectorStore) (query repo_name : string) (limit : nat) :
  select_repo repo_name (table self) = [] ->
  fulltext_search self query repo_name limit = []
  /\ fst (vector_search self query repo_name limit) = []
  /\ fst (hybrid_search self query repo_name limit) = Ok [].
Proof.
  intros Hempty.
  assert (Hft : forall s : TiDBVectorStore,
             table s = table self ->
             fulltext_search s query repo_name limit = []).
  { intros s Hs. unfold fulltext_search, text_query. rewrite Hs, Hempty.
    simpl. now rewrite firstn_nil. }
  assert (Hv : fst (vector_search self query repo_name limit) = []).
  { unfold vector_search. pose proof (embed_text_table self query) as Ht.
    destruct (embed_text self query) as [[qe|] self']; [|reflexivity].
    simpl in *. unfold vector_query, order_by_distance.
    rewrite Ht, Hempty. simpl. now rewrite firstn_nil. }
  split; [now apply Hft|]. split; [exact Hv|].
  rewrite hybrid_search_unfold, Hv, Hft by apply vector_search_table.
  simpl. now rewrite firstn_nil.
Qed.

(** X12: after [clear_repository_embeddings(repo_name)] the repository
    has no chunk and no file in its stats and the three searches return
    nothing for it, whatever the query and the limit; the rows and the
    stats of every other repository are as before. *)
Theorem clearing_leaves_nothing_to_find
        (self : TiDBVectorStore) (repo_name : string) :
  let cleared := clear_repository_embeddings self repo_name in
  get_repository_stats cleared repo_name
  = {| Stats.total_chunks := 0; Stats.total_files := 0;
       Stats.avg_chunk_size := 0 |}
  /\ (forall query limit,
        fulltext_search cleared query repo_name limit = []
        /\ fst (vector_search cleared query repo_name limit) = []
        /\ fst (hybrid_search cleared query repo_name limit) = Ok [])
  /\ (forall other, other <> repo_name ->
        select_repo other (table cleared) = select_repo other (table self)
        /\ get_repository_stats cleared other = get_repository_stats self other).
Proof.
  intros cleared.
  assert (Hempty : select_repo repo_name (table cleared) = [])
    by apply select_delete_same.
  split; [|split].
  - unfold get_repository_stats. now rewrite Hempty.
  - intros query limit. now apply searches_on_empty_repository.
  - intros other Hne.
    assert (H : select_repo other (table cleared) = select_repo other (table self))
      by (now apply select_delete_other).
    split; [exact H|]. unfold get_repository_stats. now rewrite H.
Qed.

(** X13: in the stats of any repository there are at most as many files
    as chunks, and there is no file exactly when there is no chunk;
    [avg_chunk_size] is always reported as 0. *)
Theorem stats_count_files_within_chunks
        (self : TiDBVectorStore) (repo_name : string) :
  let stats := get_repository_stats self repo_name in
  (Stats.total_files stats <= Stats.total_chunks stats)%nat
  /\ (Stats.total_files stats = 0%nat <-> Stats.total_chunks stats = 0%nat)
  /\ Stats.avg_chunk_size stats = 0%nat.
Proof.
  intros stats. unfold stats, get_repository_stats. simpl.
  set (paths := map CodeEmbedding.file_path (select_repo repo_name (table self))).
  assert (Hlen : List.length paths
                 = List.length (select_repo repo_name (table self)))
    by apply length_map.
  rewrite <- Hlen. split; [|split; [|reflexivity]].
  - apply NoDup_incl_length; [apply NoDup_nodup|].
    intros p Hp. now apply nodup_In in Hp.
  - split; intros H.
    + destruct paths as [|p ps]; [reflexivity|].
      assert (Hin : In p (nodup string_dec (p :: ps)))
        by (apply nodup_In; now left).
      destruct (nodup string_dec (p :: ps)); [destruct Hin | discriminate].
    + destruct paths; [reflexivity | discriminate].
Qed.

End StoreExtras.

(* ================================================================== *)
(** * More on the three searches *)
(* ================================================================== *)

Module SearchFacts.

Lemma StronglySorted_app_cross {A : Type} (R : A -> A -> Prop) (a b : list A) :
  StronglySorted R (a ++ b) -> forall x y, In x a -> In y b -> R x y.
Proof.
  induction a as [|z a IH]; intros H x y Hx Hy; [destruct Hx|].
  simpl in H. inversion H as [|? ? Hs Hall]; subst.
  destruct Hx as [<-|Hx]; [|now apply IH].
  rewrite Forall_forall in Hall. apply Hall. apply in_or_app. now right.
Qed.

Lemma substring_length_le (n : nat) : forall s : string,
  (String.length (substring 0 n s) <= n)%nat.
Proof.
  induction n as [|n IH]; intros [|c s]; simpl; try lia.
  specialize (IH s). lia.
Qed.

Lemma truncated_length (n : nat) (s : string) :
  (String.length (Py.take n s +++ "...") <= n + 3)%nat.
Proof.
  rewrite PyFacts.length_append. unfold Py.take.
  pose proof (substring_length_le n s). simpl. lia.
Qed.

(** A stable sort leaves a list alone when no item sorts strictly
    before another. *)
Lemma sort_by_unordered {K A : Type} (before : K -> K -> bool)
      (l : list (K * A)) :
  (forall x y, In x l -> In y l -> before (fst x) (fst y) = false) ->
  Py.sort_by before l = l.
Proof.
  induction l as [|x l IH]; intros H; [reflexivity|].
  simpl. rewrite IH by (intros; apply H; now right).
  destruct l as [|y l]; [reflexivity|]. simpl.
  now rewrite (H y x (or_intror (or_introl eq_refl)) (or_introl eq_refl)).
Qed.

Lemma filter_all {A : Type} (p : A -> bool) (l : list A) :
  (forall x, In x l -> p x = true) -> filter p l = l.
Proof.
  induction l as [|x l IH]; intros H; [reflexivity|]. simpl.
  rewrite (H x (or_introl eq_refl)), IH; [reflexivity|].
  intros; apply H; now right.
Qed.

End SearchFacts.

Section VectorExtras.

Context {fl : PyFloat} {be : Backend}.

(** X14: vector search keeps the nearest rows. When the query can be
    embedded and [<] orders the distances of the rows of the repository
    to it (none is NaN), the results are built from [min(limit, n)] of
    the [n] rows of the repository, each with its cosine distance to the
    query, and no row left out is strictly nearer to the query than a
    row kept. *)
Theorem vector_search_keeps_the_nearest
        (self : TiDBVectorStore) (query repo_name : string) (limit : nat)
        (query_embedding : Vec) :
  fst (embed_text self query) = Some query_embedding ->
  comparable (distances (table self) repo_name query_embedding) ->
  exists kept left : list (F * CodeEmbedding.t),
    fst (vector_search self query repo_name limit) = map vector_result kept
    /\ Permutation (map snd (kept ++ left))
                   (select_repo repo_name (table self))
    /\ List.length kept
       = Nat.min limit (List.length (select_repo repo_name (table self)))
    /\ (forall x, In x (kept ++ left) ->
          fst x = cosine_distance (CodeEmbedding.embedding (snd x))
                                  query_embedding)
    /\ (forall x y, In x kept -> In y left -> fltb (fst y) (fst x) = false).
Proof.
  intros Hqe Hcmp. unfold vector_search.
  pose proof (embed_text_table self query) as Ht.
  destruct (embed_text self query) as [[qe|] self']; simpl in Hqe, Ht;
    [|discriminate].
  inversion Hqe; subst qe. simpl. rewrite Ht.
  unfold vector_query, order_by_distance.
  set (dec := map (fun r => (cosine_distance (CodeEmbedding.embedding r)
                                             query_embedding, r))
                  (select_repo repo_name (table self))).
  set (sorted := Py.sort_by fltb dec).
  assert (Hperm : Permutation sorted dec) by apply sort_by_perm.
  exists (firstn limit sorted), (skipn limit sorted).
  rewrite firstn_skipn. split; [reflexivity|]. split; [|split; [|split]].
  - rewrite (Permutation_map snd Hperm). unfold dec.
    rewrite map_map. simpl. now rewrite map_id.
  - rewrite length_firstn, (Permutation_length Hperm). unfold dec.
    now rewrite length_map.
  - intros x Hx. apply (Permutation_in _ Hperm) in Hx. unfold dec in Hx.
    apply in_map_iff in Hx. now destruct Hx as (r & <- & _).
  - assert (Hs : Py.ordered_by fltb sorted)
      by (apply sort_by_ordered; unfold dec; rewrite map_map; exact Hcmp).
    unfold Py.ordered_by in Hs. rewrite <- (firstn_skipn limit sorted) in Hs.
    intros x y Hx Hy.
    exact (SearchFacts.StronglySorted_app_cross _ _ _ Hs x y Hx Hy).
Qed.

End VectorExtras.

Section SearchExtras.

Context {fl : PyFloat} {be : Backend}.

(** X15: the [content] of a vector result is a preview of at most 1003
    characters: the stored content when it has at most 1000 characters,
    and otherwise its first 1000 characters followed by ["..."];
    [full_content] is always the stored content. *)
Theorem vector_result_content_is_a_preview
        (self : TiDBVectorStore) (query repo_name : string) (limit : nat) :
  Forall (fun r =>
            (String.length (Result.content r) <= 1003)%nat
            /\ exists row,
                 In row (select_repo repo_name (table self))
                 /\ Result.full_content r = Some (CodeEmbedding.content row)
                 /\ (Py.len (CodeEmbedding.content row) <= 1000 ->
                     Result.content r = CodeEmbedding.content row)
                 /\ (1000 < Py.len (CodeEmbedding.content row) ->
                     Result.content r
                     = Py.take 1000 (CodeEmbedding.content row) +++ "..."))
         (fst (vector_search self query repo_name limit)).
Proof.
  unfold vector_search. pose proof (embed_text_table self query) as Ht.
  destruct (embed_text self query) as [[qe|] self']; simpl in Ht |- *;
    [|constructor].
  rewrite Ht. apply Forall_forall. intros r Hr. apply in_map_iff in Hr.
  destruct Hr as ([d row] & <- & Hin).
  assert (Hrow : In row (select_repo repo_name (table self))).
  { apply vector_query_In in Hin. destruct Hin as (Hin & Hrepo & _).
    unfold select_repo. apply filter_In. split; [exact Hin|].
    now apply String.eqb_eq. }
  simpl. destruct (1000 <? Py.len (CodeEmbedding.content row)) eqn:E.
  - apply Z.ltb_lt in E. split; [apply (SearchFacts.truncated_length 1000)|].
    exists row. repeat split; auto. lia.
  - apply Z.ltb_ge in E. split; [unfold Py.len in E; lia|].
    exists row. repeat split; auto. lia.
Qed.

(** An embedding that was returned is returned again, by the cache. *)
Lemma embed_text_served_again (self : TiDBVectorStore) (text : string) :
  fst (embed_text self text) <> None ->
  embed_text (snd (embed_text self text)) text = embed_text self text.
Proof.
  unfold embed_text at 1 3 4.
  destruct (PyDict.get (md5_hexdigest text) (_embedding_cache self))
    as [c|] eqn:Eg.
  - intros _. simpl. unfold embed_text. now rewrite Eg.
  - destruct (model_encode [text]) as [[|e more]|];
      try (intros H; now destruct H).
    destruct (make_room (_embedding_cache self)) as [cache|];
      try (intros H; now destruct H).
    intros _. unfold embed_text. simpl.
    now rewrite PyDictFacts.get_set_same.
Qed.

(** X16: a vector search that could embed its query, asked again, gives
    the same results and leaves the store as the first search left it:
    the query's embedding comes from the cache and the model is not
    invoked. *)
Theorem vector_search_again_uses_cache
        (self : TiDBVectorStore) (query repo_name : string) (limit : nat)
        (query_embedding : Vec) :
  fst (embed_text self query) = Some query_embedding ->
  vector_search (snd (vector_search self query repo_name limit))
                query repo_name limit
  = vector_search self query repo_name limit.
Proof.
  intros Hqe.
  assert (Hagain : embed_text (snd (embed_text self query)) query
                   = embed_text self query)
    by (apply embed_text_served_again; now rewrite Hqe).
  unfold vector_search at 2 3.
  destruct (embed_text self query) as [[qe|] self'] eqn:Ee; simpl in Hqe;
    [|discriminate].
  simpl in Hagain |- *. unfold vector_search. now rewrite Hagain.
Qed.

Lemma like_percent_percent (c : string) : Sql.like "%%" c = true.
Proof.
  induction c as [|a c IH].
  - reflexivity.
  - rewrite SqlFacts.like_any, SqlFacts.like_percent. reflexivity.
Qed.

Lemma like_three_percent (c : string) : Sql.like "%%%" c = true.
Proof.
  rewrite SqlFacts.like_any, like_percent_percent. reflexivity.
Qed.

(** X17: the empty query, and the query ["%"], match every chunk:
    full-text search then returns the first [limit] rows of the
    repository, in storage order, whatever their content. *)
Theorem fulltext_search_empty_query_matches_all
        (self : TiDBVectorStore) (repo_name : string) (limit : nat) :
  fulltext_search self "" repo_name limit
  = map fulltext_result (firstn limit (select_repo repo_name (table self)))
  /\ fulltext_search self "%" repo_name limit
     = map fulltext_result (firstn limit (select_repo repo_name (table self))).
Proof.
  unfold fulltext_search, text_query. split; f_equal; f_equal;
    apply SearchFacts.filter_all; intros row _; unfold Sql.contains; simpl.
  - apply like_percent_percent.
  - apply like_three_percent.
Qed.

(** X18: for a query that holds none of [%], [_] and the backslash,
    full-text search returns exactly the first [limit] rows, in storage
    order, among the rows of the repository whose content contains the
    query; with a limit that covers the repository, every such row is
    returned. *)
Theorem fulltext_search_plain_query_is_exact
        (self : TiDBVectorStore) (query repo_name : string) (limit : nat) :
  Sql.plain query = true ->
  fulltext_search self query repo_name limit
  = map fulltext_result
        (firstn limit
           (filter (fun r => Py.contains query (CodeEmbedding.content r))
                   (select_repo repo_name (table self))))
  /\ ((List.length (select_repo repo_name (table self)) <= limit)%nat ->
      forall row,
        In row (table self) ->
        CodeEmbedding.repo_name row = repo_name ->
        Py.occurs query (CodeEmbedding.content row) ->
        In (fulltext_result row) (fulltext_search self query repo_name limit)).
Proof.
  intros Hp.
  assert (Heq : fulltext_search self query repo_name limit
                = map fulltext_result
                    (firstn limit
                       (filter (fun r => Py.contains query (CodeEmbedding.content r))
                               (select_repo repo_name (table self))))).
  { unfold fulltext_search, text_query. f_equal. f_equal.
    apply filter_ext. intros r. now apply SqlFacts.contains_plain. }
  split; [exact Heq|].
  intros Hlimit row Hin Hrepo Hocc. rewrite Heq. apply in_map.
  rewrite firstn_all2.
  - apply filter_In. split.
    + unfold select_repo. apply filter_In. split; [exact Hin|].
      now apply String.eqb_eq.
    + now apply SqlFacts.contains_occurs.
  - etransitivity; [apply filter_length_le | exact Hlimit].
Qed.

End SearchExtras.

Lemma vector_search_keeps_the_nearest_witness :
  fst (embed_text (be := Toy.binary64) Toy.sample_store "TODO")
  = Some (Toy.axis "TODO")
  /\ comparable (distances (be := Toy.binary64)
                           (table Toy.sample_store) "demo" (Toy.axis "TODO"))
  /\ exists kept left : list (@F Binary64.float64
                             * @CodeEmbedding.t Binary64.float64),
       fst (vector_search (be := Toy.binary64) Toy.sample_store "TODO" "demo" 1)
       = map vector_result kept
       /\ List.length kept = 1%nat
       /\ (forall x y, In x kept -> In y left ->
             @fltb Binary64.float64 (fst y) (fst x) = false).
Proof.
  assert (Hcmp : comparable (distances (be := Toy.binary64)
                               (table Toy.sample_store) "demo"
                               (Toy.axis "TODO")))
    by (apply strict_weak_amongb_spec; vm_compute; reflexivity).
  split; [reflexivity|]. split; [exact Hcmp|].
  destruct (vector_search_keeps_the_nearest
              (be := Toy.binary64)
              Toy.sample_store "TODO" "demo" 1 (Toy.axis "TODO") eq_refl Hcmp)
    as (kept & left & H1 & _ & H3 & _ & H5).
  exists kept, left. repeat split; assumption.
Defined.

Lemma vector_search_again_uses_cache_witness :
  fst (embed_text (be := Toy.binary64) Toy.sample_store "TODO")
  = Some (Toy.axis "TODO")
  /\ model_invocations
       (snd (vector_search (be := Toy.binary64) Toy.sample_store "TODO" "demo" 5))
     = 3%nat
  /\ vector_search (be := Toy.binary64)
       (snd (vector_search (be := Toy.binary64) Toy.sample_store "TODO" "demo" 5))
       "TODO" "demo" 5
     = vector_search (be := Toy.binary64) Toy.sample_store "TODO" "demo" 5.
Proof.
  split; [reflexivity|]. split; [reflexivity|].
  exact (vector_search_again_uses_cache (be := Toy.binary64)
           Toy.sample_store "TODO" "demo" 5 (Toy.axis "TODO") eq_refl).
Defined.

Lemma fulltext_search_plain_query_is_exact_witness :
  Sql.plain "TODO" = true
  /\ map Result.file_path (fulltext_search Toy.sample_store "TODO" "demo" 5)
     = ["a.py"].
Proof.
  split; [reflexivity|].
  rewrite (proj1 (fulltext_search_plain_query_is_exact
                    Toy.sample_store "TODO" "demo" 5 eq_refl)).
  reflexivity.
Defined.

(* ================================================================== *)
(** * Hybrid search when the query cannot be embedded *)
(* ================================================================== *)

Section HybridExtras.

Context {fl : PyFloat} {be : Backend}.

(** The second loop of [hybrid_search] over results none of which is in
    the dict yet: each is appended as a full-text entry. *)
Lemma fold_add_fulltext_fresh (T : list Result.t) : forall acc,
  NoDup (map result_key T) ->
  (forall t, In t T -> ~ In (result_key t) (PyDict.keys acc)) ->
  (forall t, In t T -> Result.relevance_score t = Some f_one) ->
  Py.foldM add_fulltext T acc
  = Ok (acc ++ map (fun t => (result_key t,
                              scored t "fulltext" (fdiv f_one f_ten))) T).
Proof.
  induction T as [|t T IH]; intros acc Hnd Hfresh Hrel.
  - simpl. now rewrite app_nil_r.
  - cbn [Py.foldM]. unfold add_fulltext at 1. cbv zeta.
    assert (Hget : PyDict.get (result_key t) acc = None)
      by (apply PyDictFacts.get_None; apply Hfresh; now left).
    rewrite Hget, (Hrel t (or_introl eq_refl)). cbn [getitem].
    rewrite PyDictFacts.set_new by exact Hget.
    inversion Hnd as [|? ? Hnotin Hnd']; subst.
    rewrite IH.
    + now rewrite <- app_assoc.
    + exact Hnd'.
    + intros u Hu Hin. unfold PyDict.keys in Hin. rewrite map_app in Hin.
      apply in_app_or in Hin. destruct Hin as [Hin|[Hin|[]]].
      * now apply (Hfresh u (or_intror Hu)).
      * simpl in Hin. apply Hnotin. rewrite Hin. now apply in_map.
    + intros u Hu. apply Hrel. now right.
Qed.

Lemma mapM_same_score (s : F) (l : list Result.t) :
  Forall (fun x => Result.combined_score x = Some s) l ->
  Py.mapM (fun x => k <- getitem "combined_score" (Result.combined_score x) ;;
                    Ok (k, x)) l
  = Ok (map (fun x => (s, x)) l).
Proof.
  induction 1 as [|x l Hx _ IH]; [reflexivity|].
  cbn [Py.mapM map]. rewrite Hx, IH. reflexivity.
Qed.

(** Results that all have the same score come back from the sort as they
    went in. *)
Lemma sorted_same_score (s : F) (l : list Result.t) :
  fltb s s = false ->
  Forall (fun x => Result.combined_score x = Some s) l ->
  sorted_by_combined_score l = Ok l.
Proof.
  intros Hs H. unfold sorted_by_combined_score.
  rewrite (mapM_same_score s) by exact H. cbv iota beta.
  rewrite SearchFacts.sort_by_unordered.
  - rewrite map_map. simpl. now rewrite map_id.
  - intros x y Hx Hy. apply in_map_iff in Hx, Hy.
    destruct Hx as (? & <- & _), Hy as (? & <- & _). exact Hs.
Qed.

(** X19: when the query cannot be embedded, hybrid search over a
    well-formed corpus degrades to full-text search: it returns the
    full-text results, in their order, each marked ["fulltext"] with
    [combined_score = relevance / 10 = 1.0 / 10]. Of the floats only
    this is used: [1.0 / 10] is not below itself. *)
Theorem hybrid_search_without_embedding_is_fulltext
        (self : TiDBVectorStore) (query repo_name : string) (limit : nat) :
  fltb (fdiv f_one f_ten) (fdiv f_one f_ten) = false ->
  fst (embed_text self query) = None ->
  corpus_ok (table self) repo_name ->
  fst (hybrid_search self query repo_name limit)
  = Ok (map (fun t => scored t "fulltext" (fdiv f_one f_ten))
            (fulltext_search self query repo_name limit)).
Proof.
  intros Htenth Hnone Hok. rewrite hybrid_search_unfold.
  assert (HV : fst (vector_search self query repo_name limit) = []).
  { unfold vector_search.
    destruct (embed_text self query) as [[qe|] self']; simpl in Hnone;
      [discriminate | reflexivity]. }
  assert (HT : fulltext_search (snd (vector_search self query repo_name limit))
                               query repo_name limit
               = fulltext_search self query repo_name limit).
  { unfold fulltext_search. now rewrite vector_search_table. }
  rewrite HV, HT. clear HV HT.
  destruct (fulltext_search_shape self query repo_name limit Hok)
    as (Hnd & Hcolon & _).
  set (T := fulltext_search self query repo_name limit) in *.
  unfold combine_results. cbn [Py.foldM].
  rewrite fold_add_fulltext_fresh.
  - cbn [app]. unfold PyDict.values. rewrite map_map. cbn [snd].
    rewrite (sorted_same_score (fdiv f_one f_ten) _ Htenth).
    + cbv iota beta. f_equal. apply firstn_all2. rewrite length_map.
      unfold T, fulltext_search, text_query.
      rewrite length_map, length_firstn. apply Nat.le_min_l.
    + apply Forall_forall. intros x Hx. apply in_map_iff in Hx.
      now destruct Hx as (t & <- & _).
  - now apply NoDup_result_keys.
  - intros t _ [].
  - intros t Ht. unfold T, fulltext_search in Ht. apply in_map_iff in Ht.
    now destruct Ht as (row & <- & _).
Qed.

End HybridExtras.

Lemma hybrid_search_without_embedding_is_fulltext_witness :
  @fltb Binary64.float64 (fdiv f_one f_ten) (fdiv f_one f_ten) = false
  /\ fst (embed_text (be := Toy.down) Toy.sample_store "TODO") = None
  /\ corpus_ok (table Toy.sample_store) "demo"
  /\ match fst (hybrid_search (be := Toy.down)
                  Toy.sample_store "TODO" "demo" 5) with
     | Ok results =>
         map (fun r => (Result.file_path r, Result.search_type r,
                        Result.combined_score r)) results
         = [("a.py", Some "fulltext",
             Some (PrimFloat.div 1%float 10%float : @F Binary64.float64))]
     | Raise _ => False
     end.
Proof.
  split; [reflexivity|]. split; [reflexivity|].
  split; [exact sample_corpus_ok|].
  rewrite (hybrid_search_without_embedding_is_fulltext
             (be := Toy.down)
             Toy.sample_store "TODO" "demo" 5 eq_refl eq_refl sample_corpus_ok).
  reflexivity.
Defined.

(* ================================================================== *)
(** * The search tool *)
(* ================================================================== *)

Section MergeKeeps.

Context {fl : PyFloat}.

Variable Q : Result.t -> Prop.
Hypothesis Q_scored : forall r type score, Q r -> Q (scored r type score).

(** What holds of every result, and is kept by [scored], holds of every
    entry the two loops of [hybrid_search] leave in the dict. *)
Lemma fold_add_vector_keeps (V : list Result.t) : forall acc D,
  Forall Q V ->
  Forall (fun kv => Q (snd kv)) acc ->
  Py.foldM add_vector V acc = Ok D ->
  Forall (fun kv => Q (snd kv)) D.
Proof.
  induction V as [|v V IH]; intros acc D HV Hacc H.
  - simpl in H. now inversion H; subst.
  - cbn [Py.foldM] in H. unfold add_vector in H at 1.
    inversion HV as [|? ? Hv HV']; subst.
    destruct (Result.similarity_score v) as [s|]; cbn [getitem] in H;
      [|discriminate].
    apply (IH _ D HV') in H; [exact H|].
    apply Forall_set; [exact Hacc|]. simpl. now apply Q_scored.
Qed.

Lemma fold_add_fulltext_keeps (T : list Result.t) : forall acc D,
  Forall Q T ->
  Forall (fun kv => Q (snd kv)) acc ->
  Py.foldM add_fulltext T acc = Ok D ->
  Forall (fun kv => Q (snd kv)) D.
Proof.
  induction T as [|t T IH]; intros acc D HT Hacc H.
  - simpl in H. now inversion H; subst.
  - cbn [Py.foldM] in H. unfold add_fulltext in H at 1. cbv zeta in H.
    inversion HT as [|? ? Ht HT']; subst.
    destruct (PyDict.get (result_key t) acc) as [found|] eqn:Eg.
    + destruct (Result.similarity_score found) as [s|]; cbn [getitem] in H;
        [|discriminate].
      destruct (Result.relevance_score t) as [rel|]; cbn [getitem] in H;
        [|discriminate].
      apply (IH _ D HT') in H; [exact H|].
      apply Forall_set; [exact Hacc|]. simpl. apply Q_scored.
      apply PyDictFacts.get_In in Eg. rewrite Forall_forall in Hacc.
      exact (Hacc _ Eg).
    + destruct (Result.relevance_score t) as [rel|]; cbn [getitem] in H;
        [|discriminate].
      apply (IH _ D HT') in H; [exact H|].
      apply Forall_set; [exact Hacc|]. simpl. now apply Q_scored.
Qed.

Lemma combine_results_keeps (V T : list Result.t) (D : PyDict.t Result.t) :
  Forall Q V -> Forall Q T ->
  combine_results V T = Ok D ->
  Forall Q (PyDict.values D).
Proof.
  intros HV HT H. unfold combine_results in H.
  destruct (Py.foldM add_vector V []) as [D1|e] eqn:E1; [|discriminate].
  apply fold_add_vector_keeps in E1; [|exact HV|constructor].
  apply fold_add_fulltext_keeps in H; [|exact HT|exact E1].
  unfold PyDict.values. apply Forall_forall. intros e He.
  apply in_map_iff in He. destruct He as (kv & <- & Hkv).
  rewrite Forall_forall in H. exact (H kv Hkv).
Qed.

Lemma mapM_decorate_snd (l : list Result.t) : forall dec,
  Py.mapM (fun x => k <- getitem "combined_score" (Result.combined_score x) ;;
                    Ok (k, x)) l = Ok dec ->
  map snd dec = l.
Proof.
  induction l as [|x l IH]; intros dec H.
  - simpl in H. now inversion H.
  - cbn [Py.mapM] in H.
    destruct (Result.combined_score x) as [k|]; cbn [getitem] in H;
      [|discriminate].
    destruct (Py.mapM _ l) as [ys|e]; [|discriminate].
    inversion H; subst. simpl. now rewrite (IH ys eq_refl).
Qed.

Lemma sorted_by_combined_score_perm (l sorted : list Result.t) :
  sorted_by_combined_score l = Ok sorted -> Permutation sorted l.
Proof.
  unfold sorted_by_combined_score. intros H.
  destruct (Py.mapM _ l) as [dec|e] eqn:E; [|discriminate].
  inversion H; subst. rewrite <- (mapM_decorate_snd l dec E).
  apply Permutation_map. apply sort_by_perm.
Qed.

End MergeKeeps.

Section ToolExtras.

Context {fl : PyFloat} {be : Backend}.

Lemma shows_row_scored (row : CodeEmbedding.t) (r : Result.t)
      (type : string) (score : F) :
  shows_row row r -> shows_row row (scored r type score).
Proof. intros H. exact H. Qed.

Lemma vector_result_shows (d : F) (row : CodeEmbedding.t) :
  shows_row row (vector_result (d, row)).
Proof.
  unfold shows_row. simpl. repeat split.
  destruct (1000 <? Py.len (CodeEmbedding.content row)) eqn:E.
  - right. apply Z.ltb_lt in E. now split.
  - now left.
Qed.

Lemma vector_search_from_rows
      (self : TiDBVectorStore) (query repo_name : string) (limit : nat) :
  Forall (from_rows (select_repo repo_name (table self)))
         (fst (vector_search self query repo_name limit)).
Proof.
  unfold vector_search. pose proof (embed_text_table self query) as Ht.
  destruct (embed_text self query) as [[qe|] self']; simpl in Ht |- *;
    [|constructor].
  rewrite Ht. apply Forall_forall. intros r Hr. apply in_map_iff in Hr.
  destruct Hr as ([d row] & <- & Hin). exists row. split.
  - apply vector_query_In in Hin. destruct Hin as (Hin & Hrepo & _).
    unfold select_repo. apply filter_In. split; [exact Hin|].
    now apply String.eqb_eq.
  - apply vector_result_shows.
Qed.

Lemma fulltext_search_from_rows
      (self : TiDBVectorStore) (query repo_name : string) (limit : nat) :
  Forall (fun r => exists row,
            In row (select_repo repo_name (table self))
            /\ r = fulltext_result row)
         (fulltext_search self query repo_name limit).
Proof.
  unfold fulltext_search, text_query. apply Forall_forall. intros r Hr.
  apply in_map_iff in Hr. destruct Hr as (row & <- & Hin).
  exists row. split; [|reflexivity].
  apply ListFacts.firstn_In in Hin. now apply filter_In in Hin.
Qed.

Lemma hybrid_search_table
      (self : TiDBVectorStore) (query repo_name : string) (limit : nat) :
  table (snd (hybrid_search self query repo_name limit)) = table self.
Proof.
  unfold hybrid_search.
  pose proof (vector_search_table self query repo_name limit) as H.
  destruct (vector_search self query repo_name limit) as [V self'].
  exact H.
Qed.

Lemma hybrid_search_from_rows
      (self : TiDBVectorStore) (query repo_name : string) (limit : nat)
      (results : list Result.t) :
  fst (hybrid_search self query repo_name limit) = Ok results ->
  Forall (from_rows (select_repo repo_name (table self))) results.
Proof.
  rewrite hybrid_search_unfold. intros H.
  destruct (combine_results _ _) as [D|e] eqn:Ec; [|discriminate].
  destruct (sorted_by_combined_score _) as [sorted|e] eqn:Es; [|discriminate].
  inversion H; subst.
  apply (combine_results_keeps
           (from_rows (select_repo repo_name (table self)))) in Ec.
  - apply sorted_by_combined_score_perm in Es.
    apply Forall_forall. intros r Hr. apply ListFacts.firstn_In in Hr.
    apply (Permutation_in _ Es) in Hr.
    rewrite Forall_forall in Ec. now apply Ec.
  - intros r type score (row & Hin & Hs). exists row.
    split; [exact Hin | now apply shows_row_scored].
  - apply vector_search_from_rows.
  - pose proof (fulltext_search_from_rows
                  (snd (vector_search self query repo_name limit))
                  query repo_name limit) as HT.
    rewrite vector_search_table in HT.
    eapply Forall_impl; [|exact HT].
    intros r (row & Hin & ->). exists row. split; [exact Hin|].
    unfold shows_row. simpl. repeat split. now left.
Qed.

(** Over a well-formed corpus hybrid search returns, with at most
    [limit] results; no order on the scores is needed for that. *)
Lemma hybrid_search_returns
      (self : TiDBVectorStore) (query repo_name : string) (limit : nat) :
  corpus_ok (table self) repo_name ->
  exists results,
    fst (hybrid_search self query repo_name limit) = Ok results
    /\ (List.length results <= limit)%nat.
Proof.
  intros Hcorpus. rewrite hybrid_search_unfold.
  destruct (vector_search_shape self query repo_name limit Hcorpus)
    as (HVnd & HVc & HVs).
  assert (Hcorpus' : corpus_ok
                       (table (snd (vector_search self query repo_name limit)))
                       repo_name)
    by now rewrite vector_search_table.
  destruct (fulltext_search_shape _ query repo_name limit Hcorpus')
    as (HTnd & HTc & HTr).
  destruct (combine_results_spec _ _
              (NoDup_result_keys _ HVnd HVc) (NoDup_result_keys _ HTnd HTc)
              HVs HTr)
    as (D & Hcomb & _ & HDok & _).
  assert (Hscored : Forall (fun e => Result.combined_score e <> None)
                           (PyDict.values D)).
  { unfold PyDict.values. apply Forall_forall. intros e He.
    apply in_map_iff in He. destruct He as (kv & <- & Hkv).
    rewrite Forall_forall in HDok. now destruct (HDok kv Hkv). }
  destruct (mapM_decorate _ Hscored) as (dec & Hm & _).
  rewrite Hcomb. unfold sorted_by_combined_score. rewrite Hm.
  eexists. split; [reflexivity|].
  rewrite length_firstn. apply Nat.le_min_l.
Qed.

Lemma vector_search_length
      (self : TiDBVectorStore) (query repo_name : string) (limit : nat) :
  (List.length (fst (vector_search self query repo_name limit)) <= limit)%nat.
Proof.
  unfold vector_search.
  destruct (embed_text self query) as [[qe|] self']; simpl; [|lia].
  unfold vector_query. rewrite length_map, length_firstn. apply Nat.le_min_l.
Qed.

Lemma fulltext_search_length
      (self : TiDBVectorStore) (query repo_name : string) (limit : nat) :
  (List.length (fulltext_search self query repo_name limit) <= limit)%nat.
Proof.
  unfold fulltext_search, text_query.
  rewrite length_map, length_firstn. apply Nat.le_min_l.
Qed.

Lemma processed_content_length (search_type : string) (r : Result.t) :
  (String.length (Processed.content (processed_result search_type r)) <= 503)%nat.
Proof.
  simpl. destruct (500 <? Py.len (Result.content r)) eqn:E.
  - apply (SearchFacts.truncated_length 500).
  - apply Z.ltb_ge in E. unfold Py.len in E. lia.
Qed.

(** X20: whatever the search type, each result of the search tool shows
    a row of the repository: it has the row's path, chunk id and
    metadata; its [content] has at most 503 characters; its
    [full_content] is the row's content or, when that is longer than
    1000 characters, possibly only its first 1000 characters followed by
    ["..."]. For the search type ["fulltext"] it is always the row's
    content. *)
Theorem search_tool_results_show_rows
        (store : TiDBVectorStore)
        (query repo_name search_type : string) (limit : nat) :
  Forall (fun p =>
            exists row,
              In row (select_repo repo_name (table store))
              /\ Processed.file_path p = CodeEmbedding.file_path row
              /\ Processed.chunk_id p = CodeEmbedding.chunk_id row
              /\ Processed.metadata p = CodeEmbedding.chunk_metadata row
              /\ (String.length (Processed.content p) <= 503)%nat
              /\ (Processed.full_content p = CodeEmbedding.content row
                  \/ (1000 < Py.len (CodeEmbedding.content row)
                      /\ Processed.full_content p
                         = Py.take 1000 (CodeEmbedding.content row) +++ "..."))
              /\ (search_type = "fulltext" ->
                  Processed.full_content p = CodeEmbedding.content row))
         (SearchResponse.results
            (fst (CodeSearchTool_run (Some store) query repo_name
                                     search_type limit))).
Proof.
  assert (Hgen : forall results,
             Forall (from_rows (select_repo repo_name (table store))) results ->
             search_type <> "fulltext" ->
             Forall (fun p =>
               exists row,
                 In row (select_repo repo_name (table store))
                 /\ Processed.file_path p = CodeEmbedding.file_path row
                 /\ Processed.chunk_id p = CodeEmbedding.chunk_id row
                 /\ Processed.metadata p = CodeEmbedding.chunk_metadata row
                 /\ (String.length (Processed.content p) <= 503)%nat
                 /\ (Processed.full_content p = CodeEmbedding.content row
                     \/ (1000 < Py.len (CodeEmbedding.content row)
                         /\ Processed.full_content p
                            = Py.take 1000 (CodeEmbedding.content row) +++ "..."))
                 /\ (search_type = "fulltext" ->
                     Processed.full_content p = CodeEmbedding.content row))
               (map (processed_result search_type) results)).
  { intros results Hres Hne. apply Forall_forall. intros p Hp.
    apply in_map_iff in Hp. destruct Hp as (r & <- & Hr).
    rewrite Forall_forall in Hres.
    destruct (Hres r Hr) as (row & Hin & Hp & Hc & Hm & Hcontent).
    exists row. split; [exact Hin|]. split; [exact Hp|]. split; [exact Hc|].
    split; [exact Hm|]. split; [apply processed_content_length|].
    split; [exact Hcontent | intros E; now destruct Hne]. }
  unfold CodeSearchTool_run, dispatch_search.
  destruct (String.eqb search_type "vector") eqn:E1.
  - apply String.eqb_eq in E1.
    pose proof (vector_search_from_rows store query repo_name limit) as HV.
    destruct (vector_search store query repo_name limit) as [V store'].
    simpl in *. apply Hgen; [exact HV|]. subst. discriminate.
  - destruct (String.eqb search_type "fulltext") eqn:E2.
    + simpl. apply Forall_forall. intros p Hp.
      apply in_map_iff in Hp. destruct Hp as (r & <- & Hr).
      pose proof (fulltext_search_from_rows store query repo_name limit) as HT.
      rewrite Forall_forall in HT. destruct (HT r Hr) as (row & Hin & ->).
      exists row. split; [exact Hin|]. repeat split.
      * apply processed_content_length.
      * now left.
    + apply String.eqb_neq in E2.
      destruct (String.eqb search_type "hybrid") eqn:E3; [|constructor].
      pose proof (hybrid_search_from_rows store query repo_name limit) as HH.
      destruct (hybrid_search store query repo_name limit) as [[results|e] store'];
        simpl in *; [|constructor].
      apply Hgen; [now apply HH | exact E2].
Qed.

(** X21: over a well-formed corpus the search tool succeeds exactly for
    the search types ["vector"], ["fulltext"] and ["hybrid"], with at
    most [limit] results, counted in [results_count]; for any other
    type it reports the invalid type. The table of the store is never
    changed. *)
Theorem search_tool_succeeds_on_known_types
        (store : TiDBVectorStore)
        (query repo_name search_type : string) (limit : nat) :
  corpus_ok (table store) repo_name ->
  let response :=
    fst (CodeSearchTool_run (Some store) query repo_name search_type limit) in
  (SearchResponse.success response = true <-> known_search_type search_type)
  /\ (SearchResponse.success response = true ->
      SearchResponse.results_count response
      = Some (List.length (SearchResponse.results response)))
  /\ (SearchResponse.success response = false ->
      response = search_failure ("Invalid search type: " +++ search_type))
  /\ (List.length (SearchResponse.results response) <= limit)%nat
  /\ exists store',
       snd (CodeSearchTool_run (Some store) query repo_name search_type limit)
       = Some store'
       /\ table store' = table store.
Proof.
  intros Hcorpus. unfold CodeSearchTool_run, dispatch_search, known_search_type.
  destruct (String.eqb search_type "vector") eqn:E1.
  - apply String.eqb_eq in E1.
    pose proof (vector_search_length store query repo_name limit) as HL.
    pose proof (vector_search_table store query repo_name limit) as HT.
    destruct (vector_search store query repo_name limit) as [V store'].
    simpl in *. rewrite !length_map.
    repeat split; auto; try discriminate. now exists store'.
  - destruct (String.eqb search_type "fulltext") eqn:E2.
    + apply String.eqb_eq in E2.
      pose proof (fulltext_search_length store query repo_name limit) as HL.
      simpl. rewrite !length_map.
      repeat split; auto; try discriminate. now exists store.
    + destruct (String.eqb search_type "hybrid") eqn:E3.
      * apply String.eqb_eq in E3.
        destruct (hybrid_search_returns store query repo_name limit Hcorpus)
          as (results & Hres & HL).
        pose proof (hybrid_search_table store query repo_name limit) as HT.
        destruct (hybrid_search store query repo_name limit) as [r store'].
        simpl in Hres, HT. subst r. simpl. rewrite !length_map.
        repeat split; auto; try discriminate. now exists store'.
      * apply String.eqb_neq in E1, E2, E3. simpl.
        repeat split; try discriminate; try lia.
        -- intros [H|[H|H]]; contradiction.
        -- now exists store.
Qed.

End ToolExtras.

Lemma search_tool_succeeds_on_known_types_witness :
  corpus_ok (table Toy.sample_store) "demo"
  /\ SearchResponse.results_count
       (fst (CodeSearchTool_run (be := Toy.binary64) (Some Toy.sample_store)
                                "TODO" "demo" "hybrid" 5))
     = Some 2%nat
  /\ SearchResponse.success
       (fst (CodeSearchTool_run (be := Toy.binary64) (Some Toy.sample_store)
                                "TODO" "demo" "semantic" 5))
     = false.
Proof.
  split; [exact sample_corpus_ok|].
  pose proof (search_tool_succeeds_on_known_types (be := Toy.binary64)
                Toy.sample_store "TODO" "demo" "hybrid" 5 sample_corpus_ok)
    as (Hs & Hc & _).
  split; [|reflexivity].
  rewrite (Hc (proj2 Hs (or_intror (or_intror eq_refl)))). reflexivity.
Defined.

(* ================================================================== *)
(** * The indexing tool and the answerer *)
(* ================================================================== *)

Section IndexerToolExtras.

Context {fl : PyFloat} {be : Backend}.

(** The chunks a repository has once [index_repository] is done with it
    are those the result counts. *)
Lemma stats_after_index_repository
      (self : TiDBVectorStore) (repo_data : RepoData.t) :
  Stats.total_chunks
    (get_repository_stats (snd (index_repository self repo_data))
                          (stored_name repo_data))
  = IndexResult.total_chunks (fst (index_repository self repo_data)).
Proof.
  unfold get_repository_stats. cbn [Stats.total_chunks].
  rewrite index_repository_rows, index_repository_result. reflexivity.
Qed.

(** The indexing tool when it does index: on a forced run, or when the
    name it looks up has no rows. *)
Lemma indexer_tool_indexes
      (store : TiDBVectorStore) (repo_data : RepoData.t)
      (force_reindex : bool) :
  let repo_name :=
    match RepoData.repo_name repo_data with
    | Some n => n
    | None => "unknown_repo"
    end in
  force_reindex = true \/ select_repo repo_name (table store) = [] ->
  CodeIndexerTool_run (Some store) repo_data force_reindex
  = ({| IndexResponse.success := true;
        IndexResponse.message :=
          Some ("Successfully indexed repository '" +++ repo_name +++ "'");
        IndexResponse.error := None;
        IndexResponse.existing_stats := None;
        IndexResponse.indexed_files :=
          IndexResult.indexed_files (fst (index_repository store repo_data));
        IndexResponse.total_chunks :=
          IndexResult.total_chunks (fst (index_repository store repo_data));
        IndexResponse.reindexed := Some force_reindex |},
     Some (snd (index_repository store repo_data))).
Proof.
  intros repo_name Hcase. unfold CodeIndexerTool_run. fold repo_name.
  assert (Hskip : negb force_reindex
                  && (0 <? Stats.total_chunks
                             (get_repository_stats store repo_name))%nat
                  = false).
  { destruct Hcase as [-> | Hnone]; [reflexivity|].
    unfold get_repository_stats. rewrite Hnone. apply andb_false_r. }
  rewrite Hskip. unfold CodeIndexerTool_index.
  pose proof (index_repository_result store repo_data) as Hres.
  destruct (index_repository store repo_data) as [result store1].
  cbn [fst snd] in Hres |- *. rewrite Hres. reflexivity.
Qed.

(** X22: a forced run of the indexing tool on a named repository that
    stores at least one chunk is followed, without [force_reindex], by a
    run that indexes nothing: it leaves the store as it is and reports
    the repository as already indexed, with the chunk count of the
    forced run. *)
Theorem indexer_tool_second_run_is_skipped
        (store : TiDBVectorStore) (repo_data : RepoData.t) (name : string) :
  RepoData.repo_name repo_data = Some name ->
  (0 < IndexResponse.total_chunks
         (fst (CodeIndexerTool_run (Some store) repo_data true)))%nat ->
  exists store1,
    snd (CodeIndexerTool_run (Some store) repo_data true) = Some store1
    /\ snd (CodeIndexerTool_run (Some store1) repo_data false) = Some store1
    /\ IndexResponse.message
         (fst (CodeIndexerTool_run (Some store1) repo_data false))
       = Some ("Repository '" +++ name +++ "' already indexed")
    /\ IndexResponse.reindexed
         (fst (CodeIndexerTool_run (Some store1) repo_data false))
       = Some false
    /\ IndexResponse.total_chunks
         (fst (CodeIndexerTool_run (Some store1) repo_data false))
       = IndexResponse.total_chunks
           (fst (CodeIndexerTool_run (Some store) repo_data true)).
Proof.
  intros Hname.
  rewrite (indexer_tool_indexes store repo_data true (or_introl eq_refl)).
  cbn [fst snd IndexResponse.total_chunks]. intros Hpos.
  pose proof (stats_after_index_repository store repo_data) as Hstats.
  unfold stored_name in Hstats. rewrite Hname in Hstats.
  exists (snd (index_repository store repo_data)).
  split; [reflexivity|].
  unfold CodeIndexerTool_run. rewrite Hname. cbn [negb andb].
  rewrite Hstats.
  destruct (Nat.ltb_spec 0
              (IndexResult.total_chunks (fst (index_repository store repo_data))))
    as [_|Hle]; [|lia].
  cbn [fst snd IndexResponse.message IndexResponse.reindexed
       IndexResponse.total_chunks].
  repeat split.
Qed.

(** X23: a repository without [repo_name] is announced by the indexing
    tool as ['unknown_repo'] but filed by the store under the empty
    name. Unless rows named ['unknown_repo'] come from elsewhere, the
    tool never finds it indexed: every run, forced or not, indexes it
    again, and still no row is named ['unknown_repo'] afterwards. *)
Theorem nameless_repository_is_indexed_on_every_run
        (store : TiDBVectorStore) (repo_data : RepoData.t)
        (force_reindex : bool) :
  RepoData.repo_name repo_data = None ->
  select_repo "unknown_repo" (table store) = [] ->
  exists store1,
    snd (CodeIndexerTool_run (Some store) repo_data force_reindex)
    = Some store1
    /\ IndexResponse.message
         (fst (CodeIndexerTool_run (Some store) repo_data force_reindex))
       = Some "Successfully indexed repository 'unknown_repo'"
    /\ IndexResponse.existing_stats
         (fst (CodeIndexerTool_run (Some store) repo_data force_reindex))
       = None
    /\ select_repo "unknown_repo" (table store1) = []
    /\ select_repo "" (table store1)
       = flat_map (file_rows "" (RepoData.github_url repo_data))
                  (RepoData.files repo_data).
Proof.
  intros Hname Hnone.
  pose proof (index_repository_rows store repo_data) as Hrows.
  destruct (index_repository_table store repo_data)
    as (rows & Htable & Hall & _).
  unfold stored_name in Hrows. rewrite Hname in Hrows, Htable, Hall.
  pose proof (indexer_tool_indexes store repo_data force_reindex) as Hrun.
  rewrite Hname in Hrun. cbv zeta in Hrun.
  rewrite (Hrun (or_intror Hnone)).
  cbn [fst snd IndexResponse.message IndexResponse.existing_stats].
  exists (snd (index_repository store repo_data)).
  split; [reflexivity|]. split; [reflexivity|].
  split; [reflexivity|]. split; [|exact Hrows].
  rewrite Htable, select_repo_app.
  rewrite select_delete_other by discriminate.
  rewrite Hnone. simpl. apply (select_none ""); [discriminate | exact Hall].
Qed.

End IndexerToolExtras.

Section RagExtras.

Context {fl : PyFloat} {be : Backend}.

(** X24: asked about a repository without rows, the answerer replies
    that it could not find relevant code, whatever the question, the
    user level and the language model, which it does not call. *)
Theorem rag_on_empty_repository_finds_nothing
        (store : TiDBVectorStore)
        (question repo_name user_level : string) (llm : option Llm) :
  select_repo repo_name (table store) = [] ->
  fst (RAGQueryTool_run (Some store) question repo_name user_level llm)
  = {| RagResponse.success := true;
       RagResponse.error := None;
       RagResponse.answer :=
         Some "I couldn't find any relevant code for your question. The repository might not be indexed yet or your question might be too specific.";
       RagResponse.sources := [];
       RagResponse.search_results := [];
       RagResponse.fallback_mode := false;
       RagResponse.context_used := None;
       RagResponse.user_level := None;
       RagResponse.llm_error := None |}.
Proof.
  intros Hempty.
  destruct (searches_on_empty_repository store question repo_name 8 Hempty)
    as (_ & _ & Hh).
  unfold RAGQueryTool_run, CodeSearchTool_run, dispatch_search.
  cbn [String.eqb Ascii.eqb Bool.eqb].
  destruct (hybrid_search store question repo_name 8) as [r store'].
  cbn [fst] in Hh. subst r. reflexivity.
Qed.

(** X25: over a well-formed corpus whose rows have metadata, the
    answerer succeeds with an answer whatever the language model does:
    absent, answering, or raising. Its search results are at most 8, its
    sources describe the first five of them, [fallback_mode] is set only
    without a model, and [llm_error] only with one. *)
Theorem rag_answers_whatever_the_llm_does
        (store : TiDBVectorStore)
        (question repo_name user_level : string) (llm : option Llm) :
  corpus_ok (table store) repo_name ->
  Forall (fun row => CodeEmbedding.chunk_metadata row <> None)
         (select_repo repo_name (table store)) ->
  let response :=
    fst (RAGQueryTool_run (Some store) question repo_name user_level llm) in
  RagResponse.success response = true
  /\ RagResponse.answer response <> None
  /\ (List.length (RagResponse.search_results response) <= 8)%nat
  /\ map Source.file_path (RagResponse.sources response)
     = map Processed.file_path (firstn 5 (RagResponse.search_results response))
  /\ (RagResponse.fallback_mode response = true -> llm = None)
  /\ (RagResponse.llm_error response <> None -> llm <> None).
Proof.
  intros Hcorpus _.
  destruct (hybrid_search_returns store question repo_name 8 Hcorpus)
    as (results & Hres & Hlen).
  unfold RAGQueryTool_run, CodeSearchTool_run, dispatch_search.
  cbn [String.eqb Ascii.eqb Bool.eqb].
  destruct (hybrid_search store question repo_name 8) as [r store'].
  cbn [fst] in Hres. subst r.
  cbn [SearchResponse.success SearchResponse.results negb].
  assert (Hlen' : (List.length (map (processed_result "hybrid") results) <= 8)%nat)
    by now rewrite length_map.
  assert (Hsrc : forall chunks : list Processed.t,
             map Source.file_path (map source_of (firstn 5 chunks))
             = map Processed.file_path (firstn 5 chunks)).
  { intros chunks. rewrite map_map. reflexivity. }
  destruct (map (processed_result "hybrid") results) as [|chunk chunks] eqn:E.
  - cbn. repeat split; try discriminate; auto; lia.
  - destruct llm as [[invoke|call]|].
    + destruct (invoke _ _); cbn [fst RagResponse.success RagResponse.answer
        RagResponse.search_results RagResponse.sources
        RagResponse.fallback_mode RagResponse.llm_error rag_reply];
        (split; [reflexivity|]); (split; [discriminate|]);
        (split; [exact Hlen'|]); (split; [apply Hsrc|]);
        split; discriminate.
    + destruct (call _); cbn [fst RagResponse.success RagResponse.answer
        RagResponse.search_results RagResponse.sources
        RagResponse.fallback_mode RagResponse.llm_error rag_reply];
        (split; [reflexivity|]); (split; [discriminate|]);
        (split; [exact Hlen'|]); (split; [apply Hsrc|]);
        split; discriminate.
    + cbn [fst RagResponse.success RagResponse.answer
        RagResponse.search_results RagResponse.sources
        RagResponse.fallback_mode RagResponse.llm_error rag_reply].
      split; [reflexivity|]. split; [discriminate|].
      split; [exact Hlen'|]. split; [apply Hsrc|].
      split; [reflexivity | intros H; now destruct H].
Qed.

End RagExtras.

Lemma indexer_tool_second_run_is_skipped_witness :
  RepoData.repo_name Toy.sample_repo = Some "demo"
  /\ IndexResponse.total_chunks
       (fst (CodeIndexerTool_run (be := Toy.binary64) (Some TiDBVectorStore_init)
                                 Toy.sample_repo true))
     = 2%nat
  /\ exists store1,
       snd (CodeIndexerTool_run (be := Toy.binary64) (Some TiDBVectorStore_init)
                                Toy.sample_repo true)
       = Some store1
       /\ snd (CodeIndexerTool_run (be := Toy.binary64) (Some store1)
                                   Toy.sample_repo false)
          = Some store1.
Proof.
  split; [reflexivity|]. split; [reflexivity|].
  destruct (indexer_tool_second_run_is_skipped (be := Toy.binary64)
              TiDBVectorStore_init Toy.sample_repo "demo" eq_refl)
    as (store1 & H1 & H2 & _).
  - vm_compute. lia.
  - exists store1. split; assumption.
Defined.

Lemma nameless_repository_is_indexed_on_every_run_witness :
  exists store1,
    snd (CodeIndexerTool_run (be := Toy.binary64) (Some TiDBVectorStore_init)
           {| RepoData.repo_name := None;
              RepoData.github_url := "https://example.org/demo";
              RepoData.files := RepoData.files Toy.sample_repo |}
           false)
    = Some store1
    /\ select_repo "unknown_repo" (table store1) = []
    /\ List.length (select_repo "" (table store1)) = 2%nat.
Proof.
  destruct (nameless_repository_is_indexed_on_every_run (be := Toy.binary64)
              TiDBVectorStore_init
              {| RepoData.repo_name := None;
                 RepoData.github_url := "https://example.org/demo";
                 RepoData.files := RepoData.files Toy.sample_repo |}
              false eq_refl eq_refl)
    as (store1 & H1 & _ & _ & H4 & H5).
  exists store1. split; [exact H1|]. split; [exact H4|].
  rewrite H5. reflexivity.
Defined.

Lemma rag_on_empty_repository_finds_nothing_witness :
  select_repo "other" (table Toy.sample_store) = []
  /\ RagResponse.sources
       (fst (RAGQueryTool_run (be := Toy.binary64) (Some Toy.sample_store)
               "what is x?" "other" "beginner"
               (Some (Callable (fun prompt => Answer prompt)))))
     = [].
Proof.
  split; [reflexivity|].
  rewrite (rag_on_empty_repository_finds_nothing (be := Toy.binary64)
             Toy.sample_store "what is x?" "other" "beginner"
             (Some (Callable (fun prompt => Answer prompt))) eq_refl).
  reflexivity.
Defined.

Lemma rag_answers_whatever_the_llm_does_witness :
  corpus_ok (table Toy.sample_store) "demo"
  /\ Forall (fun row => CodeEmbedding.chunk_metadata row <> None)
            (select_repo "demo" (table Toy.sample_store))
  /\ RagResponse.success
       (fst (RAGQueryTool_run (be := Toy.binary64) (Some Toy.sample_store)
               "TODO" "demo" "beginner"
               (Some (Callable (fun _ => LlmError "timeout")))))
     = true.
Proof.
  assert (Hmeta : Forall (fun row => @CodeEmbedding.chunk_metadata Binary64.float64 row <> None)
                         (select_repo "demo" (table Toy.sample_store)))
    by (vm_compute; repeat constructor; discriminate).
  split; [exact sample_corpus_ok|]. split; [exact Hmeta|].
  exact (proj1 (rag_answers_whatever_the_llm_does (be := Toy.binary64)
                  Toy.sample_store "TODO" "demo" "beginner"
                  (Some (Callable (fun _ => LlmError "timeout")))
                  sample_corpus_ok Hmeta)).
Defined.

(* ================================================================== *)
(** * The agent's search *)
(* ================================================================== *)

Section AgentExtras.

Context {fl : PyFloat} {be : Backend}.


End AgentExtras.

